(** * us_presidents.py: text extractors, list codec and CSV round trip

    A shallow embedding of [src/us_presidents.py].  A Python [str] is a
    sequence of code points; a cell of a DataFrame is a dynamically typed
    value; a function that may raise returns a [result]; a DataFrame is an
    object in a store, which [df.copy()] allocates and the in-place
    statements update.  The regular expressions of the module are written
    out as the scans they perform.  What pandas does and the module does
    not say (which texts [read_csv] takes for missing values or numbers,
    how [to_datetime] reads a date) is the parameter [pandas]; what
    [read_html] finds on the page is an argument of [fetch]. *)

From Stdlib Require Import ZArith NArith List String Ascii Lia Bool.
From Stdlib Require Import DecimalPos DecimalZ.
From stdpp Require Import base option list strings gmap.
Import ListNotations.

Local Open Scope N_scope.

(** ** Python strings *)

Module PyStr.

(** A Python [str]: a sequence of code points. *)
Abbreviation pystr := (list N) (only parsing).

(** UTF-8 decoding of a literal, so that the literals of the source can be
    written as they stand ([py "1788–89"]). *)
Fixpoint utf8_decode (bs : list N) : pystr :=
  match bs with
  | [] => []
  | b :: r =>
      if b <? 128 then b :: utf8_decode r
      else if b <? 224 then
        match r with
        | b1 :: r1 => ((b - 192) * 64 + (b1 - 128)) :: utf8_decode r1
        | _ => [b]
        end
      else if b <? 240 then
        match r with
        | b1 :: b2 :: r2 =>
            ((b - 224) * 4096 + (b1 - 128) * 64 + (b2 - 128)) :: utf8_decode r2
        | _ => [b]
        end
      else
        match r with
        | b1 :: b2 :: b3 :: r3 =>
            ((b - 240) * 262144 + (b1 - 128) * 4096 + (b2 - 128) * 64 + (b3 - 128))
              :: utf8_decode r3
        | _ => [b]
        end
  end.

Definition py (s : string) : pystr :=
  utf8_decode (map N_of_ascii (list_ascii_of_string s)).

Definition EN_DASH : N := 8211.   (* U+2013, '–' *)
Definition NBSP : N := 160.       (* '\xa0' *)
Definition NEWLINE : N := 10.
Definition SPACE : N := 32.
Definition HYPHEN : N := 45.
Definition PIPE : N := 124.
Definition LBRACKET : N := 91.
Definition RBRACKET : N := 93.
Definition LPAREN : N := 40.
Definition RPAREN : N := 41.

(** [str.isspace] on one character, which is also the class [\s] of [re] on
    [str] patterns and the set [str.strip()] and [str.split()] use. *)
Definition isspace (c : N) : bool :=
  ((9 <=? c) && (c <=? 13)) || ((28 <=? c) && (c <=? 32))
  || (c =? 133) || (c =? 160) || (c =? 5760)
  || ((8192 <=? c) && (c <=? 8202))
  || (c =? 8232) || (c =? 8233) || (c =? 8239) || (c =? 8287) || (c =? 12288).

(** The decimal digits of Unicode (version 14.0, that of Python 3.11): in
    each script the ten digits follow one another from the zero, and these
    are the code points of the zeros, from the ASCII ['0'] (48) and the
    Arabic-Indic zero (1632) on. *)
Definition DECIMAL_ZEROS : list N :=
  [ 48; 1632; 1776; 1984; 2406; 2534; 2662; 2790; 2918; 3046; 3174; 3302;
    3430; 3558; 3664; 3792; 3872; 4160; 4240; 6112; 6160; 6470; 6608; 6784;
    6800; 6992; 7088; 7232; 7248; 42528; 43216; 43264; 43472; 43504; 43600;
    44016; 65296; 66720; 68912; 69734; 69872; 69942; 70096; 70384; 70736;
    70864; 71248; 71360; 71472; 71904; 72016; 72784; 73040; 73120; 92768;
    92864; 93008; 120782; 120792; 120802; 120812; 120822; 123200; 123632;
    125264; 130032 ].

(** [unicodedata.decimal(c)]: the value of a decimal digit. *)
Definition decimal (c : N) : option N :=
  option_map (fun z => c - z)
    (List.find (fun z => (z <=? c) && (c <? z + 10)) DECIMAL_ZEROS).

(** The class [\d] of [re] on [str] patterns, which is also the set of
    digits [int()] reads: the decimal digits of every script. *)
Definition isdigit (c : N) : bool :=
  match decimal c with Some _ => true | None => false end.

Definition isupper (c : N) : bool := (65 <=? c) && (c <=? 90).
Definition islower (c : N) : bool := (97 <=? c) && (c <=? 122).
Definition iscased (c : N) : bool := isupper c || islower c.
Definition lower (c : N) : N := if isupper c then c + 32 else c.
Definition upper (c : N) : N := if islower c then c - 32 else c.

(** [s.lstrip()], [s.rstrip()], [s.strip()] *)
Fixpoint lstrip (s : pystr) : pystr :=
  match s with
  | c :: t => if isspace c then lstrip t else s
  | [] => []
  end.

Definition rstrip (s : pystr) : pystr := rev (lstrip (rev s)).
Definition strip (s : pystr) : pystr := rstrip (lstrip s).

(** [s.split()]: the maximal runs of non-whitespace characters.  [cur] is the
    run being read, reversed. *)
Fixpoint split_ws_go (cur : pystr) (s : pystr) : list pystr :=
  match s with
  | [] => match cur with [] => [] | _ => [rev cur] end
  | c :: t =>
      if isspace c
      then match cur with [] => split_ws_go [] t | _ => rev cur :: split_ws_go [] t end
      else split_ws_go (c :: cur) t
  end.

Definition split_ws (s : pystr) : list pystr := split_ws_go [] s.

(** [s.split(sep)] for a one-character separator: always at least one piece. *)
Fixpoint split_char_go (sep : N) (cur : pystr) (s : pystr) : list pystr :=
  match s with
  | [] => [rev cur]
  | c :: t =>
      if c =? sep then rev cur :: split_char_go sep [] t
      else split_char_go sep (c :: cur) t
  end.

Definition split_char (sep : N) (s : pystr) : list pystr := split_char_go sep [] s.

(** [sep.join(parts)] *)
Fixpoint join (sep : pystr) (parts : list pystr) : pystr :=
  match parts with
  | [] => []
  | [p] => p
  | p :: rest => p ++ sep ++ join sep rest
  end.

(** [s.title()]: a cased character is upper-cased when the one before it is
    not cased and lower-cased otherwise.  Casing is modelled on the ASCII
    letters, the only ones in [RECOGNIZED_PARTIES]. *)
Fixpoint title_go (prev_cased : bool) (s : pystr) : pystr :=
  match s with
  | [] => []
  | c :: t => (if prev_cased then lower c else upper c) :: title_go (iscased c) t
  end.

Definition title (s : pystr) : pystr := title_go false s.

(** [x in s] for a character. *)
Definition contains (c : N) (s : pystr) : bool := existsb (N.eqb c) s.

End PyStr.
Export PyStr.

(** ** Dynamically typed cells and exceptions *)

Inductive month_name : Type :=
  | January | February | March | April | May | June
  | July | August | September | October | November | December.

#[global] Instance month_name_eq_dec : EqDecision month_name.
Proof. solve_decision. Defined.

(** A calendar date, as a pandas [Timestamp] at midnight. *)
Record date : Type := mkDate { year : Z; month : month_name; day : nat }.

#[global] Instance date_eq_dec : EqDecision date.
Proof. solve_decision. Defined.

(** The scalars a cell or a list element can hold.  [SNaN] is the float
    [nan] pandas uses for a missing cell, [SNA] is [pd.NA], [SNaT] is
    [pd.NaT].  [SFloat] is a number that is not an integer (or a boolean),
    which only [read_csv] produces; it is kept as the text it was read
    from. *)
Inductive scalar : Type :=
  | SStr (s : pystr)
  | SInt (z : Z)
  | SDate (d : date)
  | SFloat (repr : pystr)
  | SNaN
  | SNA
  | SNaT
  | SNone.

#[global] Instance scalar_eq_dec : EqDecision scalar.
Proof. solve_decision. Defined.

(** An element of one of the lists the module builds: a string, an [int]
    or [pd.NA]. *)
Inductive item : Type :=
  | IStr (s : pystr)
  | IInt (z : Z)
  | INA.

#[global] Instance item_eq_dec : EqDecision item.
Proof. solve_decision. Defined.

(** A cell of a DataFrame: a scalar or a Python list. *)
Inductive value : Type :=
  | VScalar (x : scalar)
  | VList (l : list item).

#[global] Instance value_eq_dec : EqDecision value.
Proof. solve_decision. Defined.

Coercion VScalar : scalar >-> value.

(** [pd.isna] on a scalar. *)
Definition isna (x : scalar) : bool :=
  match x with
  | SNaN | SNA | SNaT | SNone => true
  | _ => false
  end.

Inductive exn : Type :=
  | TypeError
  | ValueError
  | KeyError
  | IndexError
  | AttributeError
  | FileNotFoundError.

#[global] Instance exn_eq_dec : EqDecision exn.
Proof. solve_decision. Defined.

(** The outcome of a call: a returned value or a raised exception. *)
Inductive result (A : Type) : Type :=
  | Ok (a : A)
  | Raise (e : exn).
Arguments Ok {A} a.
Arguments Raise {A} e.

Definition rbind {A B} (r : result A) (f : A -> result B) : result B :=
  match r with
  | Ok a => f a
  | Raise e => Raise e
  end.

#[global] Instance result_eq_dec {A} `{EqDecision A} : EqDecision (result A).
Proof. solve_decision. Defined.

Definition is_ok {A} (r : result A) : bool :=
  match r with Ok _ => true | Raise _ => false end.

(** [Series.apply(f)]: [f] on every cell in order; the first exception
    aborts the whole call. *)
Fixpoint apply_cells {A B} (f : A -> result B) (l : list A) : result (list B) :=
  match l with
  | [] => Ok []
  | x :: t =>
      rbind (f x) (fun y => rbind (apply_cells f t) (fun ys => Ok (y :: ys)))
  end.

(** ** Cleaning helpers *)

Definition RECOGNIZED_PARTIES : list pystr :=
  [ py "Unaffiliated";
    py "Federalist";
    py "Democratic-Republican";
    py "National Republican";
    py "Democratic";
    py "Whig";
    py "National Union";
    py "Republican" ].

Definition recognized (s : pystr) : bool :=
  bool_decide (s ∈ RECOGNIZED_PARTIES).

(** After a '[': does a ']' come before any newline?  ([.] does not match
    a newline.) *)
Fixpoint closes (s : pystr) : bool :=
  match s with
  | [] => false
  | c :: t =>
      if c =? RBRACKET then true
      else if c =? NEWLINE then false
      else closes t
  end.

(** [re.sub(r'\[.*?\]', '', text)].  [skipping] holds inside a footnote
    that is being removed, up to its first ']'. *)
Fixpoint sub_footnotes (skipping : bool) (s : pystr) : pystr :=
  match s with
  | [] => []
  | c :: t =>
      if skipping then
        (if c =? RBRACKET then sub_footnotes false t else sub_footnotes true t)
      else if (c =? LBRACKET) && closes t then sub_footnotes true t
      else c :: sub_footnotes false t
  end.

Definition remove_footnotes_str (text : pystr) : pystr :=
  strip (sub_footnotes false text).

Definition remove_footnotes (text : value) : value :=
  match text with
  | VScalar (SStr s) => VScalar (SStr (remove_footnotes_str s))
  | _ => text
  end.

Definition starts_with_char (c : N) (s : pystr) : bool :=
  match s with
  | x :: _ => x =? c
  | [] => false
  end.

(** [re.sub(r'\s*-\s*', '-', text)].  [after] holds while the whitespace
    that follows a hyphen is being consumed; whitespace that leads to a
    hyphen is consumed with it. *)
Fixpoint sub_hyphen (after : bool) (s : pystr) : pystr :=
  match s with
  | [] => []
  | c :: t =>
      if c =? HYPHEN then HYPHEN :: sub_hyphen true t
      else if isspace c then
        (if after || starts_with_char HYPHEN (lstrip t)
         then sub_hyphen after t
         else c :: sub_hyphen false t)
      else c :: sub_hyphen false t
  end.

(** [re.sub(r'\s+', ' ', text)] *)
Fixpoint collapse_ws (in_ws : bool) (s : pystr) : pystr :=
  match s with
  | [] => []
  | c :: t =>
      if isspace c then
        (if in_ws then collapse_ws true t else SPACE :: collapse_ws true t)
      else c :: collapse_ws false t
  end.

(** One turn of the loop of [extract_parties] over [parts]. *)
Definition party_step (st : list pystr * pystr) (part : pystr)
  : list pystr * pystr :=
  let '(found, current) := st in
  let current :=
    match current with
    | [] => part
    | _ => current ++ [SPACE] ++ part
    end in
  if recognized current then (found ++ [current], []) else (found, current).

Definition normalize_party_text (text : pystr) : pystr :=
  title (strip (collapse_ws false (sub_hyphen false text))).

Definition extract_parties_str (text : pystr) : list pystr :=
  let parts := split_ws (normalize_party_text text) in
  let '(found, current) := fold_left party_step parts ([], []) in
  if recognized current then found ++ [current] else found.

Definition extract_parties (text : value) : value :=
  match text with
  | VScalar (SStr s) => VList (map IStr (extract_parties_str s))
  | _ => text
  end.

(** Case-insensitive match of the pattern letter [p] (given in lower case)
    against [c] under [re.IGNORECASE] on a [str] pattern: the two ASCII
    cases, and the letters the [re] module treats as equivalent to them
    ('\u0130' and '\u0131' for i, '\u017f' for s, '\u212a' for k). *)
Definition ci_eq (p c : N) : bool :=
  (lower c =? p)
  || ((p =? 105) && ((c =? 304) || (c =? 305)))
  || ((p =? 115) && (c =? 383))
  || ((p =? 107) && (c =? 8490)).

(** [s] starts with the literal [pat], ignoring case; the rest of [s]. *)
Fixpoint ci_prefix (pat s : pystr) : option pystr :=
  match pat, s with
  | [], _ => Some s
  | p :: pt, c :: t => if ci_eq p c then ci_prefix pt t else None
  | _ :: _, [] => None
  end.

Definition four_digits (s : pystr) : bool :=
  match s with
  | a :: b :: c :: d :: _ => isdigit a && isdigit b && isdigit c && isdigit d
  | _ => false
  end.

(** [.*?\d{4}]: the number of characters up to the end of the first run of
    four digits that no newline precedes. *)
Fixpoint lazy_to_year (s : pystr) : option nat :=
  if four_digits s then Some 4%nat
  else match s with
       | [] => None
       | c :: t =>
           if c =? NEWLINE then None
           else option_map S (lazy_to_year t)
       end.

(** A match of [(Vacant throughout presidency|Vacant.*?\d{4})] at the start
    of [s], as the number of characters matched.  The first alternative is
    tried first. *)
Definition vacancy_match (s : pystr) : option nat :=
  match ci_prefix (py "vacant throughout presidency") s with
  | Some _ => Some 28%nat
  | None =>
      match ci_prefix (py "vacant") s with
      | Some r => option_map (fun n => (6 + n)%nat) (lazy_to_year r)
      | None => None
      end
  end.

(** [re.split] on the vacancy pattern, whose one group is kept in the
    result.  [skip] counts the characters of the current match still to
    pass; [cur] is the piece being read, reversed. *)
Fixpoint vacancy_split (skip : nat) (cur : pystr) (s : pystr) : list pystr :=
  match s with
  | [] => [rev cur]
  | c :: t =>
      match skip with
      | S k => vacancy_split k cur t
      | O =>
          match vacancy_match s with
          | Some n => rev cur :: firstn n s :: vacancy_split (Nat.pred n) [] t
          | None => vacancy_split O (c :: cur) t
          end
      end
  end.

Definition nonempty (s : pystr) : bool :=
  match s with [] => false | _ => true end.

Definition extract_vice_presidents_str (text : pystr) : list pystr :=
  let text := map (fun c => if c =? NBSP then SPACE else c) text in
  let text := strip (collapse_ws false text) in
  let split_text := vacancy_split O [] text in
  map strip (filter (fun token => nonempty token = true) split_text).

Definition extract_vice_presidents (text : value) : value :=
  match text with
  | VScalar (SStr s) => VList (map IStr (extract_vice_presidents_str s))
  | _ => text
  end.

(** The value of a digit for [int()]. *)
Definition digit_val (c : N) : Z :=
  match decimal c with Some d => Z.of_N d | None => 0 end.

(** The digits of a decimal literal as [int()] reads them: at least one
    digit, single underscores allowed between digits.  [prev_digit] holds
    when the character before was a digit. *)
Fixpoint int_digits (acc : Z) (prev_digit : bool) (s : pystr) : option Z :=
  match s with
  | [] => if prev_digit then Some acc else None
  | c :: t =>
      if isdigit c then int_digits (10 * acc + digit_val c) true t
      else if (c =? 95) && prev_digit then int_digits acc false t
      else None
  end.

(** The whitespace [int()] skips at the ends of the text: that of
    [str.isspace], the four separators from U+001C to U+001F apart. *)
Definition int_space (c : N) : bool :=
  isspace c && negb ((28 <=? c) && (c <=? 31)).

Fixpoint int_lstrip (s : pystr) : pystr :=
  match s with
  | c :: t => if int_space c then int_lstrip t else s
  | [] => []
  end.

Definition int_strip (s : pystr) : pystr :=
  rev (int_lstrip (rev (int_lstrip s))).

(** [sys.int_info.default_max_str_digits]: from Python 3.11 on, [int()]
    raises [ValueError] on a text of more digits, signs, underscores and
    whitespace not counted.  The module does not change the limit. *)
Definition INT_MAX_STR_DIGITS : N := 4300.

Definition count_digits (s : pystr) : N :=
  N.of_nat (List.length (List.filter isdigit s)).

(** [int(s)] for a [str]; [None] stands for the [ValueError]. *)
Definition py_int (s : pystr) : option Z :=
  let t := int_strip s in
  let digits := match t with 43 :: r | 45 :: r => r | _ => t end in
  if count_digits digits <=? INT_MAX_STR_DIGITS then
    match t with
    | 45 :: _ => option_map Z.opp (int_digits 0 false digits)
    | _ => int_digits 0 false digits
    end
  else None.

(** The body of the loop of [extract_election_dates] for one token. *)
Definition election_token (s : pystr) : item :=
  let s := if contains EN_DASH s then hd [] (split_char EN_DASH s) else s in
  match py_int s with
  | Some z => IInt z
  | None => INA
  end.

Definition extract_election_dates_str (text : pystr) : list item :=
  map election_token (split_ws text).

Definition extract_election_dates (text : value) : value :=
  match text with
  | VScalar (SStr s) => VList (extract_election_dates_str s)
  | _ => text
  end.

Definition expect (c : N) (s : pystr) : option pystr :=
  match s with
  | x :: t => if x =? c then Some t else None
  | [] => None
  end.

Fixpoint exact_prefix (pat s : pystr) : option pystr :=
  match pat, s with
  | [], _ => Some s
  | p :: pt, c :: t => if c =? p then exact_prefix pt t else None
  | _ :: _, [] => None
  end.

(** [(\\d{4})]: the four digits and what follows them. *)
Definition take4 (s : pystr) : option (pystr * pystr) :=
  if four_digits s then Some (firstn 4 s, skipn 4 s) else None.

(** [(\\d{4})–(\\d{4})\\)] after the opening parenthesis: groups 2 and 3. *)
Definition lifespan (r : pystr) : option (pystr * pystr) :=
  '(b, r1) ← take4 r;
  r2 ← expect EN_DASH r1;
  '(d, r3) ← take4 r2;
  _ ← expect RPAREN r3;
  Some (b, d).

(** [b\\. (\\d{4})\\)] after the opening parenthesis: group 4. *)
Definition born_only (r : pystr) : option pystr :=
  r1 ← exact_prefix (py "b. ") r;
  '(b, r2) ← take4 r1;
  _ ← expect RPAREN r2;
  Some b.

(** [\\s*\\((?:(\\d{4})–(\\d{4})|b\\. (\\d{4}))\\)] at the start of [s], giving
    [birth] and [death] as the function computes them from the groups. *)
Definition name_tail (s : pystr) : option (scalar * scalar) :=
  match expect LPAREN (lstrip s) with
  | None => None
  | Some r =>
      match lifespan r with
      | Some (b, d) => Some (SStr b, SStr d)
      | None =>
          match born_only r with
          | Some b => Some (SStr b, SNA)
          | None => None
          end
      end
  end.

(** [re.match] of the whole pattern: group 1, [(.*?)], is the shortest
    prefix without a newline after which the rest of the pattern matches. *)
Fixpoint name_match (name_rev : pystr) (s : pystr)
  : option (pystr * scalar * scalar) :=
  match name_tail s with
  | Some (b, d) => Some (rev name_rev, b, d)
  | None =>
      match s with
      | [] => None
      | c :: t => if c =? NEWLINE then None else name_match (c :: name_rev) t
      end
  end.

Definition split_name_birth_death_str (text : pystr) : scalar * scalar * scalar :=
  match name_match [] text with
  | None => (SNA, SNA, SNA)
  | Some (name, birth, death) => (SStr name, birth, death)
  end.

(** [re.match] raises [TypeError] when [text] is not a string. *)
Definition split_name_birth_death (text : value)
  : result (scalar * scalar * scalar) :=
  match text with
  | VScalar (SStr s) => Ok (split_name_birth_death_str s)
  | _ => Raise TypeError
  end.

(** [re.split(r'\\s*–\\s*', text)].  [after] holds while the whitespace that
    follows a dash is being consumed; whitespace that leads to a dash is
    consumed with it. *)
Fixpoint dash_split (after : bool) (cur : pystr) (s : pystr) : list pystr :=
  match s with
  | [] => [rev cur]
  | c :: t =>
      if c =? EN_DASH then rev cur :: dash_split true [] t
      else if isspace c then
        (if after || starts_with_char EN_DASH (lstrip t)
         then dash_split after cur t
         else dash_split false (c :: cur) t)
      else dash_split false (c :: cur) t
  end.

Definition split_term_str (text : pystr) : scalar * scalar :=
  match dash_split false [] text with
  | [a; b] =>
      let start := strip a in
      let end_ := strip b in
      (SStr start, if bool_decide (end_ = py "Incumbent") then SNA else SStr end_)
  | _ => (SNA, SNA)
  end.

(** [re.split] raises [TypeError] when [text] is not a string. *)
Definition split_term (text : value) : result (scalar * scalar) :=
  match text with
  | VScalar (SStr s) => Ok (split_term_str s)
  | _ => Raise TypeError
  end.

(** ** DataFrames *)

(** A DataFrame: the row labels and the columns in order, each a label with
    one cell per row.  Cells are immutable values: no function of the module
    updates a list or a string in place. *)
Record frame : Type := mkFrame {
  index : list value;
  columns : list (string * list value)
}.

#[global] Instance frame_eq_dec : EqDecision frame.
Proof. solve_decision. Defined.

Definition labels (df : frame) : list string := map fst (columns df).

Definition has_label (l : string) (df : frame) : bool :=
  existsb (String.eqb l) (labels df).

(** [df[col]] *)
Fixpoint lookup_col {A} (l : string) (cols : list (string * A)) : option A :=
  match cols with
  | [] => None
  | (l', c) :: t => if String.eqb l l' then Some c else lookup_col l t
  end.

Definition get_col (l : string) (df : frame) : result (list value) :=
  match lookup_col l (columns df) with
  | Some c => Ok c
  | None => Raise KeyError
  end.

(** [df[col] = cells]: in place of the column of that label, or at the end. *)
Fixpoint assign_col {A} (l : string) (c : A) (cols : list (string * A))
  : list (string * A) :=
  match cols with
  | [] => [(l, c)]
  | (l', c') :: t =>
      if String.eqb l l' then (l, c) :: t else (l', c') :: assign_col l c t
  end.

Definition set_col (l : string) (c : list value) (df : frame) : frame :=
  mkFrame (index df) (assign_col l c (columns df)).

(** [df.drop(ls, axis=1)]: every column with one of the labels goes; a label
    that no column has is a [KeyError]. *)
Definition drop_labels (ls : list string) (df : frame) : result frame :=
  if forallb (fun l => has_label l df) ls then
    Ok (mkFrame (index df)
          (filter (fun lc => existsb (String.eqb (fst lc)) ls = false) (columns df)))
  else Raise KeyError.

(** [df.columns[[i, j]]] *)
Definition labels_at (i j : nat) (df : frame) : result (list string) :=
  match nth_error (labels df) i, nth_error (labels df) j with
  | Some a, Some b => Ok [a; b]
  | _, _ => Raise IndexError
  end.

(** [df.columns = names] *)
Definition set_labels (names : list string) (df : frame) : result frame :=
  if Nat.eqb (List.length names) (List.length (columns df)) then
    Ok (mkFrame (index df) (combine names (map snd (columns df))))
  else Raise ValueError.

(** [df.set_index(l, inplace=True)] *)
Definition set_index (l : string) (df : frame) : result frame :=
  rbind (get_col l df) (fun c =>
  rbind (drop_labels [l] df) (fun df' =>
  Ok (mkFrame c (columns df')))).

(** [df[names]]: the named columns in the order asked for. *)
Fixpoint select (names : list string) (df : frame)
  : result (list (string * list value)) :=
  match names with
  | [] => Ok []
  | l :: t =>
      rbind (get_col l df) (fun c =>
      rbind (select t df) (fun cs => Ok ((l, c) :: cs)))
  end.

Definition select_cols (names : list string) (df : frame) : result frame :=
  rbind (select names df) (fun cs => Ok (mkFrame (index df) cs)).

(** [df[col] = df[col].apply(f)] for an [f] that does not raise. *)
Definition apply_col (l : string) (f : value -> value) (df : frame) : result frame :=
  rbind (get_col l df) (fun c => Ok (set_col l (map f c) df)).

(** [df[col] = df[col].apply(f)] for an [f] that may raise. *)
Definition try_apply_col (l : string) (f : value -> result value) (df : frame)
  : result frame :=
  rbind (get_col l df) (fun c =>
  rbind (apply_cells f c) (fun c' => Ok (set_col l c' df))).

(** ** The pandas functions the module calls

    What the module needs of pandas and cannot be read in its source is a
    parameter: the strings [read_csv] reads as missing by default, the cell
    texts it reads as numbers, what [to_datetime] makes of one cell, and the
    text of a number. *)
Record pandas : Type := mkPandas {
  (** the default [na_values] of [read_csv] *)
  default_na : pystr -> bool;
  (** the number [read_csv] reads in a cell text, when the whole column is
      numeric; [None] for a text that is not a number *)
  infer_cell : pystr -> option scalar;
  (** [pd.to_datetime] on one cell that is not null; [None] when the cell
      cannot be read as a date *)
  parse_datetime : scalar -> option date;
  (** the text of a cell that is neither a string, an [int] nor a null,
      as [str] gives it and [to_csv] writes it *)
  str_other : value -> pystr
}.

(** [str(z)] of an [int]: its decimal digits, most significant first. *)
Fixpoint uint_digits (d : Decimal.uint) : pystr :=
  match d with
  | Decimal.Nil => []
  | Decimal.D0 u => 48 :: uint_digits u
  | Decimal.D1 u => 49 :: uint_digits u
  | Decimal.D2 u => 50 :: uint_digits u
  | Decimal.D3 u => 51 :: uint_digits u
  | Decimal.D4 u => 52 :: uint_digits u
  | Decimal.D5 u => 53 :: uint_digits u
  | Decimal.D6 u => 54 :: uint_digits u
  | Decimal.D7 u => 55 :: uint_digits u
  | Decimal.D8 u => 56 :: uint_digits u
  | Decimal.D9 u => 57 :: uint_digits u
  end.

Definition str_of_Z (z : Z) : pystr :=
  match Z.to_int z with
  | Decimal.Pos d => uint_digits d
  | Decimal.Neg d => HYPHEN :: uint_digits d
  end.

(** [astype('string')] on one cell of the [name] column, which holds text,
    numbers or nulls. *)
Definition astype_string (pd : pandas) (x : value) : result value :=
  match x with
  | VScalar (SStr s) => Ok (VScalar (SStr s))
  | VScalar (SInt z) => Ok (VScalar (SStr (str_of_Z z)))
  | VScalar (SFloat t) => Ok (VScalar (SStr (str_other pd x)))
  | VScalar (SDate _) | VList _ => Raise TypeError
  | VScalar _ => Ok (VScalar SNA)
  end.

(** [astype('Int64')] on one cell: an integer, the text of one, or a null. *)
Definition astype_Int64 (x : value) : result value :=
  match x with
  | VScalar (SInt z) => Ok (VScalar (SInt z))
  | VScalar (SStr s) =>
      match py_int s with
      | Some z => Ok (VScalar (SInt z))
      | None => Raise ValueError
      end
  | VScalar (SFloat _) | VScalar (SDate _) | VList _ => Raise TypeError
  | VScalar _ => Ok (VScalar SNA)
  end.

(** How [pd.to_datetime] treats a cell it cannot read. *)
Inductive errors_mode : Type := ErrorsRaise | ErrorsCoerce.

(** [pd.to_datetime(cell, errors=mode)] *)
Definition to_datetime (pd : pandas) (mode : errors_mode) (x : value)
  : result value :=
  match x with
  | VScalar s =>
      if isna s then Ok (VScalar SNaT)
      else match parse_datetime pd s with
           | Some d => Ok (VScalar (SDate d))
           | None =>
               match mode with
               | ErrorsCoerce => Ok (VScalar SNaT)
               | ErrorsRaise => Raise ValueError
               end
           end
  | VList _ =>
      match mode with
      | ErrorsCoerce => Ok (VScalar SNaT)
      | ErrorsRaise => Raise TypeError
      end
  end.

(** ** Clean raw data *)

Definition RAW_NAMES : list string :=
  ["number"; "name_birth_death"; "term"; "party"; "election"; "vice_president"]%string.

Definition CLEAN_NAMES : list string :=
  ["name"; "birth"; "death"; "term_start"; "term_end";
   "party"; "election"; "vice_president"]%string.

Definition NULLABLE_INT_COLS : list string := ["birth"; "death"]%string.
Definition DATETIME_COLS : list string := ["term_start"; "term_end"]%string.
Definition LIST_COLS : list string := ["party"; "election"; "vice_president"]%string.

(** A run of statements on one frame, each taking the frame the one before
    left; the first exception ends the run. *)
Definition run_steps (steps : list (frame -> result frame)) (df : frame)
  : result frame :=
  fold_left (fun r step => rbind r step) steps (Ok df).

(** [for col in cols: df[col] = df[col].apply(f)], a statement per column. *)
Definition apply_cols (cols : list string) (f : value -> result value)
  : list (frame -> result frame) :=
  map (fun col => try_apply_col col f) cols.

Definition pure_cell (f : value -> value) (x : value) : result value := Ok (f x).

(** [df[['name', 'birth', 'death']] = df['name_birth_death'].apply(...)] *)
Definition assign_name_birth_death (df : frame) : result frame :=
  rbind (get_col "name_birth_death" df) (fun c =>
  rbind (apply_cells split_name_birth_death c) (fun rows =>
  Ok (set_col "death" (map (fun r => VScalar (snd r)) rows)
     (set_col "birth" (map (fun r => VScalar (snd (fst r))) rows)
     (set_col "name" (map (fun r => VScalar (fst (fst r))) rows) df))))).

(** [df[['term_start', 'term_end']] = df['term'].apply(split_term)] *)
Definition assign_term (df : frame) : result frame :=
  rbind (get_col "term" df) (fun c =>
  rbind (apply_cells split_term c) (fun rows =>
  Ok (set_col "term_end" (map (fun r => VScalar (snd r)) rows)
     (set_col "term_start" (map (fun r => VScalar (fst r)) rows) df)))).

(** [df.drop(df.columns[[1, 4]], axis=1, inplace=True)] *)
Definition drop_portrait_party (df : frame) : result frame :=
  rbind (labels_at 1 4 df) (fun drop => drop_labels drop df).

(** The statements of [clean_presidents_df] up to [df = df[[...]]], all of
    which update the copy in place. *)
Definition clean_in_place : list (frame -> result frame) :=
  [ drop_portrait_party;
    set_labels RAW_NAMES;
    set_index "number" ]
  ++ apply_cols ["name_birth_death"; "vice_president"; "party"; "term"]%string
       (pure_cell remove_footnotes)
  ++ [ try_apply_col "party" (pure_cell extract_parties);
       try_apply_col "vice_president" (pure_cell extract_vice_presidents);
       try_apply_col "election" (pure_cell extract_election_dates);
       assign_name_birth_death;
       assign_term;
       drop_labels ["name_birth_death"; "term"]%string ].

(** The statements after it, on the reordered frame. *)
Definition set_types (pd : pandas) : list (frame -> result frame) :=
  [ try_apply_col "name" (astype_string pd);
    try_apply_col "birth" astype_Int64;
    try_apply_col "death" astype_Int64;
    try_apply_col "term_start" (to_datetime pd ErrorsCoerce);
    try_apply_col "term_end" (to_datetime pd ErrorsCoerce) ].

(** [clean_presidents_df] on the value of the frame. *)
Definition clean_frame (pd : pandas) (raw_df : frame) : result frame :=
  rbind (run_steps clean_in_place raw_df) (fun df =>
  rbind (select_cols CLEAN_NAMES df) (fun df =>
  run_steps (set_types pd) df)).

(** ** Save and load CSV *)

Definition NA_REPR : pystr := py "NA".

(** ['NA' if pd.isna(item) else str(item)] *)
Definition item_text (x : item) : pystr :=
  match x with
  | IStr s => s
  | IInt z => str_of_Z z
  | INA => NA_REPR
  end.

(** [list_to_pipe_string].  [not lst] holds of the empty list, of [None], of
    the empty string and of 0, and raises [TypeError] on [pd.NA]. *)
Definition list_to_pipe_string (lst : value) : result value :=
  match lst with
  | VList [] => Ok (VScalar SNA)
  | VScalar SNone => Ok (VScalar SNA)
  | VScalar (SStr []) => Ok (VScalar SNA)
  | VScalar (SInt 0) => Ok (VScalar SNA)
  | VScalar SNA => Raise TypeError
  | VList l => Ok (VScalar (SStr (join (py " | ") (map item_text l))))
  | VScalar _ => Ok lst
  end.

(** [pd.NA if item.strip() == 'NA' else item.strip()] *)
Definition piece_item (piece : pystr) : item :=
  if bool_decide (strip piece = NA_REPR) then INA else IStr (strip piece).

(** [pipe_string_to_list] on a cell read from the file. *)
Definition pipe_string_to_list (s : scalar) : value :=
  if isna s then VList [INA]
  else match s with
       | SStr t => VList (map piece_item (split_char PIPE t))
       | _ => VScalar s
       end.

Definition month_text (m : month_name) : pystr :=
  match m with
  | January => py "January" | February => py "February" | March => py "March"
  | April => py "April" | May => py "May" | June => py "June"
  | July => py "July" | August => py "August" | September => py "September"
  | October => py "October" | November => py "November" | December => py "December"
  end.

(** [f'{d.month_name()} {d.day}, {d.year}'] *)
Definition format_date (d : date) : pystr :=
  month_text (month d) ++ [SPACE] ++ str_of_Z (Z.of_nat (day d))
    ++ py ", " ++ str_of_Z (year d).

(** The lambda [save_csv] applies to the cells of a date column; a cell
    that is neither null nor a [Timestamp] has no [month_name]. *)
Definition date_to_text (d : value) : result value :=
  match d with
  | VScalar (SDate x) => Ok (VScalar (SStr (format_date x)))
  | VScalar s => if isna s then Ok (VScalar SNaT) else Raise AttributeError
  | VList _ => Raise AttributeError
  end.

(** The statements of [save_csv] on [df_temp]. *)
Definition prepare_frame : list (frame -> result frame) :=
  apply_cols DATETIME_COLS date_to_text
  ++ apply_cols LIST_COLS list_to_pipe_string.

(** A CSV file, as the texts of its fields: the first column, then the
    others under their header.  The quoting of fields is left to pandas,
    which reads back the text it wrote. *)
Record csv : Type := mkCsv {
  csv_index : list pystr;
  csv_columns : list (string * list pystr)
}.

#[global] Instance csv_eq_dec : EqDecision csv.
Proof. solve_decision. Defined.

(** The text [to_csv(na_rep='NA')] writes for a cell. *)
Definition cell_text (pd : pandas) (x : value) : pystr :=
  match x with
  | VScalar (SStr s) => s
  | VScalar (SInt z) => str_of_Z z
  | VScalar (SDate _) | VScalar (SFloat _) | VList _ => str_other pd x
  | VScalar _ => NA_REPR
  end.

Definition to_csv (pd : pandas) (df : frame) : csv :=
  mkCsv (map (cell_text pd) (index df))
        (map (fun lc => (fst lc, map (cell_text pd) (snd lc))) (columns df)).

(** [read_csv(na_values='NA')]: is the field read as missing? *)
Definition na_text (pd : pandas) (t : pystr) : bool :=
  bool_decide (t = NA_REPR) || default_na pd t.

(** The type inference of [read_csv] on one column: numbers when every
    field that is not missing is one, text otherwise. *)
Definition numeric_column (pd : pandas) (c : list pystr) : bool :=
  forallb (fun t => na_text pd t || bool_decide (is_Some (infer_cell pd t))) c.

Definition read_cell (pd : pandas) (numeric : bool) (t : pystr) : value :=
  if na_text pd t then VScalar SNaN
  else if numeric then
    match infer_cell pd t with
    | Some v => VScalar v
    | None => VScalar (SStr t)
    end
  else VScalar (SStr t).

Definition read_column (pd : pandas) (c : list pystr) : list value :=
  map (read_cell pd (numeric_column pd c)) c.

(** [pd.read_csv(filepath, index_col=0, na_values='NA')] on the file. *)
Definition read_csv (pd : pandas) (f : csv) : frame :=
  mkFrame (read_column pd (csv_index f))
          (map (fun lc => (fst lc, read_column pd (snd lc))) (csv_columns f)).

(** [df[col].apply(pipe_string_to_list)] on one cell. *)
Definition restore_list (x : value) : result value :=
  match x with
  | VScalar s => Ok (pipe_string_to_list s)
  | VList _ => Raise ValueError
  end.

(** [pd.NA if pd.isna(x) else int(x)] *)
Definition int_item (x : item) : result item :=
  match x with
  | INA => Ok INA
  | IInt z => Ok (IInt z)
  | IStr s =>
      match py_int s with
      | Some z => Ok (IInt z)
      | None => Raise ValueError
      end
  end.

(** The lambda [load_csv] applies to the [election] column; a cell that is
    not a list cannot be iterated. *)
Definition restore_ints (lst : value) : result value :=
  match lst with
  | VList l => rbind (apply_cells int_item l) (fun l' => Ok (VList l'))
  | VScalar _ => Raise TypeError
  end.

(** The statements of [load_csv] after [read_csv]. *)
Definition restore_frame (pd : pandas) : list (frame -> result frame) :=
  apply_cols DATETIME_COLS (to_datetime pd ErrorsCoerce)
  ++ apply_cols LIST_COLS restore_list
  ++ apply_cols NULLABLE_INT_COLS astype_Int64
  ++ [ try_apply_col "election" restore_ints;
       try_apply_col "name" (astype_string pd) ].

(** ** The functions on DataFrame objects

    A DataFrame is an object: [df.copy()] makes a new one, the statements
    with [inplace=True] and the assignments [df[col] = ...] update the one
    they are given.  The world holds the frames by address and the files by
    path. *)
Definition loc : Type := positive.

Record world : Type := mkWorld {
  frames : gmap loc frame;
  files : gmap string csv
}.

Definition M (A : Type) : Type := world -> result A * world.

Definition ret {A} (a : A) : M A := fun w => (Ok a, w).

Definition raise {A} (e : exn) : M A := fun w => (Raise e, w).

Definition bind {A B} (m : M A) (k : A -> M B) : M B :=
  fun w =>
    match m w with
    | (Ok a, w') => k a w'
    | (Raise e, w') => (Raise e, w')
    end.

Notation "x <- m ;; k" := (bind m (fun x => k))
  (at level 100, m at next level, right associativity).
Notation "m ;;; k" := (bind m (fun _ => k))
  (at level 100, right associativity).

(** A new object holding [df]. *)
Definition alloc (df : frame) : M loc :=
  fun w =>
    let l := fresh (dom (frames w)) in
    (Ok l, mkWorld (<[l := df]> (frames w)) (files w)).

(** The frame held at [l]. *)
Definition deref (l : loc) : M frame :=
  fun w =>
    match frames w !! l with
    | Some df => (Ok df, w)
    | None => (Raise KeyError, w)
    end.

(** One statement that updates the object at [l] in place. *)
Definition update (l : loc) (step : frame -> result frame) : M unit :=
  fun w =>
    match frames w !! l with
    | Some df =>
        match step df with
        | Ok df' => (Ok tt, mkWorld (<[l := df']> (frames w)) (files w))
        | Raise e => (Raise e, w)
        end
    | None => (Raise KeyError, w)
    end.

Fixpoint updates (l : loc) (steps : list (frame -> result frame)) : M unit :=
  match steps with
  | [] => ret tt
  | step :: rest => update l step ;;; updates l rest
  end.

(** [df.copy()] *)
Definition df_copy (l : loc) : M loc :=
  df <- deref l ;; alloc df.

Definition clean_presidents_df (pd : pandas) (raw_df : loc) : M loc :=
  df <- df_copy raw_df ;;
  updates df clean_in_place ;;;
  cur <- deref df ;;
  match select_cols CLEAN_NAMES cur with
  | Raise e => raise e
  | Ok reordered =>
      df <- alloc reordered ;;
      updates df (set_types pd) ;;;
      ret df
  end.

(** [pathlib.Path] where paths are POSIX paths: a root, which is empty,
    [/] or [//], and the components, none of which is empty or [.]. *)
Record path : Type := mkPath {
  path_root : string;
  path_parts : list string
}.

(** [s.split('/')] *)
Fixpoint split_slash (cur : string) (s : string) : list string :=
  match s with
  | EmptyString => [cur]
  | String c t =>
      if Ascii.eqb c "/" then cur :: split_slash "" t
      else split_slash (cur ++ String c "") t
  end.

Fixpoint leading_slashes (s : string) : nat :=
  match s with
  | String c t => if Ascii.eqb c "/" then S (leading_slashes t) else O
  | EmptyString => O
  end.

(** [Path(s)]: two leading slashes are kept, one or more than two are one;
    empty components and [.] go, [..] stays. *)
Definition Path (s : string) : path :=
  mkPath
    (match leading_slashes s with
     | O => ""
     | 2%nat => "//"
     | _ => "/"
     end)
    (List.filter (fun x => negb (String.eqb x "") && negb (String.eqb x "."))
       (split_slash "" s)).

(** [p / s] *)
Definition joinpath (p : path) (s : string) : path :=
  let q := Path s in
  if String.eqb (path_root q) "" then mkPath (path_root p) (path_parts p ++ path_parts q)
  else q.

(** [str(p)] *)
Definition path_str (p : path) : string :=
  match path_root p, path_parts p with
  | EmptyString, [] => "."
  | r, parts => (r ++ String.concat "/" parts)%string
  end.

(** [p.name]: the last component, if there is one. *)
Definition path_name (p : path) : string := List.last (path_parts p) "".

(** [name.rfind('.')], counted from the end of the name: the number of
    characters after the last dot. *)
Fixpoint after_last_dot (s : string) : option nat :=
  match s with
  | EmptyString => None
  | String c t =>
      match after_last_dot t with
      | Some n => Some n
      | None => if Ascii.eqb c "." then Some (String.length t) else None
      end
  end.

(** [p.suffix]: the name from its last dot on, when that dot is neither the
    first nor the last character of the name. *)
Definition path_suffix (p : path) : string :=
  let name := path_name p in
  let n := String.length name in
  match after_last_dot name with
  | Some k =>
      if ((0 <? k) && (S k <? n))%nat then substring (n - S k) (S k) name else ""
  | None => ""
  end.

(** The output path of [save_csv], as the string [to_csv] is given. *)
Definition build_path (filename : string) (output : option string) : string :=
  let default := Path (filename ++ ".csv") in
  match output with
  | Some out =>
      if String.eqb out "" then path_str default
      else
        let output_path := Path out in
        if String.eqb (path_suffix output_path) ".csv" then path_str output_path
        else path_str (joinpath output_path (filename ++ ".csv"))
  | None => path_str default
  end.

(** [output_path.parent.mkdir(...)] and [to_csv(output_path, ...)], on a
    file system that takes the file: the [OSError] of one that does not
    (a component that is a file, no permission, a full disk) is not part of
    the model, so that what is said of a call of [save_csv] that returns or
    raises is said of the statements up to this one. *)
Definition write_file (path : string) (f : csv) : M unit :=
  fun w => (Ok tt, mkWorld (frames w) (<[path := f]> (files w))).

Definition read_file (path : string) : M csv :=
  fun w =>
    match files w !! path with
    | Some f => (Ok f, w)
    | None => (Raise FileNotFoundError, w)
    end.

Definition save_csv (pd : pandas) (df : loc) (filename : string)
  (output : option string) : M unit :=
  df_temp <- df_copy df ;;
  updates df_temp prepare_frame ;;;
  cur <- deref df_temp ;;
  write_file (build_path filename output) (to_csv pd cur).

Definition load_csv (pd : pandas) (filepath : string) : M loc :=
  f <- read_file filepath ;;
  df <- alloc (read_csv pd f) ;;
  updates df (restore_frame pd) ;;;
  ret df.

(** The values of [save_csv] and [load_csv]: the file written for a frame
    and the frame read from a file. *)
Definition save_frame (pd : pandas) (df : frame) : result csv :=
  rbind (run_steps prepare_frame df) (fun df => Ok (to_csv pd df)).

Definition load_frame (pd : pandas) (f : csv) : result frame :=
  run_steps (restore_frame pd) (read_csv pd f).

(** ** Access dataset *)

Definition FROZEN_CSV_URL : string := "my.repo".

(** [try: body / except Exception: handler].  Every exception of [exn] is
    an [Exception]; what the body did before it raised stays done. *)
Definition try_except {A} (body : M A) (handler : exn -> M A) : M A :=
  fun w =>
    match body w with
    | (Ok a, w') => (Ok a, w')
    | (Raise e, w') => handler e w'
    end.

(** [if save: save_csv(df, filename=dataset_name, output=output)] *)
Definition save_if (pd : pandas) (save : bool) (df : loc)
  (dataset_name : string) (output : option string) : M unit :=
  if save then save_csv pd df dataset_name output else ret tt.

(** The branch [if update:] of [fetch].  [page] is what [pd.read_html(URL)]
    gives when it is called: the tables of the page, or an exception;
    [raw_tables[0]] raises [IndexError] on an empty list. *)
Definition scrape (pd : pandas) (page : result (list frame)) (save : bool)
  (dataset_name : string) (output : option string) : M loc :=
  match page with
  | Raise e => raise e
  | Ok raw_tables =>
      match raw_tables with
      | [] => raise IndexError
      | table :: _ =>
          df_raw <- alloc table ;;
          df_clean <- clean_presidents_df pd df_raw ;;
          save_if pd save df_clean dataset_name output ;;;
          ret df_clean
      end
  end.

(** [fetch].  The handler sets [update] and the branch [if update:]
    follows; the warning it prints is left out. *)
Definition fetch (pd : pandas) (page : result (list frame))
  (update save : bool) (dataset_name : string) (output : option string)
  : M loc :=
  if negb update then
    try_except
      (df <- load_csv pd FROZEN_CSV_URL ;;
       save_if pd save df dataset_name output ;;;
       ret df)
      (fun _ => scrape pd page save dataset_name output)
  else scrape pd page save dataset_name output.

(** The module run as a script: [fetch(update=True, save=True, output='data')],
    whose value is dropped. *)
Definition script (pd : pandas) (page : result (list frame)) : M unit :=
  fetch pd page true true "us_presidents_cleaned" (Some "data"%string) ;;;
  ret tt.

(** ** A reference instance of the pandas parameters

    Dates in the layout [save_csv] writes, integers as [int] reads them, and
    the missing-value strings of the pandas documentation. *)
Definition all_months : list month_name :=
  [January; February; March; April; May; June;
   July; August; September; October; November; December].

Fixpoint find_month (ms : list month_name) (s : pystr)
  : option (month_name * pystr) :=
  match ms with
  | [] => None
  | m :: rest =>
      match exact_prefix (month_text m ++ [SPACE]) s with
      | Some r => Some (m, r)
      | None => find_month rest s
      end
  end.

(** [<Month name> <day>, <year>] *)
Definition parse_month_day_year (s : pystr) : option date :=
  '(m, r) ← find_month all_months s;
  match split_char 44 r with
  | [d; y] =>
      dz ← int_digits 0 false d;
      yz ← py_int y;
      if ((1 <=? dz) && (dz <=? 31))%Z then Some (mkDate yz m (Z.to_nat dz))
      else None
  | _ => None
  end.

Definition DEFAULT_NA : list pystr :=
  [ py ""; py "#N/A"; py "#N/A N/A"; py "#NA"; py "-1.#IND"; py "-1.#QNAN";
    py "-NaN"; py "-nan"; py "1.#IND"; py "1.#QNAN"; py "<NA>"; py "N/A";
    py "NA"; py "NULL"; py "NaN"; py "None"; py "n/a"; py "nan"; py "null" ].

Definition pandas_ref : pandas :=
  mkPandas
    (fun t => bool_decide (t ∈ DEFAULT_NA))
    (fun t => option_map SInt (py_int t))
    (fun x => match x with SStr s => parse_month_day_year s | _ => None end)
    (fun _ => []).

(** ** Notions the statements use *)

(** The first half of a year range: the token up to its first dash. *)
Fixpoint before_dash (s : pystr) : pystr :=
  match s with
  | [] => []
  | c :: t => if c =? EN_DASH then [] else c :: before_dash t
  end.

(** Is [v] a Python [str]? *)
Definition is_str (v : value) : bool :=
  match v with
  | VScalar (SStr _) => true
  | _ => false
  end.

(** [s.rstrip()] read from the left: a character is dropped when it and
    all that follow are whitespace. *)
Fixpoint rstrip_rec (s : pystr) : pystr :=
  match s with
  | [] => []
  | c :: t => if isspace c && forallb isspace t then [] else c :: rstrip_rec t
  end.

Definition count_char (c : N) (s : pystr) : nat :=
  List.length (filter (fun x => x = c) s).




(** A text the codec gives back as it is: no pipe, nothing to trim. *)
Definition text_ok (t : pystr) : Prop :=
  contains PIPE t = false /\ strip t = t.

(** A list element the codec gives back as it is: a null, an integer, or a
    string without a pipe or whitespace at its ends that is not ["NA"]. *)
Definition plain_item (x : item) : Prop :=
  match x with
  | IStr s => text_ok s /\ s <> NA_REPR
  | IInt _ | INA => True
  end.

(** What [pipe_string_to_list] makes of an encoded element: an integer
    comes back as its digits. *)
Definition decoded_item (x : item) : item :=
  match x with
  | IInt z => IStr (str_of_Z z)
  | _ => x
  end.

(** A year as the pattern reads it: four digits. *)
Definition year_text (y : pystr) : Prop :=
  List.length y = 4%nat /\ forallb isdigit y = true.

(** A name for which group 1 is the whole name: no newline, no opening
    parenthesis, no trailing whitespace. *)
Definition plain_name (n : pystr) : Prop :=
  forallb (fun c => negb (c =? NEWLINE) && negb (c =? LPAREN)) n = true
  /\ rstrip n = n.

(** The death year of a result: the text of the year, or the null. *)
Definition year_or_null (death : option pystr) : scalar :=
  match death with
  | Some d => SStr d
  | None => SNA
  end.

(** The parenthesis of the two shapes: [(YYYY–YYYY)], or [(b. YYYY)], each
    year four digits; anything may follow the closing parenthesis. *)
Definition years_tail (tail birth : pystr) (death : option pystr) : Prop :=
  year_text birth
  /\ match death with
     | Some d =>
         year_text d
         /\ exists rest,
              tail = [LPAREN] ++ birth ++ [EN_DASH] ++ d ++ [RPAREN] ++ rest
     | None =>
         exists rest, tail = [LPAREN] ++ py "b. " ++ birth ++ [RPAREN] ++ rest
     end.

(** [text] starts in one of the two shapes, read with [name] as the name:
    [name] holds no newline, and is followed by whitespace, if any, and the
    parenthesis. *)
Definition name_shape (text name birth : pystr) (death : option pystr) : Prop :=
  forallb (fun c => negb (c =? NEWLINE)) name = true
  /\ exists ws tail,
       forallb isspace ws = true
       /\ text = name ++ ws ++ tail
       /\ years_tail tail birth death.

(** The characters of the text of an [int]. *)
Definition digit_or_sign (c : N) : bool := isdigit c || (c =? HYPHEN).

(** An integer [int()] reads back from the text [str] writes for it: one
    of at most [INT_MAX_STR_DIGITS] digits. *)
Definition int_in_limit (z : Z) : Prop :=
  count_digits (str_of_Z z) <= INT_MAX_STR_DIGITS.

(** A computation keeps the frames of [m0] as they are; the value it
    returns satisfies [post]. *)
Definition keeps {A} (m0 : gmap loc frame) (c : M A) (post : A -> Prop) : Prop :=
  forall w, m0 ⊆ frames w ->
    m0 ⊆ frames (snd (c w))
    /\ match fst (c w) with
       | Ok a => post a
       | Raise _ => True
       end.

(** A raw table of two rows, in the layout of the source page. *)
Definition raw_cell (s : string) : value := VScalar (SStr (py s)).

Definition raw_example : frame :=
  mkFrame [VScalar (SInt 0); VScalar (SInt 1)]
    [ ("No.", [VScalar (SInt 1); VScalar (SInt 46)]);
      ("Portrait", [VScalar SNaN; VScalar SNaN]);
      ("Name", [raw_cell "George Washington (1732–1799)[a]";
                raw_cell "Joe Biden (b. 1942)"]);
      ("Term", [raw_cell "April 30, 1789 – March 4, 1797";
                raw_cell "January 20, 2021 – Incumbent"]);
      ("Party", [VScalar SNaN; VScalar SNaN]);
      ("Party.1", [raw_cell "Unaffiliated"; raw_cell "Democratic"]);
      ("Election", [raw_cell "1788–89 1792"; raw_cell "2020"]);
      ("Vice President", [raw_cell "John Adams"; raw_cell "Kamala Harris"]) ]%string.

Definition world_example : world :=
  mkWorld {[ 1%positive := raw_example ]} ∅.

(** [pd.to_datetime(cell, errors='coerce')], which never raises. *)
Definition coerce_cell (pd : pandas) (x : value) : value :=
  match x with
  | VScalar s =>
      if isna s then VScalar SNaT
      else match parse_datetime pd s with
           | Some d => VScalar (SDate d)
           | None => VScalar SNaT
           end
  | VList _ => VScalar SNaT
  end.


(** Two frames with the same rows and the same columns, but for what the
    date columns hold. *)
Definition same_outside_dates (a b : frame) : Prop :=
  index a = index b
  /\ (forall c : string,
        (is_Some (lookup_col c (columns a)) <-> is_Some (lookup_col c (columns b)))
        /\ (In c DATETIME_COLS \/ lookup_col c (columns a) = lookup_col c (columns b))).

(** Two runs that raise the same exception, or return such frames. *)
Definition same_outcome (r r' : result frame) : Prop :=
  match r, r' with
  | Ok a, Ok b => same_outside_dates a b
  | Raise e, Raise e' => e = e'
  | _, _ => False
  end.

(** ** Typed tables

    A row of the table [clean_presidents_df] builds from a well-formed
    page: an integer index, a name, years and dates that may be null, and
    three lists. *)
Record row : Type := mkRow {
  r_number : Z;
  r_name : option pystr;
  r_birth : option Z;
  r_death : option Z;
  r_term_start : option date;
  r_term_end : option date;
  r_party : list (option pystr);
  r_election : list (option Z);
  r_vice_president : list (option pystr)
}.

Definition text_cell (o : option pystr) : value :=
  match o with Some s => VScalar (SStr s) | None => VScalar SNA end.

Definition int_cell (o : option Z) : value :=
  match o with Some z => VScalar (SInt z) | None => VScalar SNA end.

Definition date_cell (o : option date) : value :=
  match o with Some d => VScalar (SDate d) | None => VScalar SNaT end.

Definition str_items (l : list (option pystr)) : list item :=
  map (fun o => match o with Some s => IStr s | None => INA end) l.

Definition int_items (l : list (option Z)) : list item :=
  map (fun o => match o with Some z => IInt z | None => INA end) l.

(** The DataFrame of a typed table. *)
Definition frame_of_rows (rows : list row) : frame :=
  mkFrame (map (fun r => VScalar (SInt (r_number r))) rows)
    [ ("name", map (fun r => text_cell (r_name r)) rows);
      ("birth", map (fun r => int_cell (r_birth r)) rows);
      ("death", map (fun r => int_cell (r_death r)) rows);
      ("term_start", map (fun r => date_cell (r_term_start r)) rows);
      ("term_end", map (fun r => date_cell (r_term_end r)) rows);
      ("party", map (fun r => VList (str_items (r_party r))) rows);
      ("election", map (fun r => VList (int_items (r_election r))) rows);
      ("vice_president", map (fun r => VList (str_items (r_vice_president r))) rows)
    ]%string.

(** The text of a list in the file. *)
Definition list_text (l : list item) : pystr :=
  match l with
  | [] => NA_REPR
  | _ => join (py " | ") (map item_text l)
  end.

Definition opt_text {A} (f : A -> pystr) (o : option A) : pystr :=
  match o with Some x => f x | None => NA_REPR end.

(** The file [save_csv] writes for a typed table. *)
Definition csv_of_rows (rows : list row) : csv :=
  mkCsv (map (fun r => str_of_Z (r_number r)) rows)
    [ ("name", map (fun r => opt_text id (r_name r)) rows);
      ("birth", map (fun r => opt_text str_of_Z (r_birth r)) rows);
      ("death", map (fun r => opt_text str_of_Z (r_death r)) rows);
      ("term_start", map (fun r => opt_text format_date (r_term_start r)) rows);
      ("term_end", map (fun r => opt_text format_date (r_term_end r)) rows);
      ("party", map (fun r => list_text (str_items (r_party r))) rows);
      ("election", map (fun r => list_text (int_items (r_election r))) rows);
      ("vice_president",
       map (fun r => list_text (str_items (r_vice_president r))) rows)
    ]%string.

(** The documented asymmetry: an empty list comes back as one null. *)
Definition reloaded_list {A} (l : list (option A)) : list (option A) :=
  match l with [] => [None] | _ => l end.

Definition reloaded (r : row) : row :=
  mkRow (r_number r) (r_name r) (r_birth r) (r_death r)
        (r_term_start r) (r_term_end r)
        (reloaded_list (r_party r)) (reloaded_list (r_election r))
        (reloaded_list (r_vice_president r)).

Definition reloaded_cell (x : value) : value :=
  match x with VList [] => VList [INA] | _ => x end.

Definition reloaded_frame (df : frame) : frame :=
  mkFrame (index df)
          (map (fun lc => (fst lc, map reloaded_cell (snd lc))) (columns df)).

(** ** What the round trip needs of the table and of pandas *)

(** [read_csv] reads the text of the integer as the integer. *)
Definition int_read (pd : pandas) (z : Z) : Prop :=
  na_text pd (str_of_Z z) = false /\ infer_cell pd (str_of_Z z) = Some (SInt z).

(** [read_csv] does not take the text for a missing value. *)
Definition text_read (pd : pandas) (t : pystr) : Prop := na_text pd t = false.

(** [save_csv] writes the date and [to_datetime] reads it back. *)
Definition date_read (pd : pandas) (d : date) : Prop :=
  na_text pd (format_date d) = false
  /\ parse_datetime pd (SStr (format_date d)) = Some d.

(** A list comes back: it is empty, or one null, or its elements are plain
    and its text is not taken for a missing value. *)
Definition list_read (pd : pandas) (l : list item) : Prop :=
  l = [] \/ l = [INA]
  \/ (Forall plain_item l /\ na_text pd (list_text l) = false).

Definition opt_holds {A} (P : A -> Prop) (o : option A) : Prop :=
  match o with Some x => P x | None => True end.

Definition row_ok (pd : pandas) (r : row) : Prop :=
  int_read pd (r_number r)
  /\ opt_holds (text_read pd) (r_name r)
  /\ opt_holds (int_read pd) (r_birth r)
  /\ opt_holds (int_read pd) (r_death r)
  /\ opt_holds (date_read pd) (r_term_start r)
  /\ opt_holds (date_read pd) (r_term_end r)
  /\ list_read pd (str_items (r_party r))
  /\ list_read pd (int_items (r_election r))
  /\ list_read pd (str_items (r_vice_president r))
  /\ Forall (opt_holds int_in_limit) (r_election r).

(** The column is read as text: one of its fields is not a number, or all
    are missing. *)
Definition reads_as_text (pd : pandas) (c : list pystr) : bool :=
  negb (numeric_column pd c) || forallb (na_text pd) c.

(** The columns [load_csv] needs as text. *)
Definition TEXT_COLS : list string :=
  ["name"; "term_start"; "term_end"; "party"; "election"; "vice_president"]%string.

(** The fields of a column of the file. *)
Definition column_texts (l : string) (f : csv) : list pystr :=
  match lookup_col l (csv_columns f) with
  | Some c => c
  | None => []
  end.

Definition table_ok (pd : pandas) (rows : list row) : Prop :=
  Forall (row_ok pd) rows
  /\ Forall (fun l => reads_as_text pd (column_texts l (csv_of_rows rows)) = true)
       TEXT_COLS.

(** What [read_csv] reads in a field of a text column and of an integer
    column. *)
Definition read_text (pd : pandas) (t : pystr) : value :=
  if na_text pd t then VScalar SNaN else VScalar (SStr t).

Definition read_int (o : option Z) : value :=
  match o with Some z => VScalar (SInt z) | None => VScalar SNaN end.

(** The frame [read_csv] reads from [csv_of_rows]. *)
Definition READ_SPEC (pd : pandas) : list (string * (row -> value)) :=
  [ ("name", fun r => read_text pd (opt_text id (r_name r)));
    ("birth", fun r => read_int (r_birth r));
    ("death", fun r => read_int (r_death r));
    ("term_start", fun r => read_text pd (opt_text format_date (r_term_start r)));
    ("term_end", fun r => read_text pd (opt_text format_date (r_term_end r)));
    ("party", fun r => read_text pd (list_text (str_items (r_party r))));
    ("election", fun r => read_text pd (list_text (int_items (r_election r))));
    ("vice_president",
     fun r => read_text pd (list_text (str_items (r_vice_president r))))
  ]%string.

Definition reloaded_items (l : list item) : list item :=
  match l with [] => [INA] | _ => l end.

(** Cleaning, saving and loading, one after the other. *)
Definition round_trip (pd : pandas) (raw_df : loc) (filename : string)
  (output : option string) : M (loc * loc) :=
  cleaned <- clean_presidents_df pd raw_df ;;
  save_csv pd cleaned filename output ;;;
  loaded <- load_csv pd (build_path filename output) ;;
  ret (cleaned, loaded).

(** A raw table with a pipe character in a vice-president cell. *)
Definition raw_pipe_example : frame :=
  mkFrame [VScalar (SInt 0); VScalar (SInt 1)]
    [ ("No.", [VScalar (SInt 1); VScalar (SInt 46)]);
      ("Portrait", [VScalar SNaN; VScalar SNaN]);
      ("Name", [raw_cell "George Washington (1732–1799)[a]";
                raw_cell "Joe Biden (b. 1942)"]);
      ("Term", [raw_cell "April 30, 1789 – March 4, 1797";
                raw_cell "January 20, 2021 – Incumbent"]);
      ("Party", [VScalar SNaN; VScalar SNaN]);
      ("Party.1", [raw_cell "Unaffiliated"; raw_cell "Democratic"]);
      ("Election", [raw_cell "1788–89 1792"; raw_cell "2020"]);
      ("Vice President", [raw_cell "Adams|Jefferson"; raw_cell "Kamala Harris"]) ]%string.

Definition world_pipe_example : world :=
  mkWorld {[ 1%positive := raw_pipe_example ]} ∅.

(** The typed table of [raw_example]. *)
Definition rows_example : list row :=
  [ mkRow 1 (Some (py "George Washington")) (Some 1732%Z) (Some 1799%Z)
      (Some (mkDate 1789 April 30)) (Some (mkDate 1797 March 4))
      [Some (py "Unaffiliated")] [Some 1788%Z; Some 1792%Z]
      [Some (py "John Adams")];
    mkRow 46 (Some (py "Joe Biden")) (Some 1942%Z) None
      (Some (mkDate 2021 January 20)) None
      [Some (py "Democratic")] [Some 2020%Z]
      [Some (py "Kamala Harris")] ].

(** A frame given by what each column holds for a row. *)
Definition frame_of {R} (idx : R -> value) (spec : list (string * (R -> value)))
  (rows : list R) : frame :=
  mkFrame (map idx rows) (map (fun lg => (fst lg, map (snd lg) rows)) spec).

Definition row_index (r : row) : value := VScalar (SInt (r_number r)).

(** The columns of [frame_of_rows]. *)
Definition ROW_SPEC : list (string * (row -> value)) :=
  [ ("name", fun r => text_cell (r_name r));
    ("birth", fun r => int_cell (r_birth r));
    ("death", fun r => int_cell (r_death r));
    ("term_start", fun r => date_cell (r_term_start r));
    ("term_end", fun r => date_cell (r_term_end r));
    ("party", fun r => VList (str_items (r_party r)));
    ("election", fun r => VList (int_items (r_election r)));
    ("vice_president", fun r => VList (str_items (r_vice_president r)))
  ]%string.

(** What [save_csv] turns a date and a list into. *)
Definition saved_date (o : option date) : value :=
  match o with
  | Some d => VScalar (SStr (format_date d))
  | None => VScalar SNaT
  end.

Definition saved_list (l : list item) : value :=
  match l with
  | [] => VScalar SNA
  | _ => VScalar (SStr (join (py " | ") (map item_text l)))
  end.

(** The cleaned frame and the frame loaded back, when the three calls
    return. *)
Definition round_trip_frames (pd : pandas) (raw_df : loc) (filename : string)
  (output : option string) (w : world) : option (frame * frame) :=
  match round_trip pd raw_df filename output w with
  | (Ok (cleaned, loaded), w') =>
      match frames w' !! cleaned, frames w' !! loaded with
      | Some T, Some L => Some (T, L)
      | _, _ => None
      end
  | (Raise _, _) => None
  end.

Definition world_rows_example : world :=
  mkWorld {[ 1%positive := frame_of_rows rows_example ]} ∅.

(** A typed table in which every president has one election. *)
Definition rows_single_election : list row :=
  [ mkRow 46 (Some (py "Joe Biden")) (Some 1942%Z) None
      (Some (mkDate 2021 January 20)) None
      [Some (py "Democratic")] [Some 2020%Z]
      [Some (py "Kamala Harris")] ].

(** ** Notions the further statements use *)

(** Does the text hold a footnote marker: a '[' that a ']' follows on the
    same line? *)
Fixpoint has_footnote (s : pystr) : bool :=
  match s with
  | [] => false
  | c :: t => ((c =? LBRACKET) && closes t) || has_footnote t
  end.

(** The text [extract_vice_presidents] splits: non-breaking spaces made
    plain, whitespace collapsed, ends trimmed. *)
Definition normalize_vp_text (text : pystr) : pystr :=
  strip (collapse_ws false (map (fun c => if c =? NBSP then SPACE else c) text)).

(** Does the word "vacant" occur in the text, in any case? *)
Fixpoint mentions_vacant (s : pystr) : bool :=
  match s with
  | [] => false
  | c :: t =>
      match ci_prefix (py "vacant") s with
      | Some _ => true
      | None => mentions_vacant t
      end
  end.

(** The characters of a text that are not whitespace. *)
Definition visible (s : pystr) : pystr :=
  filter (fun c => isspace c = false) s.

(** What [load_csv] makes of a piece of an election field: a null, an
    integer, or nothing when [int] raises. *)
Definition int_piece (p : pystr) : option item :=
  if bool_decide (strip p = NA_REPR) then Some INA
  else option_map IInt (py_int (strip p)).

(** The two functions [load_csv] applies, one after the other, to an
    election field read as text. *)
Definition restore_election_cell (t : pystr) : result value :=
  rbind (restore_list (VScalar (SStr t))) restore_ints.

Definition not_text (x : item) : Prop :=
  match x with IStr _ => False | _ => True end.

(** ** The cleaned table, cell by cell *)

(** The name, birth and death [clean_presidents_df] reads in a cell of the
    name column, and the start and end it reads in a cell of the term
    column. *)
Definition name_parts (x : value) : scalar * scalar * scalar :=
  match split_name_birth_death (remove_footnotes x) with
  | Ok parts => parts
  | Raise _ => (SNA, SNA, SNA)
  end.

Definition term_parts (x : value) : scalar * scalar :=
  match split_term (remove_footnotes x) with
  | Ok parts => parts
  | Raise _ => (SNA, SNA)
  end.

(** [astype('Int64')] on a year read by [split_name_birth_death]. *)
Definition year_cell (s : scalar) : value :=
  match astype_Int64 (VScalar s) with
  | Ok v => v
  | Raise _ => VScalar SNA
  end.

(** The frame [clean_presidents_df] returns for a page whose columns are,
    after the two it drops, the number [c0], the names [c2], the terms
    [c3], the parties [c5], the elections [c6] and the vice presidents
    [c7]. *)
Definition cleaned_table (pd : pandas) (c0 c2 c3 c5 c6 c7 : list value) : frame :=
  mkFrame c0
    [ ("name", map (fun x => VScalar (fst (fst (name_parts x)))) c2);
      ("birth", map (fun x => year_cell (snd (fst (name_parts x)))) c2);
      ("death", map (fun x => year_cell (snd (name_parts x))) c2);
      ("term_start", map (fun x => coerce_cell pd (VScalar (fst (term_parts x)))) c3);
      ("term_end", map (fun x => coerce_cell pd (VScalar (snd (term_parts x)))) c3);
      ("party", map (fun x => extract_parties (remove_footnotes x)) c5);
      ("election", map extract_election_dates c6);
      ("vice_president",
       map (fun x => extract_vice_presidents (remove_footnotes x)) c7)
    ]%string.

(** A page of eight columns. *)
Definition page_frame (idx : list value) (ls : list string)
  (cs : list (list value)) : frame :=
  mkFrame idx (combine ls cs).

(** The cells of the typed columns: a name is a string or a null, a year a
    null or an integer of at most four digits, a date a [Timestamp] or
    [NaT]. *)
Definition name_value (v : value) : bool :=
  match v with
  | VScalar SNA | VScalar (SStr _) => true
  | _ => false
  end.

Definition year_value (v : value) : bool :=
  match v with
  | VScalar SNA => true
  | VScalar (SInt z) => (0 <=? z)%Z && (z <=? 9999)%Z
  | _ => false
  end.

Definition date_value (v : value) : bool :=
  match v with
  | VScalar SNaT | VScalar (SDate _) => true
  | _ => false
  end.

(** ** Statements on columns *)

(** The statements [df[col] = df[col].apply(f)] for a list of columns and
    functions, and what they make, one after the other, of a cell of the
    column [x]. *)
Definition col_steps (spec : list (string * (value -> result value)))
  : list (frame -> result frame) :=
  map (fun lf => try_apply_col (fst lf) (snd lf)) spec.

Definition cell_through (spec : list (string * (value -> result value)))
  (x : string) (v : value) : result value :=
  fold_left (fun r lf => if String.eqb x (fst lf) then rbind r (snd lf) else r)
    spec (Ok v).

(** The columns and functions of [save_csv] and of [load_csv]. *)
Definition SAVE_SPEC : list (string * (value -> result value)) :=
  [ ("term_start", date_to_text); ("term_end", date_to_text);
    ("party", list_to_pipe_string); ("election", list_to_pipe_string);
    ("vice_president", list_to_pipe_string) ]%string.

Definition LOAD_SPEC (pd : pandas) : list (string * (value -> result value)) :=
  [ ("term_start", to_datetime pd ErrorsCoerce);
    ("term_end", to_datetime pd ErrorsCoerce);
    ("party", restore_list); ("election", restore_list);
    ("vice_president", restore_list);
    ("birth", astype_Int64); ("death", astype_Int64);
    ("election", restore_ints); ("name", astype_string pd) ]%string.

(** A cell of an integer column [load_csv] restores. *)
Definition int_value (v : value) : bool :=
  match v with
  | VScalar SNA | VScalar (SInt _) => true
  | _ => false
  end.

(** A cell of the election column [load_csv] restores: a list, not empty,
    of integers and nulls. *)
Definition election_value (v : value) : Prop :=
  match v with
  | VList l => l <> [] /\ Forall not_text l
  | VScalar _ => False
  end.

(** * Properties *)

(** ** Text extractors on cells that are not strings *)

Lemma guarded_extractors_pass_through (v : value) :
  is_str v = false ->
  remove_footnotes v = v /\ extract_parties v = v
  /\ extract_vice_presidents v = v /\ extract_election_dates v = v.
Proof.
  destruct v as [[]|]; simpl; intros H; try discriminate; auto.
Qed.

Lemma split_functions_raise (v : value) :
  is_str v = false ->
  split_name_birth_death v = Raise TypeError /\ split_term v = Raise TypeError.
Proof.
  destruct v as [[]|]; simpl; intros H; try discriminate; auto.
Qed.

(** C2: [split_name_birth_death] and [split_term] have no [isinstance]
    guard: on a missing cell (the float [nan] of pandas, or [None]) they
    raise [TypeError] instead of returning the cell, while the four guarded
    extractors return it unchanged. *)
Theorem split_raises_on_missing_cell :
  split_name_birth_death (VScalar SNaN) = Raise TypeError
  /\ split_term (VScalar SNaN) = Raise TypeError
  /\ split_name_birth_death (VScalar SNone) = Raise TypeError
  /\ split_term (VScalar SNone) = Raise TypeError
  /\ remove_footnotes (VScalar SNaN) = VScalar SNaN
  /\ extract_parties (VScalar SNaN) = VScalar SNaN
  /\ extract_vice_presidents (VScalar SNaN) = VScalar SNaN
  /\ extract_election_dates (VScalar SNaN) = VScalar SNaN.
Proof. repeat split; reflexivity. Qed.

(** ** Party extraction *)

Lemma party_step_found (st : list pystr * pystr) (part : pystr) :
  Forall (fun p => recognized p = true) (fst st) ->
  Forall (fun p => recognized p = true) (fst (party_step st part)).
Proof.
  destruct st as [found current]; simpl; intros H.
  destruct current as [|c0 current'].
  - destruct (recognized part) eqn:E; simpl; auto.
    apply Forall_app; split; auto.
  - destruct (recognized ((c0 :: current') ++ SPACE :: part)) eqn:E; simpl; auto.
    apply Forall_app; split; auto.
Qed.

Lemma party_loop_found (parts : list pystr) (st : list pystr * pystr) :
  Forall (fun p => recognized p = true) (fst st) ->
  Forall (fun p => recognized p = true) (fst (fold_left party_step parts st)).
Proof.
  revert st; induction parts as [|part parts IH]; simpl; intros st H; auto.
  apply IH, party_step_found, H.
Qed.

(** Every name [extract_parties] returns is one of [RECOGNIZED_PARTIES]. *)
Lemma extract_parties_recognized (text : pystr) :
  Forall (fun p => p ∈ RECOGNIZED_PARTIES) (extract_parties_str text).
Proof.
  unfold extract_parties_str.
  pose proof (party_loop_found (split_ws (normalize_party_text text)) ([], [])
                (List.Forall_nil _)) as H.
  destruct (fold_left party_step _ _) as [found current]; simpl in H.
  assert (Hf : Forall (fun p => p ∈ RECOGNIZED_PARTIES) found).
  { eapply Forall_impl; [exact H|]. intros p Hp. unfold recognized in Hp.
    apply bool_decide_eq_true in Hp. exact Hp. }
  destruct (recognized current) eqn:E; auto.
  apply Forall_app; split; auto. constructor; auto.
  apply bool_decide_eq_true in E. exact E.
Qed.

(** C3: a token that completes no recognized name is not dropped: it stays
    in the accumulator, and no name after it is found.  On
    ["XYZ Unaffiliated ABC"] the function returns the empty list, not
    [["Unaffiliated"]]; the two other examples hold. *)
Theorem extract_parties_unrecognized_token_blocks :
  extract_parties_str (py "XYZ Unaffiliated ABC") = []
  /\ extract_parties_str (py "Federalist") = [py "Federalist"]
  /\ extract_parties_str (py "Democratic - Republican") = [py "Democratic-Republican"]
  /\ extract_parties_str (py "Unaffiliated XYZ ABC") = [py "Unaffiliated"].
Proof. repeat split; vm_compute; reflexivity. Qed.

(** ** Vice presidents *)

(** C5: the empty segments are filtered out before the segments are
    trimmed, so a segment of whitespace between two vacancy messages comes
    out as an empty string. *)
Theorem extract_vice_presidents_keeps_blank_segment :
  extract_vice_presidents_str
    (py "Vacant throughout presidency Vacant throughout presidency")
  = [py "Vacant throughout presidency"; []; py "Vacant throughout presidency"]
  /\ [] ∈ extract_vice_presidents_str
            (py "Vacant throughout presidency Vacant throughout presidency").
Proof.
  assert (E : extract_vice_presidents_str
    (py "Vacant throughout presidency Vacant throughout presidency")
  = [py "Vacant throughout presidency"; []; py "Vacant throughout presidency"])
    by (vm_compute; reflexivity).
  split; [exact E|]. rewrite E. set_solver.
Qed.

(** ** Election years *)

Lemma split_char_go_hd (cur s : pystr) :
  hd [] (split_char_go EN_DASH cur s) = rev cur ++ before_dash s.
Proof.
  revert cur; induction s as [|c t IH]; intros cur; simpl.
  - rewrite app_nil_r. reflexivity.
  - destruct (c =? EN_DASH) eqn:E; simpl.
    + rewrite app_nil_r. reflexivity.
    + rewrite IH. simpl. rewrite <- app_assoc. reflexivity.
Qed.

Lemma before_dash_no_dash (s : pystr) :
  contains EN_DASH s = false -> before_dash s = s.
Proof.
  unfold contains.
  induction s as [|c t IH]; cbn [existsb before_dash]; auto.
  rewrite (N.eqb_sym EN_DASH c).
  destruct (c =? EN_DASH) eqn:E; cbn [orb]; [discriminate|].
  intros H. rewrite IH; auto.
Qed.

Lemma election_token_before_dash (tok : pystr) :
  election_token tok
  = match py_int (before_dash tok) with Some z => IInt z | None => INA end.
Proof.
  unfold election_token.
  destruct (contains EN_DASH tok) eqn:E.
  - unfold split_char. rewrite split_char_go_hd. reflexivity.
  - rewrite before_dash_no_dash; auto.
Qed.

Lemma rev_cons_not_nil {A} (x : A) (l : list A) : rev (x :: l) <> [].
Proof.
  intros H. apply (f_equal (@rev A)) in H.
  rewrite rev_involutive in H. discriminate.
Qed.

Lemma forallb_rev {A} (f : A -> bool) (l : list A) :
  forallb f (rev l) = forallb f l.
Proof.
  induction l as [|x l IH]; simpl; auto.
  rewrite forallb_app, IH. simpl. rewrite andb_true_r. apply andb_comm.
Qed.

Lemma split_ws_go_tokens (cur s : pystr) :
  forallb (fun c => negb (isspace c)) cur = true ->
  Forall (fun tok => tok <> [] /\ forallb (fun c => negb (isspace c)) tok = true)
         (split_ws_go cur s).
Proof.
  revert cur; induction s as [|c t IH]; intros cur Hcur; simpl.
  - destruct cur as [|x cur']; constructor; auto.
    split.
    + apply rev_cons_not_nil.
    + rewrite forallb_rev. exact Hcur.
  - destruct (isspace c) eqn:E.
    + destruct cur as [|x cur'].
      * apply IH. reflexivity.
      * constructor; [|apply IH; reflexivity].
        split.
        -- apply rev_cons_not_nil.
        -- rewrite forallb_rev. exact Hcur.
    + apply IH. simpl. rewrite E. simpl. exact Hcur.
Qed.

(** The tokens of [split()] are not empty and hold no whitespace. *)
Lemma split_ws_tokens (s : pystr) :
  Forall (fun tok => tok <> [] /\ forallb (fun c => negb (isspace c)) tok = true)
         (split_ws s).
Proof. apply split_ws_go_tokens. reflexivity. Qed.

Lemma split_ws_go_concat (cur s : pystr) :
  concat (split_ws_go cur s)
  = rev cur ++ filter (fun c => negb (isspace c) = true) s.
Proof.
  revert cur; induction s as [|c t IH]; intros cur.
  - simpl. destruct cur; simpl; rewrite ?app_nil_r; reflexivity.
  - cbn [split_ws_go]. rewrite filter_cons.
    destruct (isspace c) eqn:E; cbn [negb].
    + rewrite decide_False by discriminate.
      destruct cur as [|x cur']; cbn [concat]; rewrite IH; reflexivity.
    + rewrite decide_True by reflexivity.
      rewrite IH. simpl. rewrite <- app_assoc. reflexivity.
Qed.

(** Put end to end, they are the text without its whitespace. *)
Lemma split_ws_concat (s : pystr) :
  concat (split_ws s) = filter (fun c => negb (isspace c) = true) s.
Proof. apply split_ws_go_concat. Qed.

(** C6: the result has one entry per whitespace-separated token, in order:
    the integer [int()] reads in the token up to its first dash, or a null
    when [int()] raises.  The tokens are the runs of characters that are
    not whitespace: none is empty, none holds whitespace, and end to end
    they are the text without its whitespace.  [int()] reads the decimal
    digits of every script, and no more than [INT_MAX_STR_DIGITS] of
    them. *)
Theorem extract_election_dates_per_token :
  (forall text : pystr,
     extract_election_dates_str text
     = map (fun tok => match py_int (before_dash tok) with
                       | Some z => IInt z
                       | None => INA
                       end) (split_ws text))
  /\ (forall text : pystr,
        List.length (extract_election_dates_str text) = List.length (split_ws text))
  /\ (forall text : pystr,
        Forall (fun tok => tok <> []
                           /\ forallb (fun c => negb (isspace c)) tok = true)
               (split_ws text)
        /\ concat (split_ws text) = filter (fun c => negb (isspace c) = true) text)
  /\ extract_election_dates_str (py "1789 1792") = [IInt 1789; IInt 1792]
  /\ extract_election_dates_str (py "1788–89") = [IInt 1788]
  /\ extract_election_dates_str (py "1789 N/A") = [IInt 1789; INA]
  /\ extract_election_dates_str (py "١٧٨٩ １７９２ 1_796") = [IInt 1789; IInt 1792; IInt 1796]
  /\ extract_election_dates_str (N.iter 4300 (cons 49) [])
     = [IInt ((10 ^ 4300 - 1) / 9)]
  /\ extract_election_dates_str (N.iter 4301 (cons 49) []) = [INA].
Proof.
  split; [|split; [|split; [|repeat split; vm_compute; reflexivity]]].
  - intros text. unfold extract_election_dates_str.
    apply map_ext. intros tok. apply election_token_before_dash.
  - intros text. unfold extract_election_dates_str. apply length_map.
  - intros text. split; [apply split_ws_tokens|apply split_ws_concat].
Qed.

(** ** Whitespace at the ends of a string *)

Lemma lstrip_length (s : pystr) : (List.length (lstrip s) <= List.length s)%nat.
Proof.
  induction s as [|c t IH]; simpl; auto.
  destruct (isspace c); simpl; lia.
Qed.

Lemma lstrip_fixed_head (c : N) (t : pystr) :
  lstrip (c :: t) = c :: t -> isspace c = false.
Proof.
  simpl. destruct (isspace c) eqn:E; auto.
  intros H. pose proof (lstrip_length t) as L.
  rewrite H in L. simpl in L. lia.
Qed.

Lemma lstrip_nonspace_head (c : N) (t : pystr) :
  isspace c = false -> lstrip (c :: t) = c :: t.
Proof. simpl. intros ->. reflexivity. Qed.

Lemma lstrip_all_space (w r : pystr) :
  forallb isspace w = true -> lstrip (w ++ r) = lstrip r.
Proof.
  induction w as [|c t IH]; simpl; auto.
  intros H. apply andb_true_iff in H as [Hc Ht].
  rewrite Hc. auto.
Qed.

(** When [s] has a character that is not whitespace, stripping [s ++ r] on
    the left stops inside [s]. *)
Lemma lstrip_app_stops (s r : pystr) :
  existsb (fun c => negb (isspace c)) s = true ->
  exists x rest, lstrip (s ++ r) = x :: rest /\ In x s /\ isspace x = false.
Proof.
  induction s as [|c t IH]; simpl; [discriminate|].
  destruct (isspace c) eqn:E; simpl.
  - intros H. destruct (IH H) as (x & rest & H1 & H2 & H3).
    exists x, rest. auto.
  - intros _. exists c, (t ++ r). auto.
Qed.

(** A string without trailing whitespace: each of its suffixes that is not
    empty has a character that is not whitespace. *)
Lemma rstrip_fixed_suffix (n pre suf : pystr) :
  rstrip n = n -> n = pre ++ suf -> suf <> [] ->
  existsb (fun c => negb (isspace c)) suf = true.
Proof.
  unfold rstrip. intros H -> Hne.
  apply (f_equal (@rev N)) in H. rewrite rev_involutive in H.
  rewrite rev_app_distr in H.
  destruct (rev suf) as [|x l] eqn:Er.
  - apply (f_equal (@rev N)) in Er. rewrite rev_involutive in Er. contradiction.
  - simpl in H. change (lstrip (x :: l ++ rev pre) = x :: l ++ rev pre) in H.
    apply lstrip_fixed_head in H.
    apply existsb_exists. exists x. split.
    + apply in_rev. rewrite Er. left. reflexivity.
    + rewrite H. reflexivity.
Qed.

(** ** Name, birth and death *)

Lemma take4_app (y r : pystr) : year_text y -> take4 (y ++ r) = Some (y, r).
Proof.
  intros [Hl Hd].
  destruct y as [|a [|b [|c [|d [|e y]]]]]; simpl in Hl; try discriminate.
  simpl in Hd. rewrite andb_true_r in Hd.
  apply andb_true_iff in Hd as [Ha Hd].
  apply andb_true_iff in Hd as [Hb Hd].
  apply andb_true_iff in Hd as [Hc Hd].
  unfold take4, four_digits. simpl. rewrite Ha, Hb, Hc, Hd. reflexivity.
Qed.

Lemma lifespan_app (b d rest : pystr) :
  year_text b -> year_text d ->
  lifespan (b ++ [EN_DASH] ++ d ++ [RPAREN] ++ rest) = Some (b, d).
Proof.
  intros Hb Hd. unfold lifespan.
  rewrite (take4_app b _ Hb). simpl.
  rewrite (take4_app d _ Hd). simpl. reflexivity.
Qed.

Lemma born_only_app (b rest : pystr) :
  year_text b ->
  born_only (py "b. " ++ b ++ [RPAREN] ++ rest) = Some b.
Proof.
  intros Hb. unfold born_only.
  change (exact_prefix (py "b. ") (py "b. " ++ b ++ [RPAREN] ++ rest))
    with (Some (b ++ [RPAREN] ++ rest)).
  simpl. rewrite (take4_app b _ Hb). simpl. reflexivity.
Qed.

Lemma name_tail_lifespan (w b d rest : pystr) :
  forallb isspace w = true -> year_text b -> year_text d ->
  name_tail (w ++ [LPAREN] ++ b ++ [EN_DASH] ++ d ++ [RPAREN] ++ rest)
  = Some (SStr b, SStr d).
Proof.
  intros Hw Hb Hd. unfold name_tail.
  rewrite (lstrip_all_space w _ Hw).
  change (lstrip ([LPAREN] ++ b ++ [EN_DASH] ++ d ++ [RPAREN] ++ rest))
    with (LPAREN :: (b ++ [EN_DASH] ++ d ++ [RPAREN] ++ rest)).
  cbn [expect]. rewrite N.eqb_refl.
  rewrite (lifespan_app b d rest Hb Hd). reflexivity.
Qed.

Lemma name_tail_born (w b rest : pystr) :
  forallb isspace w = true -> year_text b ->
  name_tail (w ++ [LPAREN] ++ py "b. " ++ b ++ [RPAREN] ++ rest)
  = Some (SStr b, SNA).
Proof.
  intros Hw Hb. unfold name_tail.
  rewrite (lstrip_all_space w _ Hw).
  change (lstrip ([LPAREN] ++ py "b. " ++ b ++ [RPAREN] ++ rest))
    with (LPAREN :: (py "b. " ++ b ++ [RPAREN] ++ rest)).
  cbn [expect]. rewrite N.eqb_refl.
  assert (L : lifespan (py "b. " ++ b ++ [RPAREN] ++ rest) = None).
  { destruct Hb as [Hl _]. destruct b as [|x b']; [discriminate|]. reflexivity. }
  rewrite L, (born_only_app b rest Hb). reflexivity.
Qed.

(** The pattern cannot match where the first character after the
    whitespace is not an opening parenthesis. *)
Lemma name_tail_needs_paren (s : pystr) (x : N) (rest : pystr) :
  lstrip s = x :: rest -> x <> LPAREN -> name_tail s = None.
Proof.
  intros H Hx. unfold name_tail. rewrite H. cbn [expect].
  apply N.eqb_neq in Hx. rewrite Hx. reflexivity.
Qed.

Lemma name_match_plain (n tail : pystr) (b d : scalar) :
  plain_name n ->
  name_tail tail = Some (b, d) ->
  name_match [] (n ++ tail) = Some (n, b, d).
Proof.
  intros [Hc Hr] Ht.
  assert (G : forall suf pre acc, n = pre ++ suf ->
            name_match acc (suf ++ tail) = Some (rev acc ++ suf, b, d)).
  { induction suf as [|c t IH]; intros pre acc E.
    - cbn [app]. destruct tail as [|x tl]; cbn [name_match]; rewrite Ht;
        rewrite app_nil_r; reflexivity.
    - assert (Hin : In c n) by (rewrite E; apply in_or_app; right; left; reflexivity).
      rewrite forallb_forall in Hc. pose proof (Hc c Hin) as Hcc.
      apply andb_true_iff in Hcc as [Hnl Hlp].
      assert (Hnone : name_tail ((c :: t) ++ tail) = None).
      { assert (Hex : existsb (fun c => negb (isspace c)) (c :: t) = true).
        { apply (rstrip_fixed_suffix n pre (c :: t)); auto. }
        destruct (lstrip_app_stops (c :: t) tail Hex) as (x & rest & H1 & H2 & H3).
        apply (name_tail_needs_paren _ x rest H1).
        assert (In x n) by (rewrite E; apply in_or_app; right; exact H2).
        pose proof (Hc x H) as Hx. apply andb_true_iff in Hx as [_ Hx].
        apply negb_true_iff in Hx. apply N.eqb_neq in Hx. exact Hx. }
      cbn [app name_match]. cbn [app] in Hnone. rewrite Hnone.
      apply negb_true_iff in Hnl. rewrite Hnl.
      rewrite (IH (pre ++ [c]) (c :: acc)).
      + simpl. rewrite <- app_assoc. reflexivity.
      + rewrite <- app_assoc. exact E. }
  apply (G n [] []). reflexivity.
Qed.

Lemma name_match_no_paren (s acc : pystr) :
  contains LPAREN s = false -> name_match acc s = None.
Proof.
  unfold contains. revert acc.
  assert (T : forall s', existsb (N.eqb LPAREN) s' = false -> name_tail s' = None).
  { intros s' H. unfold name_tail.
    assert (L : existsb (N.eqb LPAREN) (lstrip s') = false).
    { induction s' as [|c t IH]; cbn [lstrip]; auto.
      destruct (isspace c); auto.
      cbn [existsb] in H. apply orb_false_iff in H as [_ H]. auto. }
    destruct (lstrip s') as [|x r]; cbn [expect]; auto.
    cbn [existsb] in L. apply orb_false_iff in L as [L _].
    rewrite N.eqb_sym in L. rewrite L. reflexivity. }
  induction s as [|c t IH]; intros acc H.
  - cbn [name_match]. rewrite (T [] H). reflexivity.
  - cbn [name_match]. rewrite (T _ H).
    cbn [existsb] in H. apply orb_false_iff in H as [_ H].
    destruct (c =? NEWLINE); auto.
Qed.

(** C7, as stated, fails: the birth and death years come out as the text of
    the capture groups, not as integers. *)
Lemma split_name_birth_death_years_not_int :
  split_name_birth_death (VScalar (SStr (py "John Adams (1735–1826)")))
  <> Ok (SStr (py "John Adams"), SInt 1735, SInt 1826).
Proof. vm_compute. discriminate. Qed.

(** What the pattern reads at a place of the text. *)
Lemma lstrip_split (s : pystr) :
  exists ws, s = ws ++ lstrip s /\ forallb isspace ws = true.
Proof.
  induction s as [|c t (ws & E & H)]; [exists []; split; reflexivity|].
  cbn [lstrip]. destruct (isspace c) eqn:C.
  - exists (c :: ws). split; [cbn [app]; f_equal; exact E|].
    cbn [forallb]. rewrite C, H. reflexivity.
  - exists []. split; reflexivity.
Qed.

Lemma expect_inv (c : N) (s t : pystr) : expect c s = Some t -> s = c :: t.
Proof.
  destruct s as [|x s']; cbn [expect]; [discriminate|].
  destruct (x =? c) eqn:E; [|discriminate].
  apply N.eqb_eq in E. intros H. injection H as <-. subst x. reflexivity.
Qed.

Lemma exact_prefix_inv (pat s r : pystr) :
  exact_prefix pat s = Some r -> s = pat ++ r.
Proof.
  revert s. induction pat as [|p pt IH]; intros s; cbn [exact_prefix].
  - intros H. injection H as <-. reflexivity.
  - destruct s as [|c t]; [discriminate|].
    destruct (c =? p) eqn:E; [|discriminate].
    apply N.eqb_eq in E. subst c. intros H. cbn [app]. f_equal. auto.
Qed.

Lemma take4_inv (r y r' : pystr) :
  take4 r = Some (y, r') -> r = y ++ r' /\ year_text y.
Proof.
  unfold take4. destruct (four_digits r) eqn:E; [|discriminate].
  intros H. injection H as <- <-.
  split; [symmetry; apply firstn_skipn|].
  destruct r as [|a [|b [|c [|d r]]]]; try discriminate E.
  cbn [four_digits] in E. split; [reflexivity|].
  apply andb_true_iff in E as [E Hd]. apply andb_true_iff in E as [E Hc].
  apply andb_true_iff in E as [Ha Hb].
  cbn [firstn forallb]. rewrite Ha, Hb, Hc, Hd. reflexivity.
Qed.

(** The rest of the pattern matches at a place exactly when whitespace and
    one of the two parentheses stand there. *)
Lemma name_tail_shape (s : pystr) (b d : scalar) :
  name_tail s = Some (b, d)
  <-> exists ws tail birth death,
        s = ws ++ tail /\ forallb isspace ws = true
        /\ years_tail tail birth death
        /\ b = SStr birth /\ d = year_or_null death.
Proof.
  split.
  - destruct (lstrip_split s) as (ws & E & Hws).
    unfold name_tail.
    destruct (expect LPAREN (lstrip s)) as [r|] eqn:P; [|discriminate].
    apply expect_inv in P.
    destruct (lifespan r) as [[yb yd]|] eqn:L.
    + intros H. injection H as <- <-.
      unfold lifespan in L.
      destruct (take4 r) as [[y1 r1]|] eqn:T1; [|discriminate].
      cbn [mbind option_bind] in L.
      destruct (expect EN_DASH r1) as [r2|] eqn:P1; [|discriminate].
      cbn [mbind option_bind] in L.
      destruct (take4 r2) as [[y2 r3]|] eqn:T2; [|discriminate].
      cbn [mbind option_bind] in L.
      destruct (expect RPAREN r3) as [r4|] eqn:P2; [|discriminate].
      cbn [mbind option_bind] in L. injection L as <- <-.
      apply take4_inv in T1 as [E1 Y1]. apply take4_inv in T2 as [E2 Y2].
      apply expect_inv in P1. apply expect_inv in P2.
      exists ws, (lstrip s), y1, (Some y2).
      split; [exact E|]. split; [exact Hws|].
      split; [|split; reflexivity].
      split; [exact Y1|]. split; [exact Y2|].
      exists r4. rewrite P, E1, P1, E2, P2. reflexivity.
    + destruct (born_only r) as [yb|] eqn:B; [|discriminate].
      intros H. injection H as <- <-.
      unfold born_only in B.
      destruct (exact_prefix (py "b. ") r) as [r1|] eqn:P1; [|discriminate].
      cbn [mbind option_bind] in B.
      destruct (take4 r1) as [[y1 r2]|] eqn:T1; [|discriminate].
      cbn [mbind option_bind] in B.
      destruct (expect RPAREN r2) as [r3|] eqn:P2; [|discriminate].
      cbn [mbind option_bind] in B. injection B as <-.
      apply exact_prefix_inv in P1.
      apply take4_inv in T1 as [E1 Y1]. apply expect_inv in P2.
      exists ws, (lstrip s), y1, None.
      split; [exact E|]. split; [exact Hws|].
      split; [|split; reflexivity].
      split; [exact Y1|].
      exists r3. rewrite P, P1, E1, P2. reflexivity.
  - intros (ws & tail & birth & death & -> & Hws & [Hb Hd] & -> & ->).
    destruct death as [y|].
    + destruct Hd as (Hy & rest & ->). apply name_tail_lifespan; auto.
    + destruct Hd as (rest & ->). apply name_tail_born; auto.
Qed.

(** The name [re.match] reads: the shortest start of the text that holds no
    newline and after which the rest of the pattern matches. *)
Lemma name_match_spec (s acc : pystr) :
  match name_match acc s with
  | Some (n, b, d) =>
      exists k, n = rev acc ++ take k s
        /\ (k <= List.length s)%nat
        /\ forallb (fun c => negb (c =? NEWLINE)) (take k s) = true
        /\ name_tail (drop k s) = Some (b, d)
        /\ forall j, (j < k)%nat -> name_tail (drop j s) = None
  | None =>
      forall k, forallb (fun c => negb (c =? NEWLINE)) (take k s) = true ->
                name_tail (drop k s) = None
  end.
Proof.
  revert acc. induction s as [|c t IH]; intros acc; cbn [name_match].
  - destruct (name_tail []) as [[b d]|] eqn:E.
    + exists 0%nat. cbn [take drop]. rewrite app_nil_r.
      repeat split; auto. intros j Hj. lia.
    + intros k _. destruct k; exact E.
  - destruct (name_tail (c :: t)) as [[b d]|] eqn:E.
    + exists 0%nat. cbn [take drop]. rewrite app_nil_r.
      repeat split; auto; [cbn [List.length]; lia|]. intros j Hj. lia.
    + destruct (c =? NEWLINE) eqn:Nl.
      * intros [|k]; [intros _; exact E|].
        cbn [take forallb]. rewrite Nl. discriminate.
      * specialize (IH (c :: acc)).
        destruct (name_match (c :: acc) t) as [[[n b] d]|].
        -- destruct IH as (k & -> & Hk & Hn & Ht & Hlt).
           exists (S k). cbn [take drop forallb rev List.length].
           rewrite Nl, <- app_assoc.
           repeat split; auto; [lia|].
           intros [|j] Hj; [exact E|]. cbn [drop]. apply Hlt. lia.
        -- intros [|k]; [intros _; exact E|].
           cbn [take drop forallb]. rewrite Nl. cbn [negb andb]. apply IH.
Qed.

(** A reading of the text in one of the two shapes is a place where the
    rest of the pattern matches. *)
Lemma name_shape_tail (text name birth : pystr) (death : option pystr) :
  name_shape text name birth death ->
  forallb (fun c => negb (c =? NEWLINE)) (take (List.length name) text) = true
  /\ take (List.length name) text = name
  /\ name_tail (drop (List.length name) text)
     = Some (SStr birth, year_or_null death).
Proof.
  intros (Hn & ws & tail & Hws & -> & Hy).
  rewrite take_app_length, drop_app_length.
  split; [exact Hn|]. split; [reflexivity|].
  apply name_tail_shape. exists ws, tail, birth, death. auto.
Qed.

(** What [re.match] finds is a reading in one of the two shapes, with the
    shortest name there is. *)
Lemma name_match_shape (text n : pystr) (b d : scalar) :
  name_match [] text = Some (n, b, d) ->
  exists birth death,
    b = SStr birth /\ d = year_or_null death
    /\ name_shape text n birth death
    /\ forall name' b' d',
         name_shape text name' b' d' ->
         (List.length n <= List.length name')%nat.
Proof.
  intros M. pose proof (name_match_spec text []) as S. rewrite M in S.
  destruct S as (k & -> & Hk & Hn & Ht & Hlt). cbn [rev app].
  pose proof Ht as Ht'.
  apply name_tail_shape in Ht' as (ws & tail & birth & death & E & Hws & Hy & -> & ->).
  exists birth, death. split; [reflexivity|]. split; [reflexivity|]. split.
  - split; [exact Hn|]. exists ws, tail. split; [exact Hws|].
    split; [|exact Hy]. rewrite <- E. symmetry. apply take_drop.
  - intros name' b' d' Sh.
    apply name_shape_tail in Sh as (_ & _ & T).
    rewrite length_take.
    destruct (le_lt_dec k (List.length name')) as [L|L]; [lia|].
    rewrite (Hlt _ L) in T. discriminate.
Qed.

(** A reading with the shortest name is the one [re.match] finds. *)
Lemma name_shape_match (text name birth : pystr) (death : option pystr) :
  name_shape text name birth death ->
  (forall name' b' d',
     name_shape text name' b' d' ->
     (List.length name <= List.length name')%nat) ->
  name_match [] text = Some (name, SStr birth, year_or_null death).
Proof.
  intros Sh Hmin.
  destruct (name_shape_tail _ _ _ _ Sh) as (Hnl & Etake & T).
  pose proof (name_match_spec text []) as S.
  destruct (name_match [] text) as [[[n b] d]|] eqn:M.
  - destruct (name_match_shape _ _ _ _ M) as (b' & d' & _ & _ & Sh' & _).
    destruct S as (k & -> & Hk & Hn & Ht & Hlt). cbn [rev app] in *.
    pose proof (Hmin _ _ _ Sh') as Hle. rewrite length_take in Hle.
    destruct (le_lt_dec k (List.length name)) as [L|L].
    + assert (k = List.length name) by lia. subst k.
      rewrite Etake. rewrite T in Ht. injection Ht as <- <-. reflexivity.
    + rewrite (Hlt _ L) in T. discriminate.
  - rewrite (S _ Hnl) in T. discriminate.
Qed.

(** C7, amended: a string that starts in the shape [Name (YYYY–YYYY)] or
    [Name (b. YYYY)] (the name without a newline, whitespace or none
    before the parenthesis, each year four digits) gives the name and the
    years as their four-digit text, the death year a null in the second
    shape; where the string can be read so with more than one name, the
    shortest is taken.  A string that starts in neither shape gives three
    nulls, and no other string does.  On a string the function never
    raises. *)
Theorem split_name_birth_death_shapes :
  (forall (text name birth : pystr) (death : option pystr),
     name_shape text name birth death ->
     (forall name' b' d',
        name_shape text name' b' d' ->
        (List.length name <= List.length name')%nat) ->
     split_name_birth_death (VScalar (SStr text))
     = Ok (SStr name, SStr birth, year_or_null death))
  /\ (forall text : pystr,
        (forall name birth death, ~ name_shape text name birth death) ->
        split_name_birth_death (VScalar (SStr text)) = Ok (SNA, SNA, SNA))
  /\ (forall (text name : pystr) (b d : scalar),
        split_name_birth_death (VScalar (SStr text)) = Ok (SStr name, b, d) ->
        exists birth death,
          b = SStr birth /\ d = year_or_null death
          /\ name_shape text name birth death
          /\ forall name' b' d',
               name_shape text name' b' d' ->
               (List.length name <= List.length name')%nat)
  /\ (forall text : pystr,
        split_name_birth_death (VScalar (SStr text)) = Ok (SNA, SNA, SNA) ->
        forall name birth death, ~ name_shape text name birth death)
  /\ (forall n b d : pystr,
        plain_name n -> year_text b -> year_text d ->
        split_name_birth_death
          (VScalar (SStr (n ++ py " (" ++ b ++ [EN_DASH] ++ d ++ py ")")))
        = Ok (SStr n, SStr b, SStr d))
  /\ (forall n b : pystr,
        plain_name n -> year_text b ->
        split_name_birth_death (VScalar (SStr (n ++ py " (b. " ++ b ++ py ")")))
        = Ok (SStr n, SStr b, SNA))
  /\ (forall s : pystr,
        contains LPAREN s = false ->
        split_name_birth_death (VScalar (SStr s)) = Ok (SNA, SNA, SNA))
  /\ (forall s : pystr, is_ok (split_name_birth_death (VScalar (SStr s))) = true)
  /\ split_name_birth_death (VScalar (SStr (py "John Adams (1735–1826)")))
     = Ok (SStr (py "John Adams"), SStr (py "1735"), SStr (py "1826"))
  /\ split_name_birth_death (VScalar (SStr (py "Joe Biden (b. 1942)")))
     = Ok (SStr (py "Joe Biden"), SStr (py "1942"), SNA)
  /\ split_name_birth_death (VScalar (SStr (py "no parens here")))
     = Ok (SNA, SNA, SNA)
  /\ split_name_birth_death (VScalar (SStr (py "John (Jack) Adams (1735–1826)")))
     = Ok (SStr (py "John (Jack) Adams"), SStr (py "1735"), SStr (py "1826"))
  /\ split_name_birth_death (VScalar (SStr (py "A (١٧٣٥–١٨٢٦)")))
     = Ok (SStr (py "A"), SStr (py "١٧٣٥"), SStr (py "١٨٢٦"))
  /\ split_name_birth_death (VScalar (SStr (py "(b. 1942) (b. 1946), 45th")))
     = Ok (SStr [], SStr (py "1942"), SNA).
Proof.
  split; [|split; [|split; [|split; [|split; [|split; [|split; [|split]]]]]]].
  - intros text name birth death Sh Hmin. cbn [split_name_birth_death].
    unfold split_name_birth_death_str.
    rewrite (name_shape_match _ _ _ _ Sh Hmin). reflexivity.
  - intros text Hno. cbn [split_name_birth_death].
    unfold split_name_birth_death_str.
    destruct (name_match [] text) as [[[n b] d]|] eqn:M; [|reflexivity].
    destruct (name_match_shape _ _ _ _ M) as (b' & d' & _ & _ & Sh & _).
    destruct (Hno _ _ _ Sh).
  - intros text name b d. cbn [split_name_birth_death].
    unfold split_name_birth_death_str.
    destruct (name_match [] text) as [[[n b0] d0]|] eqn:M; [|discriminate].
    intros H. injection H as -> -> ->.
    apply (name_match_shape _ _ _ _ M).
  - intros text. cbn [split_name_birth_death].
    unfold split_name_birth_death_str.
    destruct (name_match [] text) as [[[n b0] d0]|] eqn:M; [discriminate|].
    intros _ name birth death Sh.
    apply name_shape_tail in Sh as (Hnl & _ & T).
    pose proof (name_match_spec text []) as S. rewrite M in S.
    rewrite (S _ Hnl) in T. discriminate.
  - intros n b d Hn Hb Hd. cbn [split_name_birth_death].
    unfold split_name_birth_death_str.
    change (n ++ py " (" ++ b ++ [EN_DASH] ++ d ++ py ")")
      with (n ++ ([SPACE] ++ [LPAREN] ++ b ++ [EN_DASH] ++ d ++ [RPAREN] ++ [])).
    rewrite (name_match_plain n _ (SStr b) (SStr d) Hn); [reflexivity|].
    apply name_tail_lifespan; auto.
  - intros n b Hn Hb. cbn [split_name_birth_death].
    unfold split_name_birth_death_str.
    change (n ++ py " (b. " ++ b ++ py ")")
      with (n ++ ([SPACE] ++ [LPAREN] ++ py "b. " ++ b ++ [RPAREN] ++ [])).
    rewrite (name_match_plain n _ (SStr b) SNA Hn); [reflexivity|].
    apply name_tail_born; auto.
  - intros s H. cbn [split_name_birth_death].
    unfold split_name_birth_death_str.
    rewrite (name_match_no_paren s [] H). reflexivity.
  - intros s. reflexivity.
  - repeat split; vm_compute; reflexivity.
Qed.

Lemma split_name_birth_death_shapes_witness :
  (plain_name (py "John Adams") /\ year_text (py "1735") /\ year_text (py "1826")
   /\ split_name_birth_death
        (VScalar (SStr (py "John Adams" ++ py " (" ++ py "1735" ++ [EN_DASH]
                          ++ py "1826" ++ py ")")))
      = Ok (SStr (py "John Adams"), SStr (py "1735"), SStr (py "1826")))
  /\ (name_shape (py "John (Jack) Adams (1735–1826)") (py "John (Jack) Adams")
        (py "1735") (Some (py "1826"))
      /\ (forall name' b' d',
            name_shape (py "John (Jack) Adams (1735–1826)") name' b' d' ->
            (List.length (py "John (Jack) Adams") <= List.length name')%nat)
      /\ split_name_birth_death
           (VScalar (SStr (py "John (Jack) Adams (1735–1826)")))
         = Ok (SStr (py "John (Jack) Adams"), SStr (py "1735"),
               year_or_null (Some (py "1826")))).
Proof.
  split.
  - assert (Hn : plain_name (py "John Adams")) by (split; vm_compute; reflexivity).
    assert (Hb : year_text (py "1735")) by (split; vm_compute; reflexivity).
    assert (Hd : year_text (py "1826")) by (split; vm_compute; reflexivity).
    split; [exact Hn|]. split; [exact Hb|]. split; [exact Hd|].
    exact (proj1 (proj2 (proj2 (proj2 (proj2 split_name_birth_death_shapes))))
             _ _ _ Hn Hb Hd).
  - assert (Sh : name_shape (py "John (Jack) Adams (1735–1826)")
                   (py "John (Jack) Adams") (py "1735") (Some (py "1826"))).
    { split; [vm_compute; reflexivity|].
      exists [SPACE], (py "(1735–1826)").
      split; [vm_compute; reflexivity|]. split; [vm_compute; reflexivity|].
      split; [split; vm_compute; reflexivity|].
      split; [split; vm_compute; reflexivity|].
      exists []. vm_compute. reflexivity. }
    assert (Hmin : forall name' b' d',
              name_shape (py "John (Jack) Adams (1735–1826)") name' b' d' ->
              (List.length (py "John (Jack) Adams") <= List.length name')%nat).
    { intros name' b' d' Sh'.
      apply name_shape_tail in Sh' as (_ & E & T).
      remember (List.length name') as k eqn:K. clear K Sh.
      do 17 (destruct k as [|k]; [vm_compute in T; discriminate T|]).
      vm_compute. lia. }
    split; [exact Sh|]. split; [exact Hmin|].
    exact (proj1 split_name_birth_death_shapes _ _ _ _ Sh Hmin).
Defined.

(** ** Stripping, read from the left *)

Lemma lstrip_all_space_nil (w : pystr) :
  forallb isspace w = true -> lstrip w = [].
Proof.
  intros H. rewrite <- (app_nil_r w). rewrite (lstrip_all_space w [] H).
  reflexivity.
Qed.

Lemma lstrip_snoc (x : pystr) (c : N) :
  lstrip (x ++ [c])
  = if forallb isspace x then lstrip [c] else lstrip x ++ [c].
Proof.
  induction x as [|a x IH]; cbn [app lstrip forallb]; auto.
  destruct (isspace a) eqn:E; cbn [andb]; auto.
Qed.

Lemma rstrip_rec_all_space (t : pystr) :
  forallb isspace t = true -> rstrip_rec t = [].
Proof.
  destruct t as [|c t]; cbn [rstrip_rec forallb]; auto.
  intros H. rewrite H. reflexivity.
Qed.

Lemma rstrip_is_rec (s : pystr) : rstrip s = rstrip_rec s.
Proof.
  unfold rstrip. induction s as [|c t IH]; auto.
  cbn [rev rstrip_rec]. rewrite lstrip_snoc, forallb_rev.
  destruct (forallb isspace t) eqn:Et.
  - rewrite andb_true_r. cbn [lstrip].
    destruct (isspace c); auto.
    cbn [rev app]. rewrite (rstrip_rec_all_space t Et). reflexivity.
  - rewrite andb_false_r. rewrite rev_app_distr. cbn [rev app].
    rewrite IH. reflexivity.
Qed.

Lemma rstrip_rec_space (t : pystr) :
  forallb isspace (rstrip_rec t) = forallb isspace t.
Proof.
  induction t as [|c t IH]; auto.
  cbn [rstrip_rec].
  destruct (isspace c && forallb isspace t) eqn:E.
  - cbn [forallb]. symmetry. exact E.
  - cbn [forallb]. rewrite IH. reflexivity.
Qed.

Lemma rstrip_rec_idem (s : pystr) : rstrip_rec (rstrip_rec s) = rstrip_rec s.
Proof.
  induction s as [|c t IH]; auto.
  cbn [rstrip_rec].
  destruct (isspace c && forallb isspace t) eqn:E; auto.
  cbn [rstrip_rec]. rewrite rstrip_rec_space, E, IH. reflexivity.
Qed.

Lemma lstrip_rstrip_rec (s : pystr) :
  lstrip (rstrip_rec s) = rstrip_rec (lstrip s).
Proof.
  induction s as [|c t IH]; auto.
  cbn [rstrip_rec lstrip].
  destruct (isspace c) eqn:Ec; cbn [andb].
  - destruct (forallb isspace t) eqn:Et.
    + rewrite (lstrip_all_space_nil t Et). reflexivity.
    + cbn [lstrip]. rewrite Ec. exact IH.
  - cbn [lstrip rstrip_rec]. rewrite Ec. reflexivity.
Qed.

Lemma lstrip_idem (s : pystr) : lstrip (lstrip s) = lstrip s.
Proof.
  induction s as [|c t IH]; auto.
  cbn [lstrip]. destruct (isspace c) eqn:E; auto.
  cbn [lstrip]. rewrite E. reflexivity.
Qed.

Lemma strip_rstrip_rec (s : pystr) : strip (rstrip_rec s) = strip s.
Proof.
  unfold strip. rewrite !rstrip_is_rec, lstrip_rstrip_rec, rstrip_rec_idem.
  reflexivity.
Qed.

Lemma strip_lstrip (s : pystr) : strip (lstrip s) = strip s.
Proof. unfold strip. rewrite lstrip_idem. reflexivity. Qed.

(** ** Terms *)

Lemma lstrip_no_dash (t : pystr) :
  contains EN_DASH t = false ->
  starts_with_char EN_DASH (lstrip t) = false.
Proof.
  unfold contains. induction t as [|c t IH]; auto.
  cbn [existsb lstrip]. intros H. apply orb_false_iff in H as [Hc Ht].
  destruct (isspace c); auto.
  cbn [starts_with_char]. rewrite N.eqb_sym. exact Hc.
Qed.

Lemma lstrip_to_dash (t r : pystr) :
  contains EN_DASH t = false ->
  starts_with_char EN_DASH (lstrip (t ++ EN_DASH :: r)) = forallb isspace t.
Proof.
  unfold contains. induction t as [|c t IH].
  - intros _. reflexivity.
  - cbn [existsb app lstrip forallb]. intros H.
    apply orb_false_iff in H as [Hc Ht].
    destruct (isspace c); cbn [andb]; auto.
    cbn [starts_with_char]. rewrite N.eqb_sym. exact Hc.
Qed.

(** The last piece: a text without a dash. *)
Lemma dash_split_last (b : pystr) (after : bool) (cur : pystr) :
  contains EN_DASH b = false ->
  dash_split after cur b = [rev cur ++ (if after then lstrip b else b)].
Proof.
  revert after cur. induction b as [|c t IH]; intros after cur H.
  - cbn [dash_split]. destruct after; rewrite app_nil_r; reflexivity.
  - pose proof H as H'. unfold contains in H'. cbn [existsb] in H'.
    apply orb_false_iff in H' as [Hc Ht].
    rewrite N.eqb_sym in Hc.
    cbn [dash_split]. rewrite Hc.
    rewrite (lstrip_no_dash t Ht), orb_false_r.
    destruct (isspace c) eqn:Es.
    + destruct after.
      * rewrite (IH true cur Ht). cbn [lstrip]. rewrite Es. reflexivity.
      * rewrite (IH false (c :: cur) Ht). cbn [rev]. rewrite <- app_assoc.
        reflexivity.
    + rewrite (IH false (c :: cur) Ht). cbn [rev lstrip]. rewrite Es.
      rewrite <- app_assoc. destruct after; reflexivity.
Qed.

(** A piece that a dash ends: the whitespace before the dash goes with it. *)
Lemma dash_split_piece (a r : pystr) (after : bool) (cur : pystr) :
  contains EN_DASH a = false ->
  dash_split after cur (a ++ EN_DASH :: r)
  = (rev cur ++ rstrip_rec (if after then lstrip a else a))
      :: dash_split true [] r.
Proof.
  revert after cur. induction a as [|c t IH]; intros after cur H.
  - cbn [app dash_split]. rewrite N.eqb_refl.
    destruct after; cbn [lstrip rstrip_rec]; rewrite app_nil_r; reflexivity.
  - pose proof H as H'. unfold contains in H'. cbn [existsb] in H'.
    apply orb_false_iff in H' as [Hc Ht].
    rewrite N.eqb_sym in Hc.
    cbn [app dash_split]. rewrite Hc.
    rewrite (lstrip_to_dash t r Ht).
    destruct (isspace c) eqn:Es.
    + destruct after; cbn [orb].
      * rewrite (IH true cur Ht). cbn [lstrip]. rewrite Es. reflexivity.
      * destruct (forallb isspace t) eqn:Et.
        -- rewrite (IH false cur Ht). cbn [rstrip_rec]. rewrite Es, Et.
           rewrite (rstrip_rec_all_space t Et). reflexivity.
        -- rewrite (IH false (c :: cur) Ht). cbn [rstrip_rec rev].
           rewrite Es, Et. cbn [andb]. rewrite <- app_assoc. reflexivity.
    + rewrite (IH false (c :: cur) Ht). cbn [rev lstrip]. rewrite Es.
      rewrite <- app_assoc.
      assert (R : rstrip_rec (c :: t) = c :: rstrip_rec t).
      { cbn [rstrip_rec]. rewrite Es. reflexivity. }
      destruct after; rewrite R; reflexivity.
Qed.

(** [re.split] gives one piece more than there are dashes. *)
Lemma dash_split_length (s : pystr) (after : bool) (cur : pystr) :
  List.length (dash_split after cur s) = S (count_char EN_DASH s).
Proof.
  unfold count_char.
  revert after cur. induction s as [|c t IH]; intros after cur; auto.
  cbn [dash_split]. rewrite filter_cons.
  destruct (c =? EN_DASH) eqn:E.
  - apply N.eqb_eq in E. rewrite decide_True by exact E.
    cbn [List.length]. rewrite IH. reflexivity.
  - apply N.eqb_neq in E. rewrite decide_False by exact E.
    destruct (isspace c); [destruct (after || _)|]; apply IH.
Qed.

(** C8: a text with one dash is split at it into the two trimmed parts,
    whatever whitespace pads the dash, the end [Incumbent] becoming a null;
    a text with no dash or more than one gives two nulls. *)
Theorem split_term_two_parts :
  (forall a b : pystr,
     contains EN_DASH a = false -> contains EN_DASH b = false ->
     split_term (VScalar (SStr (a ++ [EN_DASH] ++ b)))
     = Ok (SStr (strip a),
           if bool_decide (strip b = py "Incumbent") then SNA else SStr (strip b)))
  /\ (forall s : pystr,
        count_char EN_DASH s <> 1%nat ->
        split_term (VScalar (SStr s)) = Ok (SNA, SNA))
  /\ split_term (VScalar (SStr (py "March 4, 1797 – March 4, 1801")))
     = Ok (SStr (py "March 4, 1797"), SStr (py "March 4, 1801"))
  /\ split_term (VScalar (SStr (py "January 20, 2021 – Incumbent")))
     = Ok (SStr (py "January 20, 2021"), SNA).
Proof.
  split; [|split].
  - intros a b Ha Hb. cbn [split_term]. unfold split_term_str.
    cbn [app]. rewrite (dash_split_piece a b false [] Ha).
    rewrite (dash_split_last b true [] Hb). cbn [rev app].
    rewrite strip_rstrip_rec, strip_lstrip. reflexivity.
  - intros s H. cbn [split_term]. unfold split_term_str.
    pose proof (dash_split_length s false []) as L.
    destruct (dash_split false [] s) as [|p [|q [|r l]]]; auto.
    cbn [List.length] in L. exfalso. apply H. lia.
  - split; vm_compute; reflexivity.
Qed.

Lemma split_term_two_parts_witness :
  contains EN_DASH (py "March 4, 1797 ") = false
  /\ contains EN_DASH (py " March 4, 1801") = false
  /\ split_term (VScalar (SStr (py "March 4, 1797 " ++ [EN_DASH] ++ py " March 4, 1801")))
     = Ok (SStr (py "March 4, 1797"), SStr (py "March 4, 1801")).
Proof.
  split; [reflexivity|]. split; [reflexivity|].
  exact (proj1 split_term_two_parts (py "March 4, 1797 ") (py " March 4, 1801")
           eq_refl eq_refl).
Defined.

(** ** The list codec *)

Lemma rstrip_rec_length (s : pystr) :
  (List.length (rstrip_rec s) <= List.length s)%nat.
Proof.
  induction s as [|c t IH]; auto.
  cbn [rstrip_rec]. destruct (isspace c && forallb isspace t); simpl; lia.
Qed.

Lemma strip_fixed_lstrip (t : pystr) : strip t = t -> lstrip t = t.
Proof.
  destruct t as [|c t']; auto.
  unfold strip. rewrite rstrip_is_rec. intros H.
  destruct (isspace c) eqn:E.
  - exfalso. cbn [lstrip] in H. rewrite E in H.
    pose proof (rstrip_rec_length (lstrip t')) as L1.
    pose proof (lstrip_length t') as L2.
    rewrite H in L1. simpl in L1. lia.
  - apply lstrip_nonspace_head. exact E.
Qed.

Lemma strip_fixed_rstrip (t : pystr) : strip t = t -> rstrip_rec t = t.
Proof.
  intros H. pose proof (strip_fixed_lstrip t H) as L.
  unfold strip in H. rewrite L, rstrip_is_rec in H. exact H.
Qed.

Lemma rstrip_rec_app_space (t w : pystr) :
  forallb isspace w = true -> rstrip_rec (t ++ w) = rstrip_rec t.
Proof.
  intros Hw. induction t as [|c t IH].
  - cbn [app]. rewrite (rstrip_rec_all_space w Hw). reflexivity.
  - cbn [app rstrip_rec]. rewrite forallb_app, Hw, andb_true_r, IH.
    reflexivity.
Qed.

(** Trimming undoes padding with whitespace. *)
Lemma strip_padded (w1 t w2 : pystr) :
  forallb isspace w1 = true -> forallb isspace w2 = true ->
  strip t = t -> strip (w1 ++ t ++ w2) = t.
Proof.
  intros H1 H2 Ht. unfold strip.
  rewrite (lstrip_all_space w1 _ H1), rstrip_is_rec.
  pose proof (strip_fixed_lstrip t Ht) as L.
  pose proof (strip_fixed_rstrip t Ht) as R.
  destruct t as [|c t'].
  - cbn [app]. rewrite (lstrip_all_space_nil w2 H2). reflexivity.
  - cbn [app]. apply lstrip_fixed_head in L.
    rewrite (lstrip_nonspace_head c (t' ++ w2) L).
    change (c :: t' ++ w2) with ((c :: t') ++ w2).
    rewrite (rstrip_rec_app_space _ w2 H2). exact R.
Qed.

Lemma piece_item_padded (w1 t w2 : pystr) :
  forallb isspace w1 = true -> forallb isspace w2 = true ->
  strip t = t -> piece_item (w1 ++ t ++ w2) = piece_item t.
Proof.
  intros H1 H2 Ht. unfold piece_item.
  rewrite (strip_padded w1 t w2 H1 H2 Ht), Ht. reflexivity.
Qed.

Lemma split_char_go_app (sep : N) (t r cur : pystr) :
  contains sep t = false ->
  split_char_go sep cur (t ++ r) = split_char_go sep (rev t ++ cur) r.
Proof.
  unfold contains. revert cur. induction t as [|c t IH]; intros cur H; auto.
  cbn [existsb] in H. apply orb_false_iff in H as [Hc Ht].
  rewrite N.eqb_sym in Hc.
  cbn [app split_char_go]. rewrite Hc, (IH _ Ht).
  cbn [rev]. rewrite <- app_assoc. reflexivity.
Qed.

(** Decoding a joined list gives back each text that has no pipe and
    nothing to trim. *)
Lemma decode_join (ts : list pystr) (t cur : pystr) :
  Forall text_ok (t :: ts) -> forallb isspace cur = true ->
  map piece_item (split_char_go PIPE cur (join (py " | ") (t :: ts)))
  = map piece_item (t :: ts).
Proof.
  revert t cur. induction ts as [|t2 ts IH]; intros t cur H Hcur.
  - apply Forall_cons_1 in H as [[Hp Hs] _].
    cbn [join]. rewrite <- (app_nil_r t) at 1.
    rewrite (split_char_go_app PIPE t [] cur Hp).
    cbn [split_char_go map]. rewrite rev_app_distr, rev_involutive.
    f_equal. rewrite <- (app_nil_r t) at 1.
    apply piece_item_padded; auto. rewrite forallb_rev. exact Hcur.
  - apply Forall_cons_1 in H as [[Hp Hs] H2].
    change (join (py " | ") (t :: t2 :: ts))
      with (t ++ SPACE :: PIPE :: SPACE :: join (py " | ") (t2 :: ts)).
    rewrite (split_char_go_app PIPE t _ cur Hp).
    cbn [split_char_go].
    change (SPACE =? PIPE) with false. change (PIPE =? PIPE) with true.
    cbn iota. change (SPACE =? PIPE) with false. cbn iota.
    cbn [map]. f_equal.
    + cbn [rev]. rewrite rev_app_distr, rev_involutive, <- app_assoc.
      apply piece_item_padded; auto. rewrite forallb_rev. exact Hcur.
    + apply (IH t2 [SPACE] H2). reflexivity.
Qed.

(** ** The text of an integer *)

Lemma int_digits_acc (d : Decimal.uint) (acc : positive) :
  int_digits (Z.pos acc) true (uint_digits d)
  = Some (Z.pos (Pos.of_uint_acc d acc)).
Proof.
  revert acc. induction d; intros acc; cbn [uint_digits int_digits Pos.of_uint_acc];
    [reflexivity|..];
    (change (isdigit _) with true; cbn iota;
     match goal with
     | |- int_digits ?a true _ = Some (Z.pos (Pos.of_uint_acc _ ?b)) =>
         replace a with (Z.pos b) by (unfold digit_val; simpl; lia)
     end; apply IHd).
Qed.

Lemma int_digits_uint (d : Decimal.uint) (b : bool) :
  d <> Decimal.Nil \/ b = true ->
  int_digits 0 b (uint_digits d) = Some (Z.of_N (Pos.of_uint d)).
Proof.
  revert b. induction d; intros b H; cbn [uint_digits int_digits Pos.of_uint].
  - destruct H as [H| ->]; [contradiction|reflexivity].
  - change (isdigit 48) with true. cbn iota.
    change (10 * 0 + digit_val 48)%Z with 0%Z. apply IHd. right. reflexivity.
  - change (isdigit 49) with true. cbn iota. apply (int_digits_acc d 1).
  - change (isdigit 50) with true. cbn iota. apply (int_digits_acc d 2).
  - change (isdigit 51) with true. cbn iota. apply (int_digits_acc d 3).
  - change (isdigit 52) with true. cbn iota. apply (int_digits_acc d 4).
  - change (isdigit 53) with true. cbn iota. apply (int_digits_acc d 5).
  - change (isdigit 54) with true. cbn iota. apply (int_digits_acc d 6).
  - change (isdigit 55) with true. cbn iota. apply (int_digits_acc d 7).
  - change (isdigit 56) with true. cbn iota. apply (int_digits_acc d 8).
  - change (isdigit 57) with true. cbn iota. apply (int_digits_acc d 9).
Qed.

Lemma uint_digits_digits (d : Decimal.uint) :
  forallb isdigit (uint_digits d) = true.
Proof. induction d; cbn [uint_digits forallb]; auto. Qed.

Lemma uint_digits_nonnil (d : Decimal.uint) :
  d <> Decimal.Nil -> uint_digits d <> [].
Proof. destruct d; cbn [uint_digits]; intros H; congruence. Qed.

Lemma to_int_nonnil (z : Z) :
  match Z.to_int z with
  | Decimal.Pos d | Decimal.Neg d => d <> Decimal.Nil
  end.
Proof.
  destruct z; cbn [Z.to_int]; try discriminate;
    apply Unsigned.to_uint_nonnil.
Qed.

Lemma str_of_Z_chars (z : Z) : forallb digit_or_sign (str_of_Z z) = true.
Proof.
  assert (D : forall d, forallb digit_or_sign (uint_digits d) = true).
  { intros d. pose proof (uint_digits_digits d) as H.
    rewrite forallb_forall in *. intros c Hc. unfold digit_or_sign.
    rewrite (H c Hc). reflexivity. }
  unfold str_of_Z. destruct (Z.to_int z) as [d|d]; [apply D|].
  cbn [forallb]. rewrite D. reflexivity.
Qed.

Lemma no_space_strip (t : pystr) :
  forallb (fun c => negb (isspace c)) t = true -> strip t = t.
Proof.
  intros H. unfold strip. rewrite rstrip_is_rec.
  assert (L : lstrip t = t).
  { destruct t as [|c t']; auto. cbn [forallb] in H.
    apply andb_true_iff in H as [Hc _]. apply negb_true_iff in Hc.
    apply lstrip_nonspace_head. exact Hc. }
  rewrite L. clear L. induction t as [|c t IH]; auto.
  cbn [forallb] in H. apply andb_true_iff in H as [Hc Ht].
  apply negb_true_iff in Hc. cbn [rstrip_rec]. rewrite Hc. cbn [andb].
  rewrite (IH Ht). reflexivity.
Qed.

(** The decimal digits, script by script. *)
Lemma isdigit_decimal (c : N) :
  isdigit c = true ->
  exists z, In z DECIMAL_ZEROS /\ z <= c /\ c < z + 10 /\ decimal c = Some (c - z).
Proof.
  unfold isdigit, decimal.
  destruct (List.find (fun z => (z <=? c) && (c <? z + 10)) DECIMAL_ZEROS)
    as [z|] eqn:F; [|discriminate].
  intros _. apply find_some in F as [Hin H].
  apply andb_true_iff in H as [H1 H2].
  apply N.leb_le in H1. apply N.ltb_lt in H2. exists z. auto.
Qed.

(** What holds of the ten digits of every script holds of every digit. *)
Lemma isdigit_forall (p : N -> bool) :
  forallb (fun z => forallb (fun k => p (z + k)) [0; 1; 2; 3; 4; 5; 6; 7; 8; 9])
    DECIMAL_ZEROS = true ->
  forall c, isdigit c = true -> p c = true.
Proof.
  intros H c Hc. destruct (isdigit_decimal c Hc) as (z & Hin & H1 & H2 & _).
  rewrite forallb_forall in H. specialize (H z Hin).
  rewrite forallb_forall in H.
  replace c with (z + (c - z)) by lia. apply H.
  assert (K : c - z < 10) by lia.
  destruct (c - z) as [|k]; [left; reflexivity|].
  do 4 (destruct k as [k|k|]; try lia; cbn [In]; auto 12).
Qed.

Lemma isdigit_plain (c : N) :
  isdigit c = true ->
  isspace c = false /\ c <> 43 /\ c <> 45 /\ c <> 95 /\ c <> PIPE /\ c <> 78.
Proof.
  intros H.
  pose proof (isdigit_forall
                (fun c => negb (isspace c) && negb (c =? 43) && negb (c =? 45)
                          && negb (c =? 95) && negb (c =? PIPE) && negb (c =? 78))
                ltac:(vm_compute; reflexivity) c H) as P.
  cbv beta in P.
  repeat (apply andb_true_iff in P as [P ?]).
  repeat match goal with
         | E : negb _ = true |- _ => apply negb_true_iff in E
         end.
  repeat split; try assumption; apply N.eqb_neq; assumption.
Qed.

Lemma digit_val_range (c : N) : isdigit c = true -> (0 <= digit_val c <= 9)%Z.
Proof.
  intros H. destruct (isdigit_decimal c H) as (z & _ & H1 & H2 & E).
  unfold digit_val. rewrite E. lia.
Qed.

Lemma digit_or_sign_plain (c : N) :
  digit_or_sign c = true ->
  isspace c = false /\ (PIPE =? c) = false /\ c <> 78.
Proof.
  unfold digit_or_sign. intros H. apply orb_true_iff in H as [H|H].
  - destruct (isdigit_plain c H) as (S & _ & _ & _ & P & N7).
    repeat split; auto. apply N.eqb_neq. congruence.
  - apply N.eqb_eq in H. subst c. repeat split; (reflexivity || discriminate).
Qed.

Lemma str_of_Z_text_ok (z : Z) : text_ok (str_of_Z z) /\ str_of_Z z <> NA_REPR.
Proof.
  pose proof (str_of_Z_chars z) as H.
  rewrite forallb_forall in H.
  split; [split|].
  - unfold contains. apply not_true_iff_false. intros E.
    apply existsb_exists in E as (c & Hc & E).
    destruct (digit_or_sign_plain c (H c Hc)) as (_ & P & _). congruence.
  - apply no_space_strip. apply forallb_forall. intros c Hc.
    destruct (digit_or_sign_plain c (H c Hc)) as (S & _ & _).
    rewrite S. reflexivity.
  - intros E. assert (Hin : In 78 (str_of_Z z)) by (rewrite E; left; reflexivity).
    destruct (digit_or_sign_plain 78 (H 78 Hin)) as (_ & _ & N). congruence.
Qed.

(** [int()] strips nothing from a text without whitespace. *)
Lemma no_space_int_strip (t : pystr) :
  forallb (fun c => negb (isspace c)) t = true -> int_strip t = t.
Proof.
  assert (L : forall s, forallb (fun c => negb (isspace c)) s = true ->
              int_lstrip s = s).
  { intros [|c s] H; [reflexivity|]. cbn [forallb] in H.
    apply andb_true_iff in H as [Hc _]. apply negb_true_iff in Hc.
    cbn [int_lstrip]. unfold int_space. rewrite Hc. reflexivity. }
  intros H. unfold int_strip. rewrite (L t H).
  rewrite (L (rev t)) by (rewrite forallb_rev; exact H).
  apply rev_involutive.
Qed.

Lemma count_digits_all (t : pystr) :
  forallb isdigit t = true -> count_digits t = N.of_nat (List.length t).
Proof.
  unfold count_digits. intros H. f_equal. f_equal.
  induction t as [|c t IH]; [reflexivity|].
  cbn [forallb] in H. apply andb_true_iff in H as [Hc Ht].
  cbn [List.filter]. rewrite Hc, (IH Ht). reflexivity.
Qed.

(** [int()] on digits alone. *)
Lemma py_int_digits (t : pystr) :
  t <> [] -> forallb isdigit t = true ->
  N.of_nat (List.length t) <= INT_MAX_STR_DIGITS ->
  py_int t = int_digits 0 false t.
Proof.
  intros Ht Hd Hl. unfold py_int.
  assert (S : int_strip t = t).
  { apply no_space_int_strip. apply forallb_forall. intros c Hc.
    rewrite forallb_forall in Hd.
    destruct (isdigit_plain c (Hd c Hc)) as (E & _). rewrite E. reflexivity. }
  rewrite S. cbv zeta.
  destruct t as [|c t]; [contradiction|].
  pose proof Hd as Hd'. cbn [forallb] in Hd'.
  apply andb_true_iff in Hd' as [Hc _].
  destruct (isdigit_plain c Hc) as (_ & N1 & N2 & _).
  assert (E : match c :: t with 43 :: r | 45 :: r => r | _ => c :: t end = c :: t).
  { destruct c as [|q]; [reflexivity|].
    do 6 (destruct q as [q|q|]; try reflexivity); congruence. }
  rewrite E, (count_digits_all _ Hd).
  apply N.leb_le in Hl. rewrite Hl.
  destruct c as [|q]; [reflexivity|].
  do 6 (destruct q as [q|q|]; try reflexivity); congruence.
Qed.

(** [int(str(z)) == z], within the limit on the digits. *)
Lemma py_int_str_of_Z (z : Z) : int_in_limit z -> py_int (str_of_Z z) = Some z.
Proof.
  unfold int_in_limit. intros L.
  pose proof (DecimalZ.of_to z) as E.
  pose proof (to_int_nonnil z) as NN.
  unfold str_of_Z in *. destruct (Z.to_int z) as [d|d]; cbn [Z.of_int] in E.
  - rewrite py_int_digits.
    + rewrite (int_digits_uint d false (or_introl NN)), <- E. reflexivity.
    + apply uint_digits_nonnil. exact NN.
    + apply uint_digits_digits.
    + rewrite <- (count_digits_all _ (uint_digits_digits d)). exact L.
  - unfold py_int.
    assert (S : int_strip (HYPHEN :: uint_digits d) = HYPHEN :: uint_digits d).
    { apply no_space_int_strip. cbn [forallb].
      change (negb (isspace HYPHEN)) with true. cbn [andb].
      apply forallb_forall. intros c Hc.
      pose proof (uint_digits_digits d) as D. rewrite forallb_forall in D.
      destruct (isdigit_plain c (D c Hc)) as (X & _). rewrite X. reflexivity. }
    rewrite S. unfold HYPHEN in *. cbv zeta iota.
    assert (C : count_digits (45 :: uint_digits d) = count_digits (uint_digits d))
      by reflexivity.
    rewrite C in L. apply N.leb_le in L. rewrite L.
    rewrite (int_digits_uint d false (or_introl NN)).
    cbn [option_map]. rewrite <- E. reflexivity.
Qed.

Lemma split_char_go_nonnil (sep : N) (cur t : pystr) :
  split_char_go sep cur t <> [].
Proof.
  revert cur. induction t as [|c t IH]; intros cur; cbn [split_char_go].
  - discriminate.
  - destruct (c =? sep); [discriminate|apply IH].
Qed.



Lemma split_char_go_pieces (sep : N) (cur t : pystr) :
  contains sep cur = false ->
  Forall (fun p => contains sep p = false) (split_char_go sep cur t).
Proof.
  assert (R : forall l, contains sep l = false -> contains sep (rev l) = false).
  { unfold contains. intros l H. apply not_true_iff_false. intros E.
    apply existsb_exists in E as (x & Hx & E). apply in_rev in Hx.
    assert (existsb (N.eqb sep) l = true) by (apply existsb_exists; eauto).
    congruence. }
  revert cur. induction t as [|c t IH]; intros cur H; cbn [split_char_go].
  - constructor; auto.
  - destruct (c =? sep) eqn:E.
    + constructor; auto.
    + apply IH. unfold contains in *. cbn [existsb].
      rewrite N.eqb_sym, E, H. reflexivity.
Qed.

Lemma item_text_ok (x : item) :
  plain_item x ->
  text_ok (item_text x) /\ piece_item (item_text x) = decoded_item x.
Proof.
  destruct x as [s|z|]; cbn [plain_item item_text decoded_item].
  - intros [[Hp Hs] Hn]. split; [split; auto|].
    unfold piece_item. rewrite Hs. rewrite bool_decide_eq_false_2; auto.
  - intros _. destruct (str_of_Z_text_ok z) as [[Hp Hs] Hn].
    split; [split; auto|].
    unfold piece_item. rewrite Hs. rewrite bool_decide_eq_false_2; auto.
  - intros _. split; [split|]; reflexivity.
Qed.

(** Encoding a list that is not empty and decoding the text gives the list
    back, its integers as their digits. *)
Lemma codec_round_trip (l : list item) :
  l <> [] -> Forall plain_item l ->
  list_to_pipe_string (VList l)
  = Ok (VScalar (SStr (join (py " | ") (map item_text l))))
  /\ pipe_string_to_list (SStr (join (py " | ") (map item_text l)))
     = VList (map decoded_item l).
Proof.
  intros Hne Hl. destruct l as [|x l]; [contradiction|].
  split; [reflexivity|].
  cbn [pipe_string_to_list isna]. f_equal. unfold split_char.
  cbn [map]. rewrite (decode_join (map item_text l) (item_text x) []).
  - rewrite <- !map_cons. rewrite map_map. apply map_ext_in.
    intros y Hy. rewrite Forall_forall in Hl.
    apply item_text_ok. apply Hl. apply list_elem_of_In. exact Hy.
  - rewrite <- map_cons. apply Forall_map.
    eapply Forall_impl; [exact Hl|]. intros y Hy. apply (item_text_ok y Hy).
  - reflexivity.
Qed.




(** ** The caller's DataFrame *)

Section Keeps.
Variable m0 : gmap loc frame.

Lemma keeps_ret {A} (a : A) (post : A -> Prop) : post a -> keeps m0 (ret a) post.
Proof. intros H w Hw. split; auto. Qed.

Lemma keeps_raise {A} (e : exn) (post : A -> Prop) : keeps m0 (raise e) post.
Proof. intros w Hw. split; simpl; auto. Qed.

Lemma keeps_bind {A B} (c : M A) (k : A -> M B)
  (mid : A -> Prop) (post : B -> Prop) :
  keeps m0 c mid -> (forall a, mid a -> keeps m0 (k a) post) ->
  keeps m0 (bind c k) post.
Proof.
  intros Hc Hk w Hw. unfold bind.
  destruct (Hc w Hw) as [H1 H2].
  destruct (c w) as [[a|e] w1]; simpl in *.
  - apply (Hk a H2 w1 H1).
  - split; auto.
Qed.

Lemma keeps_deref (l : loc) : keeps m0 (deref l) (fun _ => True).
Proof.
  intros w Hw. unfold deref. destruct (frames w !! l); simpl; auto.
Qed.

(** A new object is none of the frames there were. *)
Lemma keeps_alloc (df : frame) : keeps m0 (alloc df) (fun l => m0 !! l = None).
Proof.
  intros w Hw. unfold alloc. simpl.
  assert (F : frames w !! fresh (dom (frames w)) = None).
  { apply not_elem_of_dom. apply is_fresh. }
  assert (N : m0 !! fresh (dom (frames w)) = None).
  { destruct (m0 !! fresh (dom (frames w))) as [d|] eqn:E; auto.
    rewrite map_subseteq_spec in Hw. rewrite (Hw _ _ E) in F. discriminate. }
  split; auto. apply insert_subseteq_r; auto.
Qed.

(** A statement in place on an object that is none of them. *)
Lemma keeps_update (l : loc) (step : frame -> result frame) :
  m0 !! l = None -> keeps m0 (update l step) (fun _ => True).
Proof.
  intros N w Hw. unfold update.
  destruct (frames w !! l) as [df|]; simpl; auto.
  destruct (step df) as [df'|e]; simpl; auto.
  split; auto. apply insert_subseteq_r; auto.
Qed.

Lemma keeps_updates (l : loc) (steps : list (frame -> result frame)) :
  m0 !! l = None -> keeps m0 (updates l steps) (fun _ => True).
Proof.
  intros N. induction steps as [|step rest IH]; cbn [updates].
  - apply keeps_ret. exact I.
  - eapply keeps_bind; [apply (keeps_update l step N)|]. intros _ _. exact IH.
Qed.

Lemma keeps_df_copy (l : loc) : keeps m0 (df_copy l) (fun l' => m0 !! l' = None).
Proof.
  unfold df_copy. eapply keeps_bind; [apply keeps_deref|].
  intros df _. apply keeps_alloc.
Qed.

Lemma keeps_write_file (path : string) (f : csv) :
  keeps m0 (write_file path f) (fun _ => True).
Proof. intros w Hw. split; simpl; auto. Qed.

Lemma keeps_read_file (path : string) : keeps m0 (read_file path) (fun _ => True).
Proof.
  intros w Hw. unfold read_file. destruct (files w !! path); simpl; auto.
Qed.

Lemma keeps_clean_presidents_df (pd : pandas) (raw_df : loc) :
  keeps m0 (clean_presidents_df pd raw_df) (fun _ => True).
Proof.
  unfold clean_presidents_df.
  eapply keeps_bind; [apply keeps_df_copy|]. intros df Hdf.
  eapply keeps_bind; [apply (keeps_updates df _ Hdf)|]. intros _ _.
  eapply keeps_bind; [apply keeps_deref|]. intros cur _.
  destruct (select_cols CLEAN_NAMES cur) as [reordered|e].
  - eapply keeps_bind; [apply keeps_alloc|]. intros df2 Hdf2.
    eapply keeps_bind; [apply (keeps_updates df2 _ Hdf2)|]. intros _ _.
    apply keeps_ret. exact I.
  - apply keeps_raise.
Qed.

Lemma keeps_save_csv (pd : pandas) (df : loc) (filename : string)
  (output : option string) :
  keeps m0 (save_csv pd df filename output) (fun _ => True).
Proof.
  unfold save_csv.
  eapply keeps_bind; [apply keeps_df_copy|]. intros df_temp Hdf.
  eapply keeps_bind; [apply (keeps_updates df_temp _ Hdf)|]. intros _ _.
  eapply keeps_bind; [apply keeps_deref|]. intros cur _.
  apply keeps_write_file.
Qed.

End Keeps.

(** C10: whatever [clean_presidents_df] and [save_csv] return or raise, the
    DataFrame they were given, as every other one that existed before the
    call, is afterwards what it was. *)
Theorem callers_frame_unchanged (pd : pandas) (w : world) (l : loc) (df : frame) :
  frames w !! l = Some df ->
  (forall raw_df : loc,
     frames (snd (clean_presidents_df pd raw_df w)) !! l = Some df)
  /\ (forall (d : loc) (filename : string) (output : option string),
        frames (snd (save_csv pd d filename output w)) !! l = Some df).
Proof.
  intros H. split.
  - intros raw_df.
    destruct (keeps_clean_presidents_df (frames w) pd raw_df w) as [S _]; [done|].
    rewrite map_subseteq_spec in S. apply S. exact H.
  - intros d filename output.
    destruct (keeps_save_csv (frames w) pd d filename output w) as [S _]; [done|].
    rewrite map_subseteq_spec in S. apply S. exact H.
Qed.

Lemma callers_frame_unchanged_witness :
  frames world_example !! 1%positive = Some raw_example
  /\ frames (snd (clean_presidents_df pandas_ref 1%positive world_example))
       !! 1%positive = Some raw_example
  /\ frames (snd (save_csv pandas_ref 1%positive "us_presidents_cleaned"
                    (Some "data"%string) world_example))
       !! 1%positive = Some raw_example.
Proof.
  assert (H : frames world_example !! 1%positive = Some raw_example)
    by reflexivity.
  split; [exact H|].
  destruct (callers_frame_unchanged pandas_ref world_example 1%positive
              raw_example H) as [H1 H2].
  split; [apply H1|apply H2].
Defined.

(** ** Columns and statements *)

Lemma lookup_assign {A} (c l : string) (v : A) (cols : list (string * A)) :
  lookup_col c (assign_col l v cols)
  = if String.eqb c l then Some v else lookup_col c cols.
Proof.
  induction cols as [|[l' v'] cols IH]; cbn [assign_col lookup_col].
  - destruct (String.eqb c l); reflexivity.
  - destruct (String.eqb_spec l l') as [E|N].
    + subst l'. cbn [lookup_col]. destruct (String.eqb c l); reflexivity.
    + cbn [lookup_col]. rewrite IH.
      destruct (String.eqb_spec c l') as [E'|N']; auto.
      subst l'. destruct (String.eqb_spec c l); congruence.
Qed.

Lemma apply_cells_pure {A B} (f : A -> result B) (g : A -> B) (l : list A) :
  (forall x, f x = Ok (g x)) -> apply_cells f l = Ok (map g l).
Proof.
  intros H. induction l as [|x l IH]; cbn [apply_cells map]; auto.
  rewrite H, IH. reflexivity.
Qed.

Lemma to_datetime_coerce (pd : pandas) (x : value) :
  to_datetime pd ErrorsCoerce x = Ok (coerce_cell pd x).
Proof.
  destruct x as [s|l]; cbn [to_datetime coerce_cell]; auto.
  destruct (isna s); auto. destruct (parse_datetime pd s); auto.
Qed.

Lemma run_steps_cons (step : frame -> result frame)
  (rest : list (frame -> result frame)) (df : frame) :
  run_steps (step :: rest) df = rbind (step df) (run_steps rest).
Proof.
  unfold run_steps. cbn [fold_left rbind].
  destruct (step df) as [df'|e]; cbn [rbind]; [reflexivity|].
  induction rest as [|s rest IH]; cbn [fold_left rbind]; auto.
Qed.

Lemma run_steps_app (s1 s2 : list (frame -> result frame)) (df : frame) :
  run_steps (s1 ++ s2) df = rbind (run_steps s1 df) (run_steps s2).
Proof.
  revert df. induction s1 as [|s s1 IH]; intros df.
  - reflexivity.
  - cbn [app]. rewrite !run_steps_cons.
    destruct (s df) as [df'|e]; cbn [rbind]; auto.
Qed.

(** The statements of the object and the frame they leave at it. *)
Lemma updates_run (l : loc) (steps : list (frame -> result frame))
  (w : world) (df : frame) :
  frames w !! l = Some df ->
  match run_steps steps df with
  | Ok df' =>
      updates l steps w = (Ok tt, mkWorld (<[l := df']> (frames w)) (files w))
  | Raise e => exists w', updates l steps w = (Raise e, w') /\ files w' = files w
  end.
Proof.
  revert w df. induction steps as [|step rest IH]; intros w df H.
  - cbn [updates]. unfold run_steps, ret. cbn [fold_left].
    rewrite insert_id by exact H. destruct w; reflexivity.
  - rewrite run_steps_cons. cbn [updates]. unfold bind, update. rewrite H.
    destruct (step df) as [df1|e]; cbn [rbind].
    + specialize (IH (mkWorld (<[l := df1]> (frames w)) (files w)) df1).
      cbn [frames files] in IH. rewrite lookup_insert_eq in IH.
      specialize (IH eq_refl).
      destruct (run_steps rest df1) as [df'|e].
      * rewrite IH. rewrite insert_insert_eq. reflexivity.
      * exact IH.
    + exists w. auto.
Qed.

(** ** The stateful functions and their values *)

(** [clean_presidents_df] returns a new object holding [clean_frame] of the
    frame it was given, and raises what [clean_frame] raises. *)
Lemma clean_presidents_df_value (pd : pandas) (w : world) (r : loc) (raw : frame) :
  frames w !! r = Some raw ->
  match clean_frame pd raw with
  | Ok T =>
      exists l w', clean_presidents_df pd r w = (Ok l, w')
                   /\ frames w' !! l = Some T /\ files w' = files w
  | Raise e =>
      exists w', clean_presidents_df pd r w = (Raise e, w') /\ files w' = files w
  end.
Proof.
  intros H. unfold clean_frame, clean_presidents_df, df_copy, bind, deref, alloc.
  rewrite H. cbn [frames files].
  set (l1 := fresh (dom (frames w))).
  set (w1 := mkWorld (<[l1 := raw]> (frames w)) (files w)).
  pose proof (updates_run l1 clean_in_place w1 raw) as U.
  cbn [frames files w1] in U. rewrite lookup_insert_eq in U.
  specialize (U eq_refl).
  destruct (run_steps clean_in_place raw) as [df1|e]; cbn [rbind].
  - rewrite U. subst w1. cbn [frames files]. rewrite lookup_insert_eq.
    destruct (select_cols CLEAN_NAMES df1) as [reordered|e];
      cbn [rbind frames files].
    + set (m2 := <[l1 := df1]> (<[l1 := raw]> (frames w))).
      set (l2 := fresh (dom m2)).
      set (w2 := mkWorld (<[l2 := reordered]> m2) (files w)).
      pose proof (updates_run l2 (set_types pd) w2 reordered) as U2.
      cbn [frames files w2] in U2. rewrite lookup_insert_eq in U2.
      specialize (U2 eq_refl).
      destruct (run_steps (set_types pd) reordered) as [T|e].
      * rewrite U2. unfold ret. eexists _, _. split; [reflexivity|].
        cbn [frames files]. rewrite lookup_insert_eq. auto.
      * destruct U2 as (w' & U2 & F). rewrite U2. eexists. split; [reflexivity|].
        exact F.
    + unfold raise. eexists. split; [reflexivity|]. reflexivity.
  - destruct U as (w' & U & F). rewrite U. eexists. split; [reflexivity|].
    exact F.
Qed.

(** [save_csv] writes [save_frame] of the frame at the path it builds. *)
Lemma save_csv_value (pd : pandas) (w : world) (r : loc) (T : frame)
  (filename : string) (output : option string) :
  frames w !! r = Some T ->
  match save_frame pd T with
  | Ok f =>
      exists w', save_csv pd r filename output w = (Ok tt, w')
                 /\ files w' = <[build_path filename output := f]> (files w)
  | Raise e =>
      exists w', save_csv pd r filename output w = (Raise e, w')
                 /\ files w' = files w
  end.
Proof.
  intros H. unfold save_frame, save_csv, df_copy, bind, deref, alloc.
  rewrite H. cbn [frames files].
  set (l1 := fresh (dom (frames w))).
  set (w1 := mkWorld (<[l1 := T]> (frames w)) (files w)).
  pose proof (updates_run l1 prepare_frame w1 T) as U.
  cbn [frames files w1] in U. rewrite lookup_insert_eq in U.
  specialize (U eq_refl).
  destruct (run_steps prepare_frame T) as [df1|e]; cbn [rbind].
  - rewrite U. subst w1. cbn [frames files]. rewrite lookup_insert_eq.
    unfold write_file. cbn [frames files]. eexists. split; reflexivity.
  - destruct U as (w' & U & F). rewrite U. eexists. split; [reflexivity|].
    exact F.
Qed.

(** [load_csv] returns a new object holding [load_frame] of the file. *)
Lemma load_csv_value (pd : pandas) (w : world) (path : string) (f : csv) :
  files w !! path = Some f ->
  match load_frame pd f with
  | Ok T =>
      exists l w', load_csv pd path w = (Ok l, w') /\ frames w' !! l = Some T
  | Raise e => exists w', load_csv pd path w = (Raise e, w')
  end.
Proof.
  intros H. unfold load_frame, load_csv, bind, read_file, alloc.
  rewrite H. cbn [frames files].
  set (l1 := fresh (dom (frames w))).
  set (w1 := mkWorld (<[l1 := read_csv pd f]> (frames w)) (files w)).
  pose proof (updates_run l1 (restore_frame pd) w1 (read_csv pd f)) as U.
  cbn [frames files w1] in U. rewrite lookup_insert_eq in U.
  specialize (U eq_refl).
  destruct (run_steps (restore_frame pd) (read_csv pd f)) as [T|e].
  - rewrite U. unfold ret. eexists _, _. split; [reflexivity|].
    cbn [frames]. rewrite lookup_insert_eq. reflexivity.
  - destruct U as (w' & U & F). rewrite U. eexists. reflexivity.
Qed.

(** ** Dates that cannot be read *)

Lemma same_outside_dates_refl (df : frame) : same_outside_dates df df.
Proof.
  split; [reflexivity|]. intros c. split; [reflexivity|right; reflexivity].
Qed.





Lemma same_outcome_refl (r : result frame) : same_outcome r r.
Proof. destruct r; cbn [same_outcome]; auto using same_outside_dates_refl. Qed.





Lemma try_apply_col_ok (l : string) (f : value -> result value) (a b : frame) :
  try_apply_col l f a = Ok b ->
  exists c c', lookup_col l (columns a) = Some c
               /\ apply_cells f c = Ok c' /\ b = set_col l c' a.
Proof.
  unfold try_apply_col, get_col.
  destruct (lookup_col l (columns a)) as [c|]; cbn [rbind]; [|discriminate].
  destruct (apply_cells f c) as [c'|e] eqn:E; cbn [rbind]; [|discriminate].
  intros H. injection H as <-. exists c, c'. auto.
Qed.




Lemma lookup_read_csv (pd : pandas) (l : string) (f : csv) :
  lookup_col l (columns (read_csv pd f))
  = option_map (read_column pd) (lookup_col l (csv_columns f)).
Proof.
  unfold read_csv. cbn [columns].
  induction (csv_columns f) as [|[l' c] cols IH]; cbn [map lookup_col fst snd]; auto.
  destruct (String.eqb l l'); auto.
Qed.





(** ** Frames given column by column *)

Lemma apply_cells_map {R} (f : value -> result value) (g h : R -> value)
  (rows : list R) :
  (forall r, In r rows -> f (g r) = Ok (h r)) ->
  apply_cells f (map g rows) = Ok (map h rows).
Proof.
  induction rows as [|r rows IH]; intros H; cbn [map apply_cells]; auto.
  rewrite (H r) by (left; reflexivity).
  rewrite IH by (intros r' Hr'; apply H; right; exact Hr').
  reflexivity.
Qed.

Lemma lookup_spec {R} (l : string) (spec : list (string * (R -> value)))
  (rows : list R) :
  lookup_col l (map (fun lg => (fst lg, map (snd lg) rows)) spec)
  = option_map (fun g => map g rows) (lookup_col l spec).
Proof.
  induction spec as [|[l' g] spec IH]; cbn [map lookup_col fst snd]; auto.
  destruct (String.eqb l l'); auto.
Qed.

Lemma assign_spec {R} (l : string) (h : R -> value)
  (spec : list (string * (R -> value))) (rows : list R) :
  assign_col l (map h rows) (map (fun lg => (fst lg, map (snd lg) rows)) spec)
  = map (fun lg => (fst lg, map (snd lg) rows)) (assign_col l h spec).
Proof.
  induction spec as [|[l' g] spec IH]; cbn [map assign_col fst snd]; auto.
  destruct (String.eqb l l'); cbn [map fst snd]; auto.
  rewrite IH. reflexivity.
Qed.

(** A statement on one column of such a frame. *)
Lemma try_apply_col_spec {R} (l : string) (f : value -> result value)
  (g h : R -> value) (idx : R -> value)
  (spec : list (string * (R -> value))) (rows : list R) :
  lookup_col l spec = Some g ->
  (forall r, In r rows -> f (g r) = Ok (h r)) ->
  try_apply_col l f (frame_of idx spec rows)
  = Ok (frame_of idx (assign_col l h spec) rows).
Proof.
  intros Hl Hf. unfold try_apply_col, get_col, frame_of. cbn [columns].
  rewrite lookup_spec, Hl. cbn [option_map rbind].
  rewrite (apply_cells_map f g h rows Hf). cbn [rbind].
  unfold set_col. cbn [index columns]. rewrite assign_spec. reflexivity.
Qed.

(** ** Saving a typed table *)

Lemma frame_of_rows_spec (rows : list row) :
  frame_of_rows rows = frame_of row_index ROW_SPEC rows.
Proof. reflexivity. Qed.

Lemma date_to_text_cell (o : option date) :
  date_to_text (date_cell o) = Ok (saved_date o).
Proof. destruct o; reflexivity. Qed.

Lemma list_to_pipe_string_items (l : list item) :
  list_to_pipe_string (VList l) = Ok (saved_list l).
Proof. destruct l; reflexivity. Qed.

Ltac compute_columns :=
  cbv [assign_col ROW_SPEC String.eqb Ascii.eqb Bool.eqb];
  cbn [map fst snd].

(** [save_csv] writes [csv_of_rows]. *)
Lemma save_rows (pd : pandas) (rows : list row) :
  save_frame pd (frame_of_rows rows) = Ok (csv_of_rows rows).
Proof.
  rewrite frame_of_rows_spec.
  unfold save_frame, prepare_frame, apply_cols.
  cbn [map app DATETIME_COLS LIST_COLS].
  rewrite run_steps_cons.
  rewrite (try_apply_col_spec "term_start" date_to_text
             (fun r => date_cell (r_term_start r))
             (fun r => saved_date (r_term_start r)));
    [|reflexivity|intros r _; apply date_to_text_cell].
  cbn [rbind]. rewrite run_steps_cons.
  rewrite (try_apply_col_spec "term_end" date_to_text
             (fun r => date_cell (r_term_end r))
             (fun r => saved_date (r_term_end r)));
    [|reflexivity|intros r _; apply date_to_text_cell].
  cbn [rbind]. rewrite run_steps_cons.
  rewrite (try_apply_col_spec "party" list_to_pipe_string
             (fun r => VList (str_items (r_party r)))
             (fun r => saved_list (str_items (r_party r))));
    [|reflexivity|intros r _; apply list_to_pipe_string_items].
  cbn [rbind]. rewrite run_steps_cons.
  rewrite (try_apply_col_spec "election" list_to_pipe_string
             (fun r => VList (int_items (r_election r)))
             (fun r => saved_list (int_items (r_election r))));
    [|reflexivity|intros r _; apply list_to_pipe_string_items].
  cbn [rbind]. rewrite run_steps_cons.
  rewrite (try_apply_col_spec "vice_president" list_to_pipe_string
             (fun r => VList (str_items (r_vice_president r)))
             (fun r => saved_list (str_items (r_vice_president r))));
    [|reflexivity|intros r _; apply list_to_pipe_string_items].
  cbn [rbind]. unfold run_steps. cbn [fold_left rbind].
  unfold to_csv, frame_of, csv_of_rows. cbn [index columns].
  compute_columns.
  rewrite !map_map.
  rewrite (map_ext (fun x => cell_text pd (text_cell (r_name x)))
             (fun r => opt_text id (r_name r)))
    by (intros r; destruct (r_name r); reflexivity).
  rewrite (map_ext (fun x => cell_text pd (int_cell (r_birth x)))
             (fun r => opt_text str_of_Z (r_birth r)))
    by (intros r; destruct (r_birth r); reflexivity).
  rewrite (map_ext (fun x => cell_text pd (int_cell (r_death x)))
             (fun r => opt_text str_of_Z (r_death r)))
    by (intros r; destruct (r_death r); reflexivity).
  rewrite (map_ext (fun x => cell_text pd (saved_date (r_term_start x)))
             (fun r => opt_text format_date (r_term_start r)))
    by (intros r; destruct (r_term_start r); reflexivity).
  rewrite (map_ext (fun x => cell_text pd (saved_date (r_term_end x)))
             (fun r => opt_text format_date (r_term_end r)))
    by (intros r; destruct (r_term_end r); reflexivity).
  rewrite (map_ext (fun x => cell_text pd (saved_list (str_items (r_party x))))
             (fun r => list_text (str_items (r_party r))))
    by (intros r; destruct (str_items (r_party r)); reflexivity).
  rewrite (map_ext (fun x => cell_text pd (saved_list (int_items (r_election x))))
             (fun r => list_text (int_items (r_election r))))
    by (intros r; destruct (int_items (r_election r)); reflexivity).
  rewrite (map_ext (fun x => cell_text pd (saved_list (str_items (r_vice_president x))))
             (fun r => list_text (str_items (r_vice_president r))))
    by (intros r; destruct (str_items (r_vice_president r)); reflexivity).
  reflexivity.
Qed.

(** ** Reading the file of a typed table *)

Lemma read_text_column (pd : pandas) (c : list pystr) :
  reads_as_text pd c = true -> read_column pd c = map (read_text pd) c.
Proof.
  unfold reads_as_text, read_column. intros H.
  destruct (numeric_column pd c) eqn:E; cbn [negb orb] in H.
  - apply map_ext_in. intros t Ht. rewrite forallb_forall in H.
    unfold read_cell, read_text. rewrite (H t Ht). reflexivity.
  - apply map_ext. intros t. unfold read_cell, read_text.
    destruct (na_text pd t); reflexivity.
Qed.

Lemma na_text_NA (pd : pandas) : na_text pd NA_REPR = true.
Proof. reflexivity. Qed.

Lemma read_int_column (pd : pandas) (proj : row -> option Z) (rows : list row) :
  (forall r, In r rows -> opt_holds (int_read pd) (proj r)) ->
  read_column pd (map (fun r => opt_text str_of_Z (proj r)) rows)
  = map (fun r => read_int (proj r)) rows.
Proof.
  intros H. unfold read_column.
  assert (N : numeric_column pd (map (fun r => opt_text str_of_Z (proj r)) rows)
              = true).
  { unfold numeric_column. apply forallb_forall. intros t Ht.
    apply in_map_iff in Ht as (r & <- & Hr). specialize (H r Hr).
    destruct (proj r) as [z|]; cbn [opt_text opt_holds] in *.
    - destruct H as [_ H]. rewrite H. apply orb_true_iff. right.
      apply bool_decide_eq_true. eauto.
    - rewrite na_text_NA. reflexivity. }
  rewrite N. rewrite map_map. apply map_ext_in. intros r Hr.
  specialize (H r Hr). unfold read_cell.
  destruct (proj r) as [z|]; cbn [opt_text opt_holds read_int] in *.
  - destruct H as [H1 H2]. rewrite H1, H2. reflexivity.
  - rewrite na_text_NA. reflexivity.
Qed.

Lemma read_index_column (pd : pandas) (rows : list row) :
  (forall r, In r rows -> int_read pd (r_number r)) ->
  read_column pd (map (fun r => str_of_Z (r_number r)) rows)
  = map row_index rows.
Proof.
  intros H.
  exact (read_int_column pd (fun r => Some (r_number r)) rows H).
Qed.

Lemma table_ok_rows (pd : pandas) (rows : list row) :
  table_ok pd rows -> forall r, In r rows -> row_ok pd r.
Proof.
  intros [H _] r Hr. rewrite Forall_forall in H. apply H.
  apply list_elem_of_In. exact Hr.
Qed.

(** [read_csv] on the file of a typed table. *)
Lemma read_csv_rows (pd : pandas) (rows : list row) :
  table_ok pd rows ->
  read_csv pd (csv_of_rows rows) = frame_of row_index (READ_SPEC pd) rows.
Proof.
  intros H. pose proof (table_ok_rows pd rows H) as Hr.
  destruct H as [_ Ht]. rewrite Forall_forall in Ht.
  assert (T : forall l c, In l TEXT_COLS ->
              column_texts l (csv_of_rows rows) = c ->
              read_column pd c = map (read_text pd) c).
  { intros l c Hl <-. apply read_text_column, Ht, list_elem_of_In, Hl. }
  unfold read_csv, frame_of, READ_SPEC, csv_of_rows.
  cbn [csv_index csv_columns map fst snd].
  rewrite (read_index_column pd rows) by (intros r Hin; apply (Hr r Hin)).
  rewrite (read_int_column pd r_birth rows) by (intros r Hin; apply (Hr r Hin)).
  rewrite (read_int_column pd r_death rows) by (intros r Hin; apply (Hr r Hin)).
  rewrite (T "name"%string
             (map (fun r => opt_text id (r_name r)) rows)
             ltac:(cbn; tauto) eq_refl).
  rewrite (T "term_start"%string
             (map (fun r => opt_text format_date (r_term_start r)) rows)
             ltac:(cbn; tauto) eq_refl).
  rewrite (T "term_end"%string
             (map (fun r => opt_text format_date (r_term_end r)) rows)
             ltac:(cbn; tauto) eq_refl).
  rewrite (T "party"%string
             (map (fun r => list_text (str_items (r_party r))) rows)
             ltac:(cbn; tauto) eq_refl).
  rewrite (T "election"%string
             (map (fun r => list_text (int_items (r_election r))) rows)
             ltac:(cbn; tauto) eq_refl).
  rewrite (T "vice_president"%string
             (map (fun r => list_text (str_items (r_vice_president r))) rows)
             ltac:(cbn; tauto) eq_refl).
  rewrite !map_map. reflexivity.
Qed.

(** ** Restoring the cells *)

Lemma restore_date (pd : pandas) (o : option date) :
  opt_holds (date_read pd) o ->
  to_datetime pd ErrorsCoerce (read_text pd (opt_text format_date o))
  = Ok (date_cell o).
Proof.
  destruct o as [d|]; cbn [opt_holds opt_text date_cell]; unfold read_text.
  - intros [H1 H2]. rewrite H1. cbn [to_datetime isna]. rewrite H2. reflexivity.
  - intros _. rewrite na_text_NA. reflexivity.
Qed.

Lemma restore_name (pd : pandas) (o : option pystr) :
  opt_holds (text_read pd) o ->
  astype_string pd (read_text pd (opt_text id o)) = Ok (text_cell o).
Proof.
  destruct o as [s|]; cbn [opt_holds opt_text text_cell]; unfold read_text, text_read.
  - intros H. unfold id. rewrite H. reflexivity.
  - intros _. rewrite na_text_NA. reflexivity.
Qed.

Lemma restore_int (o : option Z) : astype_Int64 (read_int o) = Ok (int_cell o).
Proof. destruct o; reflexivity. Qed.

Lemma restore_items (pd : pandas) (l : list item) :
  list_read pd l ->
  restore_list (read_text pd (list_text l))
  = Ok (VList (map decoded_item (reloaded_items l))).
Proof.
  unfold read_text. intros [->|[->|[Hp Hn]]].
  - cbn [list_text]. rewrite na_text_NA. reflexivity.
  - change (list_text [INA]) with NA_REPR. rewrite na_text_NA. reflexivity.
  - rewrite Hn. destruct l as [|x l].
    + cbn [list_text] in Hn. rewrite na_text_NA in Hn. discriminate.
    + cbn [restore_list]. f_equal.
      change (list_text (x :: l)) with (join (py " | ") (map item_text (x :: l))).
      apply codec_round_trip; [discriminate|exact Hp].
Qed.

Lemma decoded_str_items (l : list (option pystr)) :
  map decoded_item (reloaded_items (str_items l)) = str_items (reloaded_list l).
Proof.
  assert (D : forall l', map decoded_item (str_items l') = str_items l').
  { unfold str_items. induction l' as [|[s|] l' IH];
      cbn [map decoded_item]; f_equal; auto. }
  destruct l as [|o l]; [reflexivity|]. apply D.
Qed.

Lemma restore_int_items (l : list (option Z)) :
  Forall (opt_holds int_in_limit) l ->
  restore_ints (VList (map decoded_item (reloaded_items (int_items l))))
  = Ok (VList (int_items (reloaded_list l))).
Proof.
  assert (D : forall l', Forall (opt_holds int_in_limit) l' ->
                apply_cells int_item (map decoded_item (int_items l'))
                = Ok (int_items l')).
  { unfold int_items. induction l' as [|[z|] l' IH]; intros H;
      cbn [map decoded_item apply_cells int_item]; auto;
      apply Forall_cons_1 in H as [Hz H].
    - rewrite (py_int_str_of_Z z Hz). cbn [rbind]. rewrite (IH H). reflexivity.
    - cbn [rbind]. rewrite (IH H). reflexivity. }
  intros H. cbn [restore_ints]. destruct l as [|o l]; [reflexivity|].
  change (reloaded_items (int_items (o :: l))) with (int_items (o :: l)).
  rewrite (D _ H). reflexivity.
Qed.

Ltac compute_read_columns :=
  cbv [assign_col READ_SPEC String.eqb Ascii.eqb Bool.eqb];
  cbn [map fst snd].

(** [load_csv] on the file of a typed table gives the table back, its
    empty lists as one null. *)
Lemma load_rows (pd : pandas) (rows : list row) :
  table_ok pd rows ->
  load_frame pd (csv_of_rows rows) = Ok (frame_of_rows (map reloaded rows)).
Proof.
  intros H. pose proof (table_ok_rows pd rows H) as Hr.
  unfold load_frame. rewrite (read_csv_rows pd rows H).
  unfold restore_frame, apply_cols.
  cbn [map app DATETIME_COLS LIST_COLS NULLABLE_INT_COLS].
  rewrite run_steps_cons.
  rewrite (try_apply_col_spec "term_start" (to_datetime pd ErrorsCoerce)
             (fun r => read_text pd (opt_text format_date (r_term_start r)))
             (fun r => date_cell (r_term_start r)));
    [|reflexivity|intros r Hin; apply restore_date, (Hr r Hin)].
  cbn [rbind]. rewrite run_steps_cons.
  rewrite (try_apply_col_spec "term_end" (to_datetime pd ErrorsCoerce)
             (fun r => read_text pd (opt_text format_date (r_term_end r)))
             (fun r => date_cell (r_term_end r)));
    [|reflexivity|intros r Hin; apply restore_date, (Hr r Hin)].
  cbn [rbind]. rewrite run_steps_cons.
  rewrite (try_apply_col_spec "party" restore_list
             (fun r => read_text pd (list_text (str_items (r_party r))))
             (fun r => VList (map decoded_item
                                (reloaded_items (str_items (r_party r))))));
    [|reflexivity|intros r Hin; apply restore_items, (Hr r Hin)].
  cbn [rbind]. rewrite run_steps_cons.
  rewrite (try_apply_col_spec "election" restore_list
             (fun r => read_text pd (list_text (int_items (r_election r))))
             (fun r => VList (map decoded_item
                                (reloaded_items (int_items (r_election r))))));
    [|reflexivity|intros r Hin; apply restore_items, (Hr r Hin)].
  cbn [rbind]. rewrite run_steps_cons.
  rewrite (try_apply_col_spec "vice_president" restore_list
             (fun r => read_text pd (list_text (str_items (r_vice_president r))))
             (fun r => VList (map decoded_item
                                (reloaded_items (str_items (r_vice_president r))))));
    [|reflexivity|intros r Hin; apply restore_items, (Hr r Hin)].
  cbn [rbind]. rewrite run_steps_cons.
  rewrite (try_apply_col_spec "birth" astype_Int64
             (fun r => read_int (r_birth r)) (fun r => int_cell (r_birth r)));
    [|reflexivity|intros r _; apply restore_int].
  cbn [rbind]. rewrite run_steps_cons.
  rewrite (try_apply_col_spec "death" astype_Int64
             (fun r => read_int (r_death r)) (fun r => int_cell (r_death r)));
    [|reflexivity|intros r _; apply restore_int].
  cbn [rbind]. rewrite run_steps_cons.
  rewrite (try_apply_col_spec "election" restore_ints
             (fun r => VList (map decoded_item
                                (reloaded_items (int_items (r_election r)))))
             (fun r => VList (int_items (reloaded_list (r_election r)))));
    [|reflexivity|intros r Hin; apply restore_int_items, (Hr r Hin)].
  cbn [rbind]. rewrite run_steps_cons.
  rewrite (try_apply_col_spec "name" (astype_string pd)
             (fun r => read_text pd (opt_text id (r_name r)))
             (fun r => text_cell (r_name r)));
    [|reflexivity|intros r Hin; apply restore_name, (Hr r Hin)].
  cbn [rbind]. unfold run_steps. cbn [fold_left]. f_equal.
  unfold frame_of, frame_of_rows. compute_read_columns.
  rewrite !map_map.
  rewrite (map_ext (fun r => VList (map decoded_item
                                      (reloaded_items (str_items (r_party r)))))
             (fun r => VList (str_items (r_party (reloaded r)))))
    by (intros r; cbn [reloaded r_party]; rewrite decoded_str_items; reflexivity).
  rewrite (map_ext (fun r => VList (map decoded_item
                                      (reloaded_items (str_items (r_vice_president r)))))
             (fun r => VList (str_items (r_vice_president (reloaded r)))))
    by (intros r; cbn [reloaded r_vice_president]; rewrite decoded_str_items;
        reflexivity).
  reflexivity.
Qed.

(** ** The round trip *)

(** What the conditions of the round trip are for.  A string element
    ["NA"] is loaded as a null. *)
Lemma na_element_loaded_as_null :
  list_to_pipe_string (VList [IStr (py "NA")]) = Ok (VScalar (SStr (py "NA")))
  /\ read_cell pandas_ref false (py "NA") = VScalar SNaN
  /\ pipe_string_to_list SNaN = VList [INA].
Proof. repeat split; reflexivity. Qed.

(** When every election cell is one year, [read_csv] reads the column as
    numbers, [pipe_string_to_list] returns them as they are, and the lambda
    that restores the integers cannot iterate over them. *)
Lemma numeric_election_column_raises :
  rbind (save_frame pandas_ref (frame_of_rows rows_single_election))
        (load_frame pandas_ref)
  = Raise TypeError.
Proof. vm_compute. reflexivity. Qed.

(** C1, as stated, fails: a vice-president cell with a pipe character is
    cleaned to a list of one name, saved, and loaded back as a list of two,
    and none of the lists involved is empty. *)
Lemma csv_round_trip_splits_pipe :
  exists T L : frame,
    round_trip_frames pandas_ref 1%positive "us_presidents_cleaned"
      (Some "data"%string) world_pipe_example = Some (T, L)
    /\ lookup_col "vice_president" (columns T)
       = Some [VList [IStr (py "Adams|Jefferson")];
               VList [IStr (py "Kamala Harris")]]
    /\ lookup_col "vice_president" (columns L)
       = Some [VList [IStr (py "Adams"); IStr (py "Jefferson")];
               VList [IStr (py "Kamala Harris")]]
    /\ L <> reloaded_frame T.
Proof.
  eexists _, _. split; [vm_compute; reflexivity|].
  split; [vm_compute; reflexivity|]. split; [vm_compute; reflexivity|].
  intros H.
  apply (f_equal (fun f => lookup_col "vice_president" (columns f))) in H.
  vm_compute in H. discriminate H.
Qed.

Lemma reloaded_rows_frame (rows : list row) :
  frame_of_rows (map reloaded rows) = reloaded_frame (frame_of_rows rows).
Proof.
  assert (S : forall l : list (option pystr),
            VList (str_items (reloaded_list l)) = reloaded_cell (VList (str_items l))).
  { intros [|[s|] l]; reflexivity. }
  assert (I : forall l : list (option Z),
            VList (int_items (reloaded_list l)) = reloaded_cell (VList (int_items l))).
  { intros [|[z|] l]; reflexivity. }
  unfold frame_of_rows, reloaded_frame. cbn [index columns map fst snd].
  rewrite !map_map. f_equal.
  repeat (apply f_equal2; [apply f_equal; apply map_ext; intros r|]);
    try reflexivity; cbn [reloaded r_name r_birth r_death r_term_start r_term_end
                          r_party r_election r_vice_president].
  - destruct (r_name r); reflexivity.
  - destruct (r_birth r); reflexivity.
  - destruct (r_death r); reflexivity.
  - destruct (r_term_start r); reflexivity.
  - destruct (r_term_end r); reflexivity.
  - apply S.
  - apply I.
  - apply S.
Qed.

(** C1, amended: for a typed table whose integers, names and dates pandas
    reads back as written, whose lists hold nulls, integers and strings
    without a pipe or whitespace at their ends that are not ["NA"], and
    whose text columns are read as text, [load_csv] on the file [save_csv]
    writes returns the table, equal cell by cell but for each empty list,
    which comes back as a list of one null. *)
Theorem csv_round_trip (pd : pandas) (w : world) (df : loc) (rows : list row)
  (filename : string) (output : option string) :
  frames w !! df = Some (frame_of_rows rows) ->
  table_ok pd rows ->
  exists (w1 : world) (loaded : loc) (w2 : world),
    save_csv pd df filename output w = (Ok tt, w1)
    /\ load_csv pd (build_path filename output) w1 = (Ok loaded, w2)
    /\ frames w2 !! loaded = Some (reloaded_frame (frame_of_rows rows)).
Proof.
  intros Hdf Hok.
  pose proof (save_csv_value pd w df (frame_of_rows rows) filename output Hdf) as S.
  rewrite save_rows in S. destruct S as (w1 & S & F).
  assert (Hf : files w1 !! build_path filename output = Some (csv_of_rows rows)).
  { rewrite F. apply lookup_insert_eq. }
  pose proof (load_csv_value pd w1 (build_path filename output) _ Hf) as L.
  rewrite (load_rows pd rows Hok) in L. destruct L as (l & w2 & L & G).
  exists w1, l, w2. rewrite <- reloaded_rows_frame. auto.
Qed.

Ltac solve_list_read :=
  right; right; split;
  [repeat constructor; try (vm_compute; reflexivity); try discriminate
  |vm_compute; reflexivity].

Ltac solve_row_ok :=
  unfold row_ok, opt_holds, int_read, text_read, date_read;
  cbn [r_number r_name r_birth r_death r_term_start r_term_end
       r_party r_election r_vice_president];
  repeat match goal with
         | |- _ /\ _ => split
         | |- True => exact I
         | |- list_read _ _ => solve_list_read
         | |- _ = _ => vm_compute; reflexivity
         | |- Forall _ _ => constructor; cbv beta iota
         | |- int_in_limit _ => apply N.leb_le; vm_compute; reflexivity
         end.

Lemma table_ok_example : table_ok pandas_ref rows_example.
Proof.
  split.
  - unfold rows_example.
    constructor; [solve_row_ok|constructor; [solve_row_ok|constructor]].
  - unfold TEXT_COLS. repeat constructor; vm_compute; reflexivity.
Defined.

Lemma csv_round_trip_witness :
  clean_frame pandas_ref raw_example = Ok (frame_of_rows rows_example)
  /\ frames world_rows_example !! 1%positive = Some (frame_of_rows rows_example)
  /\ table_ok pandas_ref rows_example
  /\ exists (w1 : world) (loaded : loc) (w2 : world),
       save_csv pandas_ref 1%positive "us_presidents_cleaned" (Some "data"%string)
         world_rows_example = (Ok tt, w1)
       /\ load_csv pandas_ref
            (build_path "us_presidents_cleaned" (Some "data"%string)) w1
          = (Ok loaded, w2)
       /\ frames w2 !! loaded = Some (reloaded_frame (frame_of_rows rows_example)).
Proof.
  split; [vm_compute; reflexivity|].
  assert (H : frames world_rows_example !! 1%positive
              = Some (frame_of_rows rows_example)) by reflexivity.
  split; [exact H|]. split; [exact table_ok_example|].
  exact (csv_round_trip pandas_ref world_rows_example 1%positive rows_example
           "us_presidents_cleaned" (Some "data"%string) H table_ok_example).
Defined.

(** * Further properties *)

(** ** Footnotes *)

Lemma strip_idem (s : pystr) : strip (strip s) = strip s.
Proof.
  unfold strip. rewrite !rstrip_is_rec, lstrip_rstrip_rec, lstrip_idem.
  apply rstrip_rec_idem.
Qed.

Lemma closes_sub_footnotes (t : pystr) :
  closes t = false -> closes (sub_footnotes false t) = false.
Proof.
  induction t as [|c t IH]; auto.
  cbn [closes sub_footnotes].
  destruct (c =? RBRACKET) eqn:Er; [discriminate|].
  destruct (c =? NEWLINE) eqn:En.
  - intros _. destruct ((c =? LBRACKET) && closes t) eqn:E.
    + apply andb_true_iff in E as [E _].
      apply N.eqb_eq in E. apply N.eqb_eq in En. subst c. discriminate.
    + cbn [closes]. rewrite Er, En. reflexivity.
  - intros H. rewrite H, andb_false_r. cbn [closes]. rewrite Er, En. auto.
Qed.

Lemma sub_footnotes_clean (s : pystr) :
  has_footnote (sub_footnotes false s) = false
  /\ has_footnote (sub_footnotes true s) = false.
Proof.
  induction s as [|c t [IH1 IH2]]; [split; reflexivity|].
  cbn [sub_footnotes]. split.
  - destruct ((c =? LBRACKET) && closes t) eqn:E; [exact IH2|].
    cbn [has_footnote]. rewrite IH1, orb_false_r.
    destruct (c =? LBRACKET); [|reflexivity].
    cbn [andb] in *. apply closes_sub_footnotes. exact E.
  - destruct (c =? RBRACKET); assumption.
Qed.

Lemma closes_rstrip_rec (t : pystr) :
  closes t = false -> closes (rstrip_rec t) = false.
Proof.
  induction t as [|c t IH]; auto.
  cbn [closes rstrip_rec].
  destruct (isspace c && forallb isspace t); [reflexivity|].
  cbn [closes]. destruct (c =? RBRACKET); [discriminate|].
  destruct (c =? NEWLINE); auto.
Qed.

Lemma has_footnote_lstrip (s : pystr) :
  has_footnote s = false -> has_footnote (lstrip s) = false.
Proof.
  induction s as [|c t IH]; auto.
  intros H. cbn [lstrip]. destruct (isspace c); [|exact H].
  cbn [has_footnote] in H. apply orb_false_iff in H as [_ H]. auto.
Qed.

Lemma has_footnote_rstrip_rec (s : pystr) :
  has_footnote s = false -> has_footnote (rstrip_rec s) = false.
Proof.
  induction s as [|c t IH]; auto.
  cbn [has_footnote rstrip_rec]. intros H.
  apply orb_false_iff in H as [H1 H2].
  destruct (isspace c && forallb isspace t); [reflexivity|].
  cbn [has_footnote]. rewrite (IH H2), orb_false_r.
  destruct (c =? LBRACKET); [|reflexivity].
  cbn [andb] in *. apply closes_rstrip_rec. exact H1.
Qed.

Lemma sub_footnotes_none (s : pystr) :
  has_footnote s = false -> sub_footnotes false s = s.
Proof.
  induction s as [|c t IH]; auto.
  cbn [has_footnote sub_footnotes]. intros H.
  apply orb_false_iff in H as [H1 H2]. rewrite H1, (IH H2). reflexivity.
Qed.

Lemma remove_footnotes_str_clean (text : pystr) :
  has_footnote (remove_footnotes_str text) = false
  /\ strip (remove_footnotes_str text) = remove_footnotes_str text.
Proof.
  unfold remove_footnotes_str. split; [|apply strip_idem].
  unfold strip. rewrite rstrip_is_rec.
  apply has_footnote_rstrip_rec, has_footnote_lstrip, sub_footnotes_clean.
Qed.

(** X1: [remove_footnotes] leaves no footnote marker: in its result no '['
    is followed by a ']' on the same line; and the result has no
    whitespace at its ends. *)
Theorem remove_footnotes_leaves_none (text : pystr) :
  has_footnote (remove_footnotes_str text) = false
  /\ strip (remove_footnotes_str text) = remove_footnotes_str text.
Proof. apply remove_footnotes_str_clean. Qed.

(** X2: [remove_footnotes] is idempotent, and on a text without a footnote
    marker it only trims the ends. *)
Theorem remove_footnotes_idempotent :
  (forall text : pystr,
     remove_footnotes (remove_footnotes (VScalar (SStr text)))
     = remove_footnotes (VScalar (SStr text)))
  /\ (forall text : pystr,
        has_footnote text = false ->
        remove_footnotes (VScalar (SStr text)) = VScalar (SStr (strip text))).
Proof.
  assert (N : forall t, has_footnote t = false -> remove_footnotes_str t = strip t).
  { intros t H. unfold remove_footnotes_str. rewrite (sub_footnotes_none t H).
    reflexivity. }
  split.
  - intros text. cbn [remove_footnotes]. do 2 f_equal.
    destruct (remove_footnotes_str_clean text) as [H1 H2].
    rewrite (N _ H1). exact H2.
  - intros text H. cbn [remove_footnotes]. rewrite (N text H). reflexivity.
Qed.

Lemma remove_footnotes_idempotent_witness :
  has_footnote (py " John Adams ") = false
  /\ remove_footnotes (VScalar (SStr (py " John Adams ")))
     = VScalar (SStr (py "John Adams")).
Proof.
  split; [reflexivity|].
  exact (proj2 remove_footnotes_idempotent (py " John Adams ") eq_refl).
Defined.

(** ** Vice presidents, further *)

Lemma ci_prefix_app (p1 p2 s : pystr) :
  ci_prefix (p1 ++ p2) s
  = match ci_prefix p1 s with
    | Some r => ci_prefix p2 r
    | None => None
    end.
Proof.
  revert s. induction p1 as [|p p1 IH]; intros s; cbn [app ci_prefix].
  - destruct p2, s; reflexivity.
  - destruct s as [|c t]; [reflexivity|]. destruct (ci_eq p c); auto.
Qed.

Lemma vacancy_match_needs_vacant (s : pystr) :
  ci_prefix (py "vacant") s = None -> vacancy_match s = None.
Proof.
  intros H. unfold vacancy_match.
  change (py "vacant throughout presidency")
    with (py "vacant" ++ py " throughout presidency").
  rewrite ci_prefix_app, H. reflexivity.
Qed.

Lemma vacancy_match_positive (s : pystr) (n : nat) :
  vacancy_match s = Some n -> (1 <= n)%nat.
Proof.
  unfold vacancy_match.
  destruct (ci_prefix (py "vacant throughout presidency") s).
  - intros H. injection H as <-. lia.
  - destruct (ci_prefix (py "vacant") s); [|discriminate].
    destruct (lazy_to_year l) as [k|]; cbn [option_map]; [|discriminate].
    intros H. injection H as <-. lia.
Qed.

(** [re.split] keeps every character: the pieces, end to end, are the
    text. *)
Lemma vacancy_split_concat (s : pystr) (skip : nat) (cur : pystr) :
  concat (vacancy_split skip cur s) = rev cur ++ skipn skip s.
Proof.
  revert skip cur. induction s as [|c t IH]; intros skip cur.
  - cbn [vacancy_split concat]. rewrite skipn_nil. reflexivity.
  - cbn [vacancy_split]. destruct skip as [|k].
    + destruct (vacancy_match (c :: t)) as [n|] eqn:E.
      * apply vacancy_match_positive in E.
        destruct n as [|m]; [lia|].
        cbn [concat Nat.pred]. rewrite IH. cbn [rev app skipn].
        change (skipn m t) with (skipn (S m) (c :: t)).
        rewrite firstn_skipn. reflexivity.
      * rewrite IH. cbn [rev skipn]. rewrite <- app_assoc. reflexivity.
    + rewrite IH. reflexivity.
Qed.

Lemma vacancy_split_plain (s : pystr) (cur : pystr) :
  mentions_vacant s = false -> vacancy_split O cur s = [rev cur ++ s].
Proof.
  revert cur. induction s as [|c t IH]; intros cur H.
  - cbn [vacancy_split]. rewrite app_nil_r. reflexivity.
  - cbn [mentions_vacant] in H.
    destruct (ci_prefix (py "vacant") (c :: t)) eqn:E; [discriminate|].
    cbn [vacancy_split]. rewrite (vacancy_match_needs_vacant _ E).
    rewrite (IH _ H). cbn [rev]. rewrite <- app_assoc. reflexivity.
Qed.

Lemma visible_app (a b : pystr) : visible (a ++ b) = visible a ++ visible b.
Proof. unfold visible. apply filter_app. Qed.

Lemma visible_lstrip (s : pystr) : visible (lstrip s) = visible s.
Proof.
  unfold visible. induction s as [|c t IH]; auto.
  cbn [lstrip]. destruct (isspace c) eqn:E; [|reflexivity].
  rewrite filter_cons, decide_False by congruence. exact IH.
Qed.

Lemma visible_all_space (s : pystr) : forallb isspace s = true -> visible s = [].
Proof.
  unfold visible. induction s as [|c t IH]; auto.
  cbn [forallb]. intros H. apply andb_true_iff in H as [Hc Ht].
  rewrite filter_cons, decide_False by congruence. auto.
Qed.

Lemma visible_rstrip_rec (s : pystr) : visible (rstrip_rec s) = visible s.
Proof.
  induction s as [|c t IH]; auto.
  cbn [rstrip_rec]. destruct (isspace c && forallb isspace t) eqn:E.
  - symmetry. apply visible_all_space. exact E.
  - unfold visible in *. rewrite !filter_cons, IH. reflexivity.
Qed.

Lemma visible_strip (s : pystr) : visible (strip s) = visible s.
Proof.
  unfold strip. rewrite rstrip_is_rec, visible_rstrip_rec. apply visible_lstrip.
Qed.

Lemma visible_collapse_ws (s : pystr) (in_ws : bool) :
  visible (collapse_ws in_ws s) = visible s.
Proof.
  unfold visible. revert in_ws. induction s as [|c t IH]; intros in_ws; auto.
  cbn [collapse_ws]. destruct (isspace c) eqn:E.
  - rewrite (filter_cons _ c), decide_False by congruence.
    destruct in_ws; [apply IH|].
    rewrite filter_cons, decide_False by (intros H; discriminate H). apply IH.
  - rewrite !filter_cons, !decide_True by exact E. rewrite IH. reflexivity.
Qed.

Lemma visible_nbsp (s : pystr) :
  visible (map (fun c => if c =? NBSP then SPACE else c) s) = visible s.
Proof.
  unfold visible. induction s as [|c t IH]; auto.
  cbn [map]. rewrite !filter_cons, IH.
  destruct (c =? NBSP) eqn:E; [|reflexivity].
  apply N.eqb_eq in E. subst c.
  rewrite !decide_False by (intros H; discriminate H). reflexivity.
Qed.

Lemma visible_pieces (l : list pystr) :
  concat (map visible (map strip (filter (fun token => nonempty token = true) l)))
  = visible (concat l).
Proof.
  induction l as [|p l IH]; auto.
  rewrite filter_cons. cbn [concat]. rewrite visible_app, <- IH.
  destruct p as [|c p]; cbn [nonempty].
  - rewrite decide_False by discriminate. reflexivity.
  - rewrite decide_True by reflexivity. cbn [map concat].
    rewrite visible_strip. reflexivity.
Qed.

(** X3: [extract_vice_presidents] loses and reorders nothing but
    whitespace (the characters of its elements that are not whitespace,
    end to end, are those of the cell), and each element is trimmed. *)
Theorem extract_vice_presidents_keeps_text (text : pystr) :
  concat (map visible (extract_vice_presidents_str text)) = visible text
  /\ Forall (fun e => strip e = e) (extract_vice_presidents_str text).
Proof.
  unfold extract_vice_presidents_str. split.
  - rewrite visible_pieces, vacancy_split_concat. cbn [rev app].
    rewrite drop_0, visible_strip, visible_collapse_ws. apply visible_nbsp.
  - apply Forall_map. apply Forall_forall. intros p _. apply strip_idem.
Qed.

(** X4: a cell in which the word "vacant" does not occur is returned as one
    element, the cell with its non-breaking spaces made plain, its
    whitespace collapsed and its ends trimmed; a blank cell gives the empty
    list. *)
Theorem extract_vice_presidents_names_only (text : pystr) :
  mentions_vacant (normalize_vp_text text) = false ->
  extract_vice_presidents_str text
  = match normalize_vp_text text with
    | [] => []
    | t => [t]
    end.
Proof.
  intros H. unfold extract_vice_presidents_str.
  change (strip (collapse_ws false
                   (map (fun c => if c =? NBSP then SPACE else c) text)))
    with (normalize_vp_text text).
  rewrite (vacancy_split_plain _ [] H). cbn [rev app].
  rewrite filter_cons, filter_nil.
  destruct (normalize_vp_text text) as [|c t] eqn:E; cbn [nonempty].
  - rewrite decide_False by discriminate. reflexivity.
  - rewrite decide_True by reflexivity. cbn [map]. f_equal.
    rewrite <- E. unfold normalize_vp_text. apply strip_idem.
Qed.

Lemma extract_vice_presidents_names_only_witness :
  mentions_vacant (normalize_vp_text (py " Hannibal  Hamlin ")) = false
  /\ extract_vice_presidents_str (py " Hannibal  Hamlin ") = [py "Hannibal Hamlin"].
Proof.
  split; [reflexivity|].
  exact (extract_vice_presidents_names_only (py " Hannibal  Hamlin ") eq_refl).
Defined.

(** ** Election years, further *)






(** ** The list codec, further *)

Lemma contains_lstrip (c : N) (s : pystr) :
  contains c s = false -> contains c (lstrip s) = false.
Proof.
  unfold contains. induction s as [|x t IH]; auto.
  cbn [lstrip]. destruct (isspace x); auto.
  cbn [existsb]. intros H. apply orb_false_iff in H as [_ H]. auto.
Qed.

Lemma contains_rstrip_rec (c : N) (s : pystr) :
  contains c s = false -> contains c (rstrip_rec s) = false.
Proof.
  unfold contains. induction s as [|x t IH]; auto.
  cbn [rstrip_rec existsb]. intros H. apply orb_false_iff in H as [H1 H2].
  destruct (isspace x && forallb isspace t); [reflexivity|].
  cbn [existsb]. rewrite H1, (IH H2). reflexivity.
Qed.

Lemma contains_strip (c : N) (s : pystr) :
  contains c s = false -> contains c (strip s) = false.
Proof.
  intros H. unfold strip. rewrite rstrip_is_rec.
  apply contains_rstrip_rec, contains_lstrip, H.
Qed.

Lemma piece_item_plain (p : pystr) :
  contains PIPE p = false -> plain_item (piece_item p).
Proof.
  intros H. unfold piece_item.
  destruct (bool_decide (strip p = NA_REPR)) eqn:E; cbn [plain_item]; auto.
  apply bool_decide_eq_false in E.
  split; [split|]; auto using contains_strip, strip_idem.
Qed.

(** X6: what [pipe_string_to_list] returns for a string or a null is never
    the empty list, and its elements are nulls or strings that hold no
    pipe, have no whitespace at their ends and are not ["NA"]; any other
    value is returned as it is. *)
Theorem pipe_string_to_list_image (s : scalar) :
  match s with
  | SStr _ | SNaN | SNA | SNaT | SNone =>
      exists l, pipe_string_to_list s = VList l
                /\ l <> [] /\ Forall plain_item l
                /\ Forall (fun x => match x with IInt _ => False | _ => True end) l
  | _ => pipe_string_to_list s = VScalar s
  end.
Proof.
  assert (NA : exists l, VList [INA] = VList l /\ l <> [] /\ Forall plain_item l
               /\ Forall (fun x => match x with IInt _ => False | _ => True end) l).
  { exists [INA]. repeat split; try discriminate; repeat constructor. }
  destruct s as [t| | | | | | |]; try exact NA; try reflexivity.
  exists (map piece_item (split_char PIPE t)). split; [reflexivity|].
  split; [|split].
  - intros E. apply (split_char_go_nonnil PIPE [] t).
    unfold split_char in E. destruct (split_char_go PIPE [] t); [reflexivity|].
    discriminate E.
  - apply Forall_map. eapply Forall_impl.
    + apply (split_char_go_pieces PIPE [] t). reflexivity.
    + intros p Hp. apply piece_item_plain. exact Hp.
  - apply Forall_map. apply Forall_forall. intros p _. unfold piece_item.
    destruct (bool_decide (strip p = NA_REPR)); exact I.
Qed.

Lemma restore_pieces (ps : list pystr) :
  apply_cells int_item (map piece_item ps)
  = match mapM int_piece ps with
    | Some l => Ok l
    | None => Raise ValueError
    end.
Proof.
  induction ps as [|p ps IH]; [reflexivity|].
  cbn [map apply_cells]. rewrite IH. clear IH.
  change (mapM int_piece (p :: ps))
    with (x ← int_piece p; l ← mapM int_piece ps; Some (x :: l)).
  generalize (mapM int_piece ps). intros m.
  unfold piece_item, int_piece.
  destruct (bool_decide (strip p = NA_REPR)); cbn [int_item rbind mbind option_bind].
  - destruct m; reflexivity.
  - destruct (py_int (strip p)); cbn [rbind option_map mbind option_bind];
      [|reflexivity].
    destruct m; reflexivity.
Qed.

(** X7: on an election field read as text, [load_csv] returns a list that
    is not empty and holds only integers and nulls (one per piece between
    pipes, ["NA"] as null), or raises [ValueError]: it raises exactly when
    some piece is neither ["NA"] nor an integer for [int]. *)
Theorem restore_election_cell_outcome (t : pystr) :
  (restore_election_cell t = Raise ValueError
   <-> Exists (fun p => int_piece p = None) (split_char PIPE t))
  /\ (forall v, restore_election_cell t = Ok v ->
        exists l, v = VList l /\ l <> [] /\ Forall not_text l
                  /\ List.length l = List.length (split_char PIPE t))
  /\ (Forall (fun p => is_Some (int_piece p)) (split_char PIPE t) ->
      is_ok (restore_election_cell t) = true).
Proof.
  unfold restore_election_cell.
  cbn [restore_list pipe_string_to_list isna rbind restore_ints].
  rewrite restore_pieces.
  assert (NT : forall p x, int_piece p = Some x -> not_text x).
  { intros p x. unfold int_piece.
    destruct (bool_decide (strip p = NA_REPR)).
    - intros H. injection H as <-. exact I.
    - destruct (py_int (strip p)); cbn [option_map]; [|discriminate].
      intros H. injection H as <-. exact I. }
  destruct (mapM int_piece (split_char PIPE t)) as [l|] eqn:E; cbn [rbind].
  - apply mapM_Some in E. split; [|split].
    + split; [discriminate|]. intros Hex. exfalso.
      apply Exists_exists in Hex as (p & Hp & Hn).
      apply list_elem_of_lookup in Hp as [i Hi].
      destruct (Forall2_lookup_l _ _ _ _ _ E Hi) as (x & _ & Hx). congruence.
    + intros v H. injection H as <-. exists l. split; [reflexivity|].
      split; [|split].
      * intros ->. apply Forall2_nil_inv_r in E.
        apply (split_char_go_nonnil PIPE [] t). exact E.
      * clear -E NT. induction E; constructor; eauto.
      * symmetry. apply (Forall2_length _ _ _ E).
    + intros _. reflexivity.
  - split; [|split].
    + split; [|reflexivity]. intros _.
      apply mapM_None in E. apply Exists_exists.
      apply Exists_exists in E. exact E.
    + intros v H. discriminate H.
    + intros H. exfalso. apply mapM_None in E.
      apply Exists_exists in E as (p & Hp & Hn).
      rewrite Forall_forall in H. specialize (H p Hp).
      rewrite Hn in H. destruct H as [x Hx]. discriminate Hx.
Qed.

Lemma restore_election_cell_outcome_witness :
  Forall (fun p => is_Some (int_piece p)) (split_char PIPE (py "1788 | NA | 1792"))
  /\ is_ok (restore_election_cell (py "1788 | NA | 1792")) = true.
Proof.
  assert (H : Forall (fun p => is_Some (int_piece p))
                (split_char PIPE (py "1788 | NA | 1792"))).
  { repeat constructor; eexists; vm_compute; reflexivity. }
  split; [exact H|].
  exact (proj2 (proj2 (restore_election_cell_outcome (py "1788 | NA | 1792"))) H).
Defined.

(** ** The cleaned table *)

(** The first statement on a page whose second and fifth labels are those
    of no other column. *)
Lemma drop_portrait_party_page (idx : list value)
  (l0 l1 l2 l3 l4 l5 l6 l7 : string) (c0 c1 c2 c3 c4 c5 c6 c7 : list value) :
  Forall (fun l => l <> l1 /\ l <> l4) [l0; l2; l3; l5; l6; l7] ->
  drop_portrait_party
    (mkFrame idx [(l0, c0); (l1, c1); (l2, c2); (l3, c3);
                  (l4, c4); (l5, c5); (l6, c6); (l7, c7)])
  = Ok (mkFrame idx [(l0, c0); (l2, c2); (l3, c3); (l5, c5); (l6, c6); (l7, c7)]).
Proof.
  intros H.
  apply Forall_cons_1 in H as [[A0 B0] H0].
  apply Forall_cons_1 in H0 as [[A2 B2] H2].
  apply Forall_cons_1 in H2 as [[A3 B3] H3].
  apply Forall_cons_1 in H3 as [[A5 B5] H5].
  apply Forall_cons_1 in H5 as [[A6 B6] H6].
  apply Forall_cons_1 in H6 as [[A7 B7] _].
  unfold drop_portrait_party, labels_at, labels.
  cbn [columns map fst nth_error rbind].
  unfold drop_labels, has_label, labels. cbn [columns map fst forallb existsb].
  rewrite !String.eqb_refl, !orb_true_r. cbn [andb orb]. 
  do 2 f_equal. cbn [index].
  rewrite !filter_cons, filter_nil. cbn [fst].
  repeat match goal with
         | N : ?a <> ?b |- _ => apply String.eqb_neq in N; rewrite N
         end.
  rewrite !String.eqb_refl, !orb_true_r. cbn [orb].
  rewrite !decide_True by reflexivity. rewrite !decide_False by discriminate.
  reflexivity.
Qed.

Lemma try_apply_col_cols (l : string) (f : value -> result value)
  (idx : list value) (cols : list (string * list value)) (c c' : list value) :
  lookup_col l cols = Some c ->
  apply_cells f c = Ok c' ->
  try_apply_col l f (mkFrame idx cols) = Ok (mkFrame idx (assign_col l c' cols)).
Proof.
  intros Hl Hf. unfold try_apply_col, get_col. cbn [columns].
  rewrite Hl. cbn [rbind]. rewrite Hf. reflexivity.
Qed.

Lemma apply_cells_pure_cell (f : value -> value) (c : list value) :
  apply_cells (pure_cell f) c = Ok (map f c).
Proof. apply apply_cells_pure. reflexivity. Qed.

(** [Series.apply] of a function that raises [TypeError] on the cells that
    are not strings. *)
Lemma apply_cells_strings {B} (f : value -> result B) (g : value -> B)
  (c : list value) :
  (forall x, is_str x = true -> f x = Ok (g x)) ->
  (forall x, is_str x = false -> f x = Raise TypeError) ->
  apply_cells f c = if forallb is_str c then Ok (map g c) else Raise TypeError.
Proof.
  intros Hs Hn. induction c as [|x c IH]; [reflexivity|].
  cbn [apply_cells forallb map]. destruct (is_str x) eqn:E.
  - rewrite (Hs x E), IH. cbn [rbind andb].
    destruct (forallb is_str c); reflexivity.
  - rewrite (Hn x E). reflexivity.
Qed.

Lemma remove_footnotes_is_str (x : value) :
  is_str (remove_footnotes x) = is_str x.
Proof. destruct x as [[]|]; reflexivity. Qed.

Lemma forallb_is_str_cleaned (c : list value) :
  forallb is_str (map remove_footnotes c) = forallb is_str c.
Proof.
  induction c as [|x c IH]; [reflexivity|].
  cbn [map forallb]. rewrite remove_footnotes_is_str, IH. reflexivity.
Qed.

Lemma split_name_cells (c : list value) :
  apply_cells split_name_birth_death (map remove_footnotes c)
  = if forallb is_str c then Ok (map name_parts c) else Raise TypeError.
Proof.
  rewrite (apply_cells_strings split_name_birth_death
             (fun x => match split_name_birth_death x with
                       | Ok p => p | Raise _ => (SNA, SNA, SNA) end)).
  - rewrite forallb_is_str_cleaned, map_map. reflexivity.
  - intros [[]|] H; try discriminate H. reflexivity.
  - intros x H. apply split_functions_raise. exact H.
Qed.

Lemma split_term_cells (c : list value) :
  apply_cells split_term (map remove_footnotes c)
  = if forallb is_str c then Ok (map term_parts c) else Raise TypeError.
Proof.
  rewrite (apply_cells_strings split_term
             (fun x => match split_term x with
                       | Ok p => p | Raise _ => (SNA, SNA) end)).
  - rewrite forallb_is_str_cleaned, map_map. reflexivity.
  - intros [[]|] H; try discriminate H. reflexivity.
  - intros x H. apply split_functions_raise. exact H.
Qed.

(** The years the pattern captures are read as integers from 0 to 9999. *)
Lemma year_text_int (y : pystr) :
  year_text y -> exists z, py_int y = Some z /\ (0 <= z <= 9999)%Z.
Proof.
  intros [Hl Hd].
  destruct y as [|a [|b [|c [|d [|e y]]]]]; simpl in Hl; try discriminate.
  pose proof Hd as Hd'. cbn [forallb] in Hd'. rewrite andb_true_r in Hd'.
  apply andb_true_iff in Hd' as [Ha Hd'].
  apply andb_true_iff in Hd' as [Hb Hd'].
  apply andb_true_iff in Hd' as [Hc Hd'].
  exists (10 * (10 * (10 * (10 * 0 + digit_val a) + digit_val b) + digit_val c)
          + digit_val d)%Z.
  split.
  - rewrite py_int_digits; [|discriminate|exact Hd|vm_compute; discriminate].
    cbn [int_digits]. rewrite Ha, Hb, Hc, Hd'. reflexivity.
  - pose proof (digit_val_range a Ha). pose proof (digit_val_range b Hb).
    pose proof (digit_val_range c Hc). pose proof (digit_val_range d Hd'). lia.
Qed.

Lemma take4_year (r y r' : pystr) : take4 r = Some (y, r') -> year_text y.
Proof.
  unfold take4. destruct (four_digits r) eqn:E; [|discriminate].
  intros H. injection H as <- <-.
  destruct r as [|a [|b [|c [|d r]]]]; try discriminate E.
  cbn [four_digits] in E. split; [reflexivity|].
  apply andb_true_iff in E as [E Hd]. apply andb_true_iff in E as [E Hc].
  apply andb_true_iff in E as [Ha Hb].
  cbn [firstn forallb]. rewrite Ha, Hb, Hc, Hd. reflexivity.
Qed.

Lemma name_tail_space (c : N) (s : pystr) :
  isspace c = true -> name_tail (c :: s) = name_tail s.
Proof. intros H. unfold name_tail. cbn [lstrip]. rewrite H. reflexivity. Qed.

Lemma name_tail_years (s : pystr) (b d : scalar) :
  name_tail s = Some (b, d) ->
  (exists y, b = SStr y /\ year_text y)
  /\ (d = SNA \/ exists y, d = SStr y /\ year_text y).
Proof.
  unfold name_tail.
  destruct (expect LPAREN (lstrip s)) as [r|]; [|discriminate].
  destruct (lifespan r) as [[yb yd]|] eqn:L.
  - intros H. injection H as <- <-.
    unfold lifespan in L.
    destruct (take4 r) as [[y1 r1]|] eqn:T1; [|discriminate].
    cbn [mbind option_bind] in L.
    destruct (expect EN_DASH r1) as [r2|]; [|discriminate].
    cbn [mbind option_bind] in L.
    destruct (take4 r2) as [[y2 r3]|] eqn:T2; [|discriminate].
    cbn [mbind option_bind] in L.
    destruct (expect RPAREN r3); [|discriminate].
    cbn [mbind option_bind] in L. injection L as <- <-.
    split; [|right]; eexists; split; eauto using take4_year.
  - destruct (born_only r) as [yb|] eqn:B; [|discriminate].
    intros H. injection H as <- <-.
    unfold born_only in B.
    destruct (exact_prefix (py "b. ") r) as [r1|]; [|discriminate].
    cbn [mbind option_bind] in B.
    destruct (take4 r1) as [[y1 r2]|] eqn:T1; [|discriminate].
    cbn [mbind option_bind] in B.
    destruct (expect RPAREN r2); [|discriminate].
    cbn [mbind option_bind] in B. injection B as <-.
    split; [|left; reflexivity]. eexists; split; eauto using take4_year.
Qed.

(** What [split_name_birth_death] returns for a string: a name or a null,
    and years that are nulls or four digits. *)
Lemma name_parts_shape (x : value) :
  (fst (fst (name_parts x)) = SNA \/ exists n, fst (fst (name_parts x)) = SStr n)
  /\ (snd (fst (name_parts x)) = SNA
      \/ exists y, snd (fst (name_parts x)) = SStr y /\ year_text y)
  /\ (snd (name_parts x) = SNA
      \/ exists y, snd (name_parts x) = SStr y /\ year_text y).
Proof.
  unfold name_parts.
  destruct (remove_footnotes x) as [[s| | | | | | |]|l];
    cbn [split_name_birth_death]; try (repeat split; left; reflexivity).
  unfold split_name_birth_death_str.
  assert (M : forall s acc n b d, name_match acc s = Some (n, b, d) ->
              exists s', name_tail s' = Some (b, d)).
  { intros s0. induction s0 as [|c t IH]; intros acc n b d; cbn [name_match].
    - destruct (name_tail []) as [[b' d']|] eqn:E; [|discriminate].
      intros H. injection H as <- <- <-. eauto.
    - destruct (name_tail (c :: t)) as [[b' d']|] eqn:E.
      + intros H. injection H as <- <- <-. eauto.
      + destruct (c =? NEWLINE); [discriminate|]. apply IH. }
  destruct (name_match [] s) as [[[n b] d]|] eqn:E; cbn [fst snd].
  - destruct (M s [] n b d E) as [s' H].
    apply name_tail_years in H as [Hb Hd].
    split; [right; eauto|split; [right; exact Hb|exact Hd]].
  - repeat split; left; reflexivity.
Qed.

Lemma name_cell_string (pd : pandas) (x : value) :
  astype_string pd (VScalar (fst (fst (name_parts x))))
  = Ok (VScalar (fst (fst (name_parts x)))).
Proof.
  destruct (name_parts_shape x) as ([E|[n E]] & _); rewrite E; reflexivity.
Qed.

Lemma year_cell_ok (s : scalar) :
  s = SNA \/ (exists y, s = SStr y /\ year_text y) ->
  astype_Int64 (VScalar s) = Ok (year_cell s).
Proof.
  intros [->|(y & -> & Hy)]; [reflexivity|].
  unfold year_cell. cbn [astype_Int64].
  destruct (year_text_int y Hy) as (z & E & _). rewrite E. reflexivity.
Qed.

Lemma drop_old_columns (i a b p e v n bi d ts te : list value) :
  drop_labels ["name_birth_death"; "term"]%string
    (mkFrame i [("name_birth_death", a); ("term", b); ("party", p);
                ("election", e); ("vice_president", v); ("name", n);
                ("birth", bi); ("death", d); ("term_start", ts);
                ("term_end", te)]%string)
  = Ok (mkFrame i [("party", p); ("election", e); ("vice_president", v);
                   ("name", n); ("birth", bi); ("death", d);
                   ("term_start", ts); ("term_end", te)]%string).
Proof. vm_compute. reflexivity. Qed.

Lemma select_clean_columns (i p e v n bi d ts te : list value) :
  select_cols CLEAN_NAMES
    (mkFrame i [("party", p); ("election", e); ("vice_president", v);
                ("name", n); ("birth", bi); ("death", d);
                ("term_start", ts); ("term_end", te)]%string)
  = Ok (mkFrame i [("name", n); ("birth", bi); ("death", d);
                   ("term_start", ts); ("term_end", te); ("party", p);
                   ("election", e); ("vice_president", v)]%string).
Proof. vm_compute. reflexivity. Qed.

(** The statements after the columns are named, on the six columns. *)
Lemma clean_named (pd : pandas) (idx c0 c2 c3 c5 c6 c7 : list value) :
  rbind (run_steps (skipn 2 clean_in_place)
           (mkFrame idx (combine RAW_NAMES [c0; c2; c3; c5; c6; c7])))
    (fun df => rbind (select_cols CLEAN_NAMES df) (run_steps (set_types pd)))
  = if forallb is_str c2 && forallb is_str c3
    then Ok (cleaned_table pd c0 c2 c3 c5 c6 c7)
    else Raise TypeError.
Proof.
  unfold clean_in_place, apply_cols, RAW_NAMES.
  cbn [combine map app skipn].
  rewrite run_steps_cons.
  change (set_index "number" _)
    with (Ok (mkFrame c0 [("name_birth_death"%string, c2);
                          ("term"%string, c3); ("party"%string, c5);
                          ("election"%string, c6); ("vice_president"%string, c7)])).
  cbn [rbind].
  do 7 (rewrite run_steps_cons;
        erewrite try_apply_col_cols;
        [|reflexivity|apply apply_cells_pure_cell]; cbn [rbind]).
  cbv [assign_col String.eqb Ascii.eqb Bool.eqb].
  rewrite !map_map.
  rewrite run_steps_cons. unfold assign_name_birth_death, get_col.
  cbn [columns lookup_col String.eqb Ascii.eqb Bool.eqb rbind].
  rewrite split_name_cells.
  destruct (forallb is_str c2); cbn [rbind andb]; [|reflexivity].
  unfold set_col. cbn [index columns].
  cbv [assign_col String.eqb Ascii.eqb Bool.eqb]. rewrite !map_map.
  rewrite run_steps_cons. unfold assign_term, get_col.
  cbn [columns lookup_col String.eqb Ascii.eqb Bool.eqb rbind].
  rewrite split_term_cells.
  destruct (forallb is_str c3); cbn [rbind andb]; [|reflexivity].
  unfold set_col. cbn [index columns].
  cbv [assign_col String.eqb Ascii.eqb Bool.eqb]. rewrite !map_map.
  rewrite run_steps_cons.
  rewrite drop_old_columns. unfold run_steps at 1. cbn [fold_left rbind].
  rewrite select_clean_columns. cbn [rbind]. unfold set_types.
  rewrite run_steps_cons.
  erewrite try_apply_col_cols;
    [|reflexivity
     |apply apply_cells_map; intros x _; apply name_cell_string].
  cbn [rbind]. rewrite run_steps_cons.
  erewrite try_apply_col_cols;
    [|reflexivity
     |apply (apply_cells_map _ _ (fun x => year_cell (snd (fst (name_parts x)))));
      intros x _; apply year_cell_ok, name_parts_shape].
  cbn [rbind]. rewrite run_steps_cons.
  erewrite try_apply_col_cols;
    [|reflexivity
     |apply (apply_cells_map _ _ (fun x => year_cell (snd (name_parts x))));
      intros x _; apply year_cell_ok, name_parts_shape].
  cbn [rbind]. rewrite run_steps_cons.
  erewrite try_apply_col_cols;
    [|reflexivity
     |apply (apply_cells_map _ _
               (fun x => coerce_cell pd (VScalar (fst (term_parts x)))));
      intros x _; apply to_datetime_coerce].
  cbn [rbind]. rewrite run_steps_cons.
  erewrite try_apply_col_cols;
    [|reflexivity
     |apply (apply_cells_map _ _
               (fun x => coerce_cell pd (VScalar (snd (term_parts x)))));
      intros x _; apply to_datetime_coerce].
  cbn [rbind]. unfold run_steps. cbn [fold_left].
  cbv [assign_col String.eqb Ascii.eqb Bool.eqb]. reflexivity.
Qed.

(** [clean_presidents_df], its first two statements apart. *)
Lemma clean_frame_head (pd : pandas) (df : frame) :
  clean_frame pd df
  = rbind (drop_portrait_party df) (fun d =>
    rbind (set_labels RAW_NAMES d) (fun d =>
    rbind (run_steps (skipn 2 clean_in_place) d) (fun df =>
    rbind (select_cols CLEAN_NAMES df) (run_steps (set_types pd))))).
Proof.
  unfold clean_frame, clean_in_place. cbn [app skipn].
  rewrite run_steps_cons.
  destruct (drop_portrait_party df) as [d|e]; cbn [rbind]; [|reflexivity].
  rewrite run_steps_cons.
  destruct (set_labels RAW_NAMES d) as [d'|e]; reflexivity.
Qed.

(** The six columns [df.columns = [...]] names. *)
Lemma set_labels_raw (d d' : frame) :
  set_labels RAW_NAMES d = Ok d' ->
  exists c0 c2 c3 c5 c6 c7,
    map snd (columns d) = [c0; c2; c3; c5; c6; c7]
    /\ d' = mkFrame (index d) (combine RAW_NAMES [c0; c2; c3; c5; c6; c7]).
Proof.
  unfold set_labels.
  destruct (List.length RAW_NAMES =? List.length (columns d))%nat eqn:E;
    [|discriminate].
  intros H. injection H as <-.
  apply Nat.eqb_eq in E. rewrite <- (length_map snd) in E.
  destruct (map snd (columns d)) as [|c0 [|c2 [|c3 [|c5 [|c6 [|c7 [|c8 r]]]]]]];
    try discriminate E.
  eexists _, _, _, _, _, _. split; reflexivity.
Qed.

(** What [clean_presidents_df] returns, and what it raises. *)
Lemma clean_frame_result (pd : pandas) (df : frame) :
  match clean_frame pd df with
  | Ok T =>
      exists c0 c2 c3 c5 c6 c7,
        T = cleaned_table pd c0 c2 c3 c5 c6 c7
        /\ forallb is_str c2 = true /\ forallb is_str c3 = true
        /\ [c0; c2; c3; c5; c6; c7] `sublist_of` map snd (columns df)
  | Raise e => e = IndexError \/ e = ValueError \/ e = TypeError
  end.
Proof.
  rewrite clean_frame_head. unfold drop_portrait_party.
  destruct (labels_at 1 4 df) as [ls|e] eqn:L; cbn [rbind].
  - assert (Hl : forall l, l ∈ ls -> has_label l df = true).
    { unfold labels_at in L.
      destruct (nth_error (labels df) 1) as [a|] eqn:A; [|discriminate].
      destruct (nth_error (labels df) 4) as [b|] eqn:B; [|discriminate].
      injection L as <-. intros l Hl. unfold has_label.
      apply existsb_exists. exists l. split; [|apply String.eqb_refl].
      apply elem_of_cons in Hl as [->|Hl];
        [eapply nth_error_In; exact A|].
      apply list_elem_of_singleton in Hl as ->. eapply nth_error_In; exact B. }
    unfold drop_labels.
    replace (forallb (fun l => has_label l df) ls) with true.
    2:{ symmetry. apply forallb_forall. intros l Hin. apply Hl.
        apply list_elem_of_In. exact Hin. }
    cbn [rbind].
    match goal with |- context [set_labels _ ?d] => set (d1 := d) end.
    destruct (set_labels RAW_NAMES d1) as [d2|e] eqn:S; cbn [rbind].
    + apply set_labels_raw in S as (c0 & c2 & c3 & c5 & c6 & c7 & Hc & ->).
      rewrite clean_named.
      destruct (forallb is_str c2) eqn:E2; cbn [andb]; [|auto].
      destruct (forallb is_str c3) eqn:E3; [|auto].
      exists c0, c2, c3, c5, c6, c7. repeat split; auto.
      rewrite <- Hc. subst d1. cbn [columns].
      apply (fmap_sublist snd). apply sublist_filter.
    + unfold set_labels in S.
      destruct (_ =? _)%nat; [discriminate|]. injection S as <-. auto.
  - unfold labels_at in L.
    destruct (nth_error (labels df) 1); destruct (nth_error (labels df) 4);
      try discriminate L; injection L as <-; auto.
Qed.

(** The cleaning of a page, statement by statement. *)
Lemma clean_page (pd : pandas) (idx : list value)
  (l0 l1 l2 l3 l4 l5 l6 l7 : string) (c0 c1 c2 c3 c4 c5 c6 c7 : list value) :
  Forall (fun l => l <> l1 /\ l <> l4) [l0; l2; l3; l5; l6; l7] ->
  clean_frame pd
    (page_frame idx [l0; l1; l2; l3; l4; l5; l6; l7]
                    [c0; c1; c2; c3; c4; c5; c6; c7])
  = if forallb is_str c2 && forallb is_str c3
    then Ok (cleaned_table pd c0 c2 c3 c5 c6 c7)
    else Raise TypeError.
Proof.
  intros H. rewrite clean_frame_head. unfold page_frame. cbn [combine].
  rewrite (drop_portrait_party_page _ _ _ _ _ _ _ _ _ _ _ _ _ _ _ _ _ H).
  cbn [rbind].
  change (set_labels RAW_NAMES _)
    with (Ok (mkFrame idx (combine RAW_NAMES [c0; c2; c3; c5; c6; c7]))).
  cbn [rbind]. apply clean_named.
Qed.

(** A new object, and the frames there were. *)
Lemma keeps_clean_presidents_df_new (m0 : gmap loc frame) (pd : pandas)
  (raw_df : loc) :
  keeps m0 (clean_presidents_df pd raw_df) (fun l => m0 !! l = None).
Proof.
  unfold clean_presidents_df.
  eapply keeps_bind; [apply keeps_df_copy|]. intros df Hdf.
  eapply keeps_bind; [apply (keeps_updates m0 df _ Hdf)|]. intros _ _.
  eapply keeps_bind; [apply keeps_deref|]. intros cur _.
  destruct (select_cols CLEAN_NAMES cur) as [reordered|e].
  - eapply keeps_bind; [apply keeps_alloc|]. intros df2 Hdf2.
    eapply keeps_bind; [apply (keeps_updates m0 df2 _ Hdf2)|]. intros _ _.
    apply keeps_ret. exact Hdf2.
  - apply keeps_raise.
Qed.



(** X9: on such a page, a name cell or a term cell that is not a string
    (a missing cell) makes [clean_presidents_df] raise [TypeError]. *)
Theorem clean_presidents_df_missing_cell (pd : pandas) (w : world) (r : loc)
  (idx : list value) (l0 l1 l2 l3 l4 l5 l6 l7 : string)
  (c0 c1 c2 c3 c4 c5 c6 c7 : list value) :
  frames w !! r = Some (page_frame idx [l0; l1; l2; l3; l4; l5; l6; l7]
                                       [c0; c1; c2; c3; c4; c5; c6; c7]) ->
  Forall (fun l => l <> l1 /\ l <> l4) [l0; l2; l3; l5; l6; l7] ->
  forallb is_str (c2 ++ c3) = false ->
  fst (clean_presidents_df pd r w) = Raise TypeError.
Proof.
  intros Hr Hl H.
  pose proof (clean_presidents_df_value pd w r _ Hr) as V.
  rewrite (clean_page pd idx _ _ _ _ _ _ _ _ _ _ _ _ _ _ _ _ Hl) in V.
  rewrite forallb_app in H. rewrite H in V.
  destruct V as (w' & E & _). rewrite E. reflexivity.
Qed.

Lemma clean_presidents_df_missing_cell_witness :
  fst (clean_presidents_df pandas_ref 1%positive
         (mkWorld {[ 1%positive :=
                      page_frame [] ["a"; "b"; "c"; "d"; "e"; "f"; "g"; "h"]%string
                        [[VScalar (SInt 1)]; []; [VScalar SNaN];
                         [raw_cell "x – y"]; []; []; []; []] ]} ∅))
  = Raise TypeError.
Proof.
  eapply (clean_presidents_df_missing_cell pandas_ref _ 1%positive []
            "a" "b" "c" "d" "e" "f" "g" "h").
  - reflexivity.
  - repeat constructor; discriminate.
  - reflexivity.
Defined.

(** ** What the cleaner returns and raises, on any table *)

Lemma clean_presidents_df_returns (pd : pandas) (w w' : world) (r l : loc) :
  clean_presidents_df pd r w = (Ok l, w') ->
  exists raw T, frames w !! r = Some raw /\ clean_frame pd raw = Ok T
                /\ frames w' !! l = Some T /\ files w' = files w.
Proof.
  intros H. destruct (frames w !! r) as [raw|] eqn:R.
  - pose proof (clean_presidents_df_value pd w r raw R) as V.
    destruct (clean_frame pd raw) as [T|e] eqn:C.
    + destruct V as (l0 & w0 & E & F & G). rewrite E in H.
      injection H as <- <-. exists raw, T. repeat split; auto.
    + destruct V as (w0 & E & _). rewrite E in H. discriminate.
  - unfold clean_presidents_df, df_copy, bind, deref in H. rewrite R in H.
    discriminate.
Qed.

Lemma clean_presidents_df_raises (pd : pandas) (w : world) (r : loc)
  (raw : frame) (e : exn) :
  frames w !! r = Some raw ->
  fst (clean_presidents_df pd r w) = Raise e ->
  clean_frame pd raw = Raise e.
Proof.
  intros R H. pose proof (clean_presidents_df_value pd w r raw R) as V.
  destruct (clean_frame pd raw) as [T|e'] eqn:C.
  - destruct V as (l0 & w0 & E & _). rewrite E in H. discriminate.
  - destruct V as (w0 & E & _). rewrite E in H. cbn [fst] in H.
    injection H as ->. reflexivity.
Qed.

Lemma name_parts_values (x : value) :
  name_value (VScalar (fst (fst (name_parts x)))) = true
  /\ year_value (year_cell (snd (fst (name_parts x)))) = true
  /\ year_value (year_cell (snd (name_parts x))) = true.
Proof.
  assert (Y : forall s, s = SNA \/ (exists y, s = SStr y /\ year_text y) ->
              year_value (year_cell s) = true).
  { intros s [->|(y & -> & Hy)]; [reflexivity|].
    unfold year_cell. cbn [astype_Int64].
    destruct (year_text_int y Hy) as (z & E & Hz). rewrite E.
    cbn [year_value]. apply andb_true_iff. split; apply Z.leb_le; lia. }
  destruct (name_parts_shape x) as (Hn & Hb & Hd).
  split; [|split; apply Y; assumption].
  destruct Hn as [->|[n ->]]; reflexivity.
Qed.

Lemma coerce_cell_date (pd : pandas) (x : value) :
  date_value (coerce_cell pd x) = true.
Proof.
  destruct x as [s|l]; cbn [coerce_cell]; [|reflexivity].
  destruct (isna s); [reflexivity|].
  destruct (parse_datetime pd s); reflexivity.
Qed.

Lemma forallb_map_all {A B} (p : B -> bool) (f : A -> B) (l : list A) :
  (forall x, p (f x) = true) -> forallb p (map f l) = true.
Proof.
  intros H. induction l as [|x l IH]; [reflexivity|].
  cbn [map forallb]. rewrite H, IH. reflexivity.
Qed.

(** X10: whenever [clean_presidents_df] returns, the object it returns
    holds the eight columns [name], [birth], [death], [term_start],
    [term_end], [party], [election], [vice_president] in this order; every
    name is a string or a null, every year a null or an integer from 0 to
    9999, every date a [Timestamp] or [NaT]; and the three columns read in
    the name column have one cell per name, the two read in the term column
    one per term. *)
Theorem clean_presidents_df_typed (pd : pandas) (w w' : world) (r l : loc) :
  clean_presidents_df pd r w = (Ok l, w') ->
  exists (T : frame) (n b d ts te p e v : list value),
    frames w' !! l = Some T
    /\ columns T = [("name", n); ("birth", b); ("death", d);
                    ("term_start", ts); ("term_end", te);
                    ("party", p); ("election", e); ("vice_president", v)]%string
    /\ forallb name_value n = true
    /\ forallb year_value b = true /\ forallb year_value d = true
    /\ forallb date_value ts = true /\ forallb date_value te = true
    /\ length b = length n /\ length d = length n
    /\ length te = length ts.
Proof.
  intros H.
  apply clean_presidents_df_returns in H as (raw & T & _ & C & F & _).
  pose proof (clean_frame_result pd raw) as R. rewrite C in R.
  destruct R as (c0 & c2 & c3 & c5 & c6 & c7 & -> & _).
  eexists _, _, _, _, _, _, _, _, _. split; [exact F|].
  split; [reflexivity|].
  repeat split.
  - apply forallb_map_all. intros x. apply name_parts_values.
  - apply forallb_map_all. intros x. apply name_parts_values.
  - apply forallb_map_all. intros x. apply name_parts_values.
  - apply forallb_map_all. intros x. apply coerce_cell_date.
  - apply forallb_map_all. intros x. apply coerce_cell_date.
  - rewrite !length_map. reflexivity.
  - rewrite !length_map. reflexivity.
  - rewrite !length_map. reflexivity.
Qed.

Lemma clean_presidents_df_typed_witness :
  exists (l : loc) (w' : world) (T : frame),
    clean_presidents_df pandas_ref 1%positive world_example = (Ok l, w')
    /\ frames w' !! l = Some T
    /\ labels T = CLEAN_NAMES.
Proof.
  destruct (clean_presidents_df pandas_ref 1%positive world_example)
    as [[l|e] w'] eqn:E.
  - destruct (clean_presidents_df_typed pandas_ref world_example w' 1%positive l E)
      as (T & n & b & d & ts & te & p & el & v & F & C & _).
    exists l, w', T. split; [reflexivity|]. split; [exact F|].
    unfold labels. rewrite C. reflexivity.
  - vm_compute in E. discriminate E.
Defined.

Lemma labels_at_few (df : frame) :
  (length (columns df) < 5)%nat -> labels_at 1 4 df = Raise IndexError.
Proof.
  intros H. unfold labels_at, labels.
  destruct (columns df) as [|x0 [|x1 [|x2 [|x3 [|x4 t]]]]];
    cbn [map nth_error]; try reflexivity.
  cbn [length] in H. lia.
Qed.

(** The two columns at positions 1 and 4 are among those that go. *)
Lemma drop_portrait_party_length (df d : frame) :
  drop_portrait_party df = Ok d ->
  (length (columns d) + 2 <= length (columns df))%nat.
Proof.
  unfold drop_portrait_party, labels_at, labels.
  destruct (columns df) as [|x0 [|x1 [|x2 [|x3 [|x4 t]]]]] eqn:C;
    cbn [map nth_error rbind]; try discriminate.
  unfold drop_labels. destruct (forallb _ _); [|discriminate].
  intros H. injection H as <-. cbn [columns]. rewrite C.
  cbn [existsb].
  set (P := fun lc : string * list value =>
              (lc.1 =? x1.1)%string || ((lc.1 =? x4.1)%string || false) = false).
  assert (N1 : ~ P x1).
  { unfold P. rewrite String.eqb_refl. discriminate. }
  assert (N4 : ~ P x4).
  { unfold P. rewrite String.eqb_refl, orb_true_r. discriminate. }
  change (x0 :: x1 :: x2 :: x3 :: x4 :: t)
    with ([x0] ++ [x1] ++ [x2; x3] ++ [x4] ++ t).
  rewrite !filter_app, !length_app.
  rewrite (filter_cons_False P x1 []) by exact N1.
  rewrite (filter_cons_False P x4 []) by exact N4.
  pose proof (length_filter P [x0]). pose proof (length_filter P [x2; x3]).
  pose proof (length_filter P t). rewrite !filter_nil. cbn [length] in *. lia.
Qed.

Lemma drop_portrait_party_raises (df : frame) (e : exn) :
  drop_portrait_party df = Raise e -> (length (columns df) < 5)%nat.
Proof.
  unfold drop_portrait_party, labels_at, drop_labels, has_label, labels.
  destruct (columns df) as [|x0 [|x1 [|x2 [|x3 [|x4 t]]]]];
    cbn [map nth_error rbind length]; try lia.
  cbn [forallb existsb]. rewrite !String.eqb_refl, !orb_true_r.
  cbn [orb andb]. discriminate.
Qed.

(** X11: a table of fewer than five columns makes [clean_presidents_df]
    raise [IndexError]; one of five, six or seven columns makes it raise
    [ValueError], since at most five columns are left for the six names. *)
Theorem clean_presidents_df_too_few_columns (pd : pandas) (w : world)
  (r : loc) (raw : frame) :
  frames w !! r = Some raw ->
  (length (columns raw) < 8)%nat ->
  fst (clean_presidents_df pd r w)
  = Raise (if (length (columns raw) <? 5)%nat then IndexError else ValueError).
Proof.
  intros R H. pose proof (clean_presidents_df_value pd w r raw R) as V.
  assert (C : clean_frame pd raw
              = Raise (if (length (columns raw) <? 5)%nat
                       then IndexError else ValueError)).
  { rewrite clean_frame_head.
    destruct (length (columns raw) <? 5)%nat eqn:E.
    - apply Nat.ltb_lt in E. unfold drop_portrait_party.
      rewrite (labels_at_few raw E). reflexivity.
    - apply Nat.ltb_ge in E.
      destruct (drop_portrait_party raw) as [d|e] eqn:D; cbn [rbind].
      + apply drop_portrait_party_length in D. unfold set_labels.
        replace (length RAW_NAMES =? length (columns d))%nat with false;
          [reflexivity|].
        symmetry. apply Nat.eqb_neq. cbn [RAW_NAMES length]. lia.
      + apply drop_portrait_party_raises in D. lia. }
  rewrite C in V. destruct V as (w' & E & _). rewrite E. reflexivity.
Qed.

Lemma clean_presidents_df_too_few_columns_witness :
  fst (clean_presidents_df pandas_ref 1%positive
         (mkWorld {[ 1%positive :=
                      page_frame [] ["a"; "b"; "c"; "d"; "e"; "f"]%string
                        [[]; []; []; []; []; []] ]} ∅))
  = Raise ValueError.
Proof.
  apply (clean_presidents_df_too_few_columns pandas_ref
           (mkWorld {[ 1%positive :=
                        page_frame [] ["a"; "b"; "c"; "d"; "e"; "f"]%string
                          [[]; []; []; []; []; []] ]} ∅)
           1%positive
           (page_frame [] ["a"; "b"; "c"; "d"; "e"; "f"]%string
              [[]; []; []; []; []; []])).
  - reflexivity.
  - cbn. lia.
Defined.

(** X12: on a table that exists, [clean_presidents_df] writes no file, and
    raises nothing but [IndexError] (no column at position 4),
    [ValueError] (not six columns left to name) and [TypeError] (a name or
    a term that is no string). *)
Theorem clean_presidents_df_raises_only (pd : pandas) (w : world) (r : loc)
  (raw : frame) :
  frames w !! r = Some raw ->
  files (snd (clean_presidents_df pd r w)) = files w
  /\ forall e, fst (clean_presidents_df pd r w) = Raise e ->
               e = IndexError \/ e = ValueError \/ e = TypeError.
Proof.
  intros R. split.
  - pose proof (clean_presidents_df_value pd w r raw R) as V.
    destruct (clean_frame pd raw) as [T|e].
    + destruct V as (l & w' & E & _ & F). rewrite E. exact F.
    + destruct V as (w' & E & F). rewrite E. exact F.
  - intros e H. apply (clean_presidents_df_raises pd w r raw e R) in H.
    pose proof (clean_frame_result pd raw) as C. rewrite H in C. exact C.
Qed.

Lemma clean_presidents_df_raises_only_witness :
  files (snd (clean_presidents_df pandas_ref 1%positive world_example))
  = files world_example
  /\ forall e,
       fst (clean_presidents_df pandas_ref 1%positive world_example) = Raise e ->
       e = IndexError \/ e = ValueError \/ e = TypeError.
Proof.
  apply (clean_presidents_df_raises_only pandas_ref world_example 1%positive
           raw_example).
  reflexivity.
Defined.

(** ** Parties *)

Lemma recognized_empty : recognized [] = false.
Proof. reflexivity. Qed.

(** After a turn of the loop the accumulator is no recognized name, and at
    most one name was added. *)
Lemma party_step_current (st : list pystr * pystr) (part : pystr) :
  recognized (snd (party_step st part)) = false
  /\ (length (fst (party_step st part)) <= S (length (fst st)))%nat.
Proof.
  destruct st as [found current]. unfold party_step.
  set (cur := match current with [] => part | _ => current ++ [SPACE] ++ part end).
  destruct (recognized cur) eqn:E; cbn [fst snd].
  - split; [apply recognized_empty|]. rewrite length_app. cbn [length]. lia.
  - split; [exact E|]. lia.
Qed.

Lemma party_loop_current (parts : list pystr) (st : list pystr * pystr) :
  recognized (snd st) = false ->
  recognized (snd (fold_left party_step parts st)) = false
  /\ (length (fst (fold_left party_step parts st))
      <= length parts + length (fst st))%nat.
Proof.
  revert st. induction parts as [|part parts IH]; intros st H; cbn [fold_left].
  - split; [exact H|]. cbn [length]. lia.
  - destruct (party_step_current st part) as [H1 H2].
    destruct (IH (party_step st part) H1) as [H3 H4].
    split; [exact H3|]. cbn [length]. lia.
Qed.

(** X13: every name [extract_parties] returns is one of
    [RECOGNIZED_PARTIES]; the test after the loop never adds one, the
    accumulator being empty or unrecognized when the loop ends; and there
    are at most as many names as words in the normalized text. *)
Theorem extract_parties_only_recognized (text : pystr) :
  Forall (fun p => p ∈ RECOGNIZED_PARTIES) (extract_parties_str text)
  /\ extract_parties_str text
     = fst (fold_left party_step (split_ws (normalize_party_text text)) ([], []))
  /\ (length (extract_parties_str text)
      <= length (split_ws (normalize_party_text text)))%nat.
Proof.
  split; [apply extract_parties_recognized|].
  unfold extract_parties_str.
  destruct (party_loop_current (split_ws (normalize_party_text text)) ([], [])
              recognized_empty) as [H1 H2].
  destruct (fold_left party_step _ _) as [found current].
  cbn [fst snd length] in *. rewrite H1. split; [reflexivity|]. lia.
Qed.

(** A word that starts no recognized name stays in the accumulator. *)
Lemma party_loop_blocked (t : pystr) (parts : list pystr) (r : pystr) :
  t <> [] ->
  (forall r, recognized (t ++ r) = false) ->
  exists r', fold_left party_step parts ([], t ++ r) = ([], t ++ r').
Proof.
  intros Ht H. revert r. induction parts as [|part parts IH]; intros r;
    cbn [fold_left].
  - exists r. reflexivity.
  - assert (E : party_step ([], t ++ r) part
                = ([], t ++ (r ++ [SPACE] ++ part))).
    { unfold party_step. destruct (t ++ r) as [|c s] eqn:A.
      - apply app_eq_nil in A as [A _]. contradiction.
      - rewrite <- A. rewrite <- app_assoc. rewrite H. reflexivity. }
    rewrite E. apply IH.
Qed.

(** X14: when the first word of the normalized text starts no recognized
    name, [extract_parties] finds nothing, whatever names follow: each
    later word is appended to an accumulator that can no longer match. *)
Theorem extract_parties_blocked (text t : pystr) (rest : list pystr) :
  split_ws (normalize_party_text text) = t :: rest ->
  (forall r, recognized (t ++ r) = false) ->
  extract_parties_str text = [].
Proof.
  intros S H.
  assert (Ht : t <> []).
  { intros ->. specialize (H (py "Whig")). discriminate H. }
  unfold extract_parties_str. rewrite S. cbn [fold_left].
  assert (E : party_step ([], []) t = ([], t ++ [])).
  { unfold party_step. rewrite app_nil_r. rewrite <- (app_nil_r t) at 1.
    rewrite H. reflexivity. }
  rewrite E.
  destruct (party_loop_blocked t rest [] Ht H) as [r' ->].
  rewrite H. reflexivity.
Qed.

Lemma extract_parties_blocked_witness :
  split_ws (normalize_party_text (py "XYZ Unaffiliated ABC"))
  = [py "Xyz"; py "Unaffiliated"; py "Abc"]
  /\ extract_parties_str (py "XYZ Unaffiliated ABC") = [].
Proof.
  split; [vm_compute; reflexivity|].
  apply (extract_parties_blocked (py "XYZ Unaffiliated ABC") (py "Xyz")
           [py "Unaffiliated"; py "Abc"]).
  - vm_compute. reflexivity.
  - intros r. apply bool_decide_eq_false. intros M.
    unfold RECOGNIZED_PARTIES in M.
    repeat (apply elem_of_cons in M as [M|M]; [discriminate M|]).
    inversion M.
Defined.

(** ** Names and terms, on any string *)

(** The prefix [(.*?)] stops at: the first place where the rest of the
    pattern matches, so that it ends with no whitespace, and holds no
    newline. *)
Lemma name_match_prefix (s acc n : pystr) (b d : scalar) :
  name_match acc s = Some (n, b, d) ->
  forallb (fun c => negb (c =? NEWLINE)) acc = true ->
  match acc with [] => True | c :: _ => name_tail (c :: s) = None end ->
  exists rest,
    rev acc ++ s = n ++ rest
    /\ name_tail rest = Some (b, d)
    /\ forallb (fun c => negb (c =? NEWLINE)) n = true
    /\ rstrip n = n.
Proof.
  revert acc. induction s as [|c t IH]; intros acc; cbn [name_match].
  - destruct (name_tail []) as [[b' d']|] eqn:E; [|discriminate].
    intros H. injection H as <- <- <-. intros Hn Hp.
    exists []. split; [reflexivity|]. split; [exact E|].
    split; [rewrite forallb_rev; exact Hn|].
    unfold rstrip. rewrite rev_involutive.
    destruct acc as [|x acc]; [reflexivity|]. cbn [lstrip].
    destruct (isspace x) eqn:X; [|reflexivity].
    rewrite (name_tail_space x [] X), E in Hp. discriminate.
  - destruct (name_tail (c :: t)) as [[b' d']|] eqn:E.
    + intros H. injection H as <- <- <-. intros Hn Hp.
      exists (c :: t). split; [reflexivity|]. split; [exact E|].
      split; [rewrite forallb_rev; exact Hn|].
      unfold rstrip. rewrite rev_involutive.
      destruct acc as [|x acc]; [reflexivity|]. cbn [lstrip].
      destruct (isspace x) eqn:X; [|reflexivity].
      rewrite (name_tail_space x (c :: t) X), E in Hp. discriminate.
    + destruct (c =? NEWLINE) eqn:N; [discriminate|].
      intros H Hn Hp.
      destruct (IH (c :: acc) H) as (rest & H1 & H2).
      * cbn [forallb]. rewrite N, Hn. reflexivity.
      * exact E.
      * exists rest. split; [|exact H2].
        rewrite <- H1. cbn [rev]. rewrite <- app_assoc. reflexivity.
Qed.

(** X15: for every string, [split_name_birth_death] returns either three
    nulls or a name, a birth year and a death year or a null; the name is
    the start of the string up to the parenthesis, holds no newline and
    ends with no whitespace, and the years are texts of four digits. *)
Theorem split_name_birth_death_result (text : pystr) :
  split_name_birth_death_str text = (SNA, SNA, SNA)
  \/ exists (name rest birth : pystr) (death : scalar),
       split_name_birth_death_str text = (SStr name, SStr birth, death)
       /\ text = name ++ rest
       /\ name_tail rest = Some (SStr birth, death)
       /\ forallb (fun c => negb (c =? NEWLINE)) name = true
       /\ rstrip name = name
       /\ year_text birth
       /\ (death = SNA \/ exists y, death = SStr y /\ year_text y).
Proof.
  unfold split_name_birth_death_str.
  destruct (name_match [] text) as [[[n b] d]|] eqn:E; [right|left; reflexivity].
  destruct (name_match_prefix text [] n b d E eq_refl I)
    as (rest & H1 & H2 & H3 & H4).
  destruct (name_tail_years rest b d H2) as ((y & -> & Hy) & Hd).
  exists n, rest, y, d. repeat split; auto.
  - exact (proj1 Hy).
  - exact (proj2 Hy).
Qed.

(** ** Statements on columns *)

Lemma prepare_frame_spec : prepare_frame = col_steps SAVE_SPEC.
Proof. reflexivity. Qed.

Lemma restore_frame_spec (pd : pandas) : restore_frame pd = col_steps (LOAD_SPEC pd).
Proof. reflexivity. Qed.

Lemma apply_cells_bind {A B C} (f : A -> result B) (g : B -> result C)
  (c : list A) (c1 : list B) (c2 : list C) :
  apply_cells f c = Ok c1 -> apply_cells g c1 = Ok c2 ->
  apply_cells (fun v => rbind (f v) g) c = Ok c2.
Proof.
  revert c1 c2. induction c as [|v c IH]; intros c1 c2; cbn [apply_cells].
  - intros H. injection H as <-. auto.
  - destruct (f v) as [y|e]; cbn [rbind]; [|discriminate].
    destruct (apply_cells f c) as [ys|e]; cbn [rbind]; [|discriminate].
    intros H. injection H as <-. cbn [apply_cells].
    destruct (g y) as [z|e]; cbn [rbind]; [|discriminate].
    destruct (apply_cells g ys) as [zs|e] eqn:G; cbn [rbind]; [|discriminate].
    intros H. injection H as <-. rewrite (IH ys zs eq_refl G).
    reflexivity.
Qed.

Lemma apply_cells_ext {A B} (f g : A -> result B) (c : list A) :
  (forall v, f v = g v) -> apply_cells f c = apply_cells g c.
Proof.
  intros H. induction c as [|v c IH]; [reflexivity|].
  cbn [apply_cells]. rewrite H, IH. reflexivity.
Qed.

Lemma apply_cells_ok {A} (c : list A) : apply_cells (@Ok A) c = Ok c.
Proof.
  induction c as [|v c IH]; [reflexivity|].
  cbn [apply_cells rbind]. rewrite IH. reflexivity.
Qed.


Lemma apply_cells_all_ok {A B} (f : A -> result B) (c : list A) (c' : list B) :
  apply_cells f c = Ok c' -> Forall2 (fun v v' => f v = Ok v') c c'.
Proof.
  revert c'. induction c as [|v c IH]; intros c'.
  - cbn [apply_cells]. intros H. injection H as <-. constructor.
  - cbn [apply_cells]. destruct (f v) as [y|e] eqn:E; cbn [rbind]; [|discriminate].
    destruct (apply_cells f c) as [ys|e]; cbn [rbind]; [|discriminate].
    intros H. injection H as <-. constructor; auto.
Qed.

Lemma cell_through_cons (l x : string) (f : value -> result value)
  (spec : list (string * (value -> result value))) (v : value) :
  cell_through ((l, f) :: spec) x v
  = if String.eqb x l then rbind (f v) (cell_through spec x)
    else cell_through spec x v.
Proof.
  unfold cell_through. cbn [fold_left fst snd].
  destruct (String.eqb x l); [|reflexivity]. cbn [rbind].
  destruct (f v) as [y|e]; cbn [rbind]; [reflexivity|].
  induction spec as [|[l' f'] spec IH]; [reflexivity|].
  cbn [fold_left fst snd]. destruct (String.eqb x l'); exact IH.
Qed.

(** A statement on a column keeps the labels. *)
Lemma labels_assign_present {A} (l : string) (c c' : A) (cols : list (string * A)) :
  lookup_col l cols = Some c -> map fst (assign_col l c' cols) = map fst cols.
Proof.
  induction cols as [|[l' c0] cols IH]; [discriminate|].
  cbn [lookup_col assign_col]. destruct (String.eqb_spec l l') as [->|N].
  - reflexivity.
  - intros H. cbn [map fst]. rewrite (IH H). reflexivity.
Qed.

Lemma try_apply_col_labels (l : string) (f : value -> result value) (a b : frame) :
  try_apply_col l f a = Ok b -> labels b = labels a /\ index b = index a.
Proof.
  intros H. apply try_apply_col_ok in H as (c & c' & L & _ & ->).
  split; [|reflexivity]. unfold labels. cbn [set_col columns].
  apply (labels_assign_present l c c' _ L).
Qed.

Lemma lookup_col_labels {A} (l : string) (cols : list (string * A)) :
  lookup_col l cols = None <-> l ∉ map fst cols.
Proof.
  induction cols as [|[l' c] cols IH]; cbn [lookup_col map fst].
  - split; [intros _; apply not_elem_of_nil|reflexivity].
  - rewrite not_elem_of_cons. destruct (String.eqb_spec l l') as [->|N].
    + split; [discriminate|intros [H _]; contradiction].
    + rewrite IH. tauto.
Qed.

(** When the statements all pass, the frame has the labels and the index
    it had, each column they name was there, and each cell of a column went
    through the functions applied to that column. *)
Lemma run_col_steps (spec : list (string * (value -> result value)))
  (a b : frame) :
  run_steps (col_steps spec) a = Ok b ->
  labels b = labels a /\ index b = index a
  /\ Forall (fun lf => fst lf ∈ labels a) spec
  /\ forall x c, lookup_col x (columns a) = Some c ->
       exists c', lookup_col x (columns b) = Some c'
                  /\ apply_cells (cell_through spec x) c = Ok c'.
Proof.
  revert a. induction spec as [|[l f] spec IH]; intros a.
  - unfold col_steps, run_steps. cbn [map fold_left]. intros H. injection H as <-.
    repeat split; auto. intros x c L. exists c. split; [exact L|].
    apply apply_cells_ok.
  - unfold col_steps. cbn [map fst snd]. rewrite run_steps_cons.
    destruct (try_apply_col l f a) as [a1|e] eqn:E; cbn [rbind]; [|discriminate].
    intros R. destruct (IH a1 R) as (H1 & H2 & H3 & H4).
    destruct (try_apply_col_labels l f a a1 E) as [L1 L2].
    pose proof E as E'.
    apply try_apply_col_ok in E' as (c0 & c0' & La & Fa & ->).
    split; [congruence|]. split; [congruence|]. split.
    + constructor.
      * cbn [fst]. destruct (decide (l ∈ labels a)) as [Y|N]; [exact Y|].
        apply lookup_col_labels in N. unfold labels in N. congruence.
      * rewrite <- L1. exact H3.
    + intros x c L. rewrite (apply_cells_ext _ _ c (cell_through_cons l x f spec)).
      destruct (String.eqb_spec x l) as [->|N].
      * rewrite La in L. injection L as <-.
        destruct (H4 l c0') as (c' & A & B).
        { cbn [set_col columns]. rewrite lookup_assign, String.eqb_refl.
          reflexivity. }
        exists c'. split; [exact A|].
        exact (apply_cells_bind f _ c0 c0' c' Fa B).
      * apply H4. cbn [set_col columns]. rewrite lookup_assign.
        destruct (String.eqb_spec x l); [contradiction|exact L].
Qed.


(** ** Saving *)





(** X17: [save_csv] needs the two date columns and the three list columns:
    on a table that lacks one of them it raises and writes nothing. *)
Theorem save_csv_needs_columns (pd : pandas) (w : world) (r : loc) (T : frame)
  (filename : string) (output : option string) (col : string) :
  frames w !! r = Some T ->
  In col (DATETIME_COLS ++ LIST_COLS) ->
  lookup_col col (columns T) = None ->
  (exists e, fst (save_csv pd r filename output w) = Raise e)
  /\ files (snd (save_csv pd r filename output w)) = files w.
Proof.
  intros R Hin Hc. pose proof (save_csv_value pd w r T filename output R) as V.
  unfold save_frame in V. rewrite prepare_frame_spec in V.
  destruct (run_steps (col_steps SAVE_SPEC) T) as [df|e] eqn:S; cbn [rbind] in V.
  - exfalso. apply run_col_steps in S as (_ & _ & S & _).
    apply lookup_col_labels in Hc. apply Hc.
    assert (S' : Forall (fun l => l ∈ labels T) (map fst SAVE_SPEC))
      by (apply Forall_fmap; exact S).
    rewrite Forall_forall in S'. apply S'. apply list_elem_of_In. exact Hin.
  - destruct V as (w' & E & F). rewrite E. split; [exists e; reflexivity|exact F].
Qed.

Lemma save_csv_needs_columns_witness :
  exists e,
    fst (save_csv pandas_ref 1%positive "us_presidents_cleaned" None world_example)
    = Raise e.
Proof.
  apply (save_csv_needs_columns pandas_ref world_example 1%positive raw_example
           "us_presidents_cleaned" None "term_end").
  - reflexivity.
  - cbn. auto.
  - reflexivity.
Defined.

Lemma apply_cells_total {A B} (f : A -> result B) (c : list A) :
  Forall (fun v => is_ok (f v) = true) c -> exists c', apply_cells f c = Ok c'.
Proof.
  induction 1 as [|v c Hv _ [c' IH]]; [exists []; reflexivity|].
  cbn [apply_cells]. destruct (f v) as [y|e]; [|discriminate Hv].
  rewrite IH. exists (y :: c'). reflexivity.
Qed.

(** Statements on different columns, each of which is there and holds
    cells its function accepts, all pass. *)
Lemma run_col_steps_ok (spec : list (string * (value -> result value)))
  (a : frame) :
  NoDup (map fst spec) ->
  Forall (fun lf => exists c, lookup_col (fst lf) (columns a) = Some c
                              /\ Forall (fun v => is_ok (snd lf v) = true) c) spec ->
  exists b, run_steps (col_steps spec) a = Ok b.
Proof.
  revert a. induction spec as [|[l f] spec IH]; intros a D H.
  - exists a. reflexivity.
  - apply NoDup_cons in D as [Dl D].
    apply Forall_cons_1 in H as [(c & L & Hc) H].
    cbn [fst snd] in L, Hc.
    destruct (apply_cells_total f c Hc) as [c' F].
    unfold col_steps. cbn [map fst snd]. rewrite run_steps_cons.
    unfold try_apply_col, get_col. rewrite L. cbn [rbind]. rewrite F.
    cbn [rbind]. apply IH; [exact D|].
    rewrite Forall_forall in H. apply Forall_forall. intros [l' f'] Hin.
    destruct (H _ Hin) as (c0 & L0 & H0). exists c0. split; [|exact H0].
    cbn [fst] in *. cbn [set_col columns]. rewrite lookup_assign.
    destruct (String.eqb_spec l' l) as [->|N]; [|exact L0].
    exfalso. apply Dl. apply list_elem_of_fmap. exists (l, f'). auto.
Qed.

Lemma date_to_text_coerced (pd : pandas) (x : value) :
  is_ok (date_to_text (coerce_cell pd x)) = true.
Proof.
  destruct x as [s|l]; cbn [coerce_cell]; [|reflexivity].
  destruct (isna s); [reflexivity|].
  destruct (parse_datetime pd s); reflexivity.
Qed.

(** The list cells of the cleaned table are lists, or the cells of the page
    that were no strings. *)
Lemma list_to_pipe_string_extracted (x : value) :
  x <> VScalar SNA ->
  is_ok (list_to_pipe_string (extract_parties (remove_footnotes x))) = true
  /\ is_ok (list_to_pipe_string (extract_election_dates x)) = true
  /\ is_ok (list_to_pipe_string (extract_vice_presidents (remove_footnotes x))) = true.
Proof.
  assert (L : forall l, is_ok (list_to_pipe_string (VList l)) = true).
  { intros [|i l]; reflexivity. }
  intros N. destruct x as [s|l].
  - destruct s as [t|z| | | | | |];
      cbn [remove_footnotes extract_parties extract_election_dates
           extract_vice_presidents];
      try (repeat split; first [apply L|reflexivity]).
    + destruct z; repeat split; reflexivity.
    + contradiction.
  - cbn [remove_footnotes extract_parties extract_election_dates
         extract_vice_presidents]. repeat split; apply L.
Qed.

Lemma save_cleaned_table (pd : pandas) (c0 c2 c3 c5 c6 c7 : list value) :
  Forall (fun c => VScalar SNA ∉ c) [c5; c6; c7] ->
  exists f, save_frame pd (cleaned_table pd c0 c2 c3 c5 c6 c7) = Ok f.
Proof.
  intros H.
  apply Forall_cons_1 in H as [H5 H].
  apply Forall_cons_1 in H as [H6 H].
  apply Forall_cons_1 in H as [H7 _].
  assert (C : forall (c : list value) (g : value -> value),
              VScalar SNA ∉ c ->
              (forall x, x <> VScalar SNA -> is_ok (list_to_pipe_string (g x)) = true) ->
              Forall (fun v => is_ok (list_to_pipe_string v) = true) (map g c)).
  { intros c g Hc Hg. apply Forall_fmap. apply Forall_forall. intros x Hx.
    apply Hg. intros ->. contradiction. }
  destruct (run_col_steps_ok SAVE_SPEC (cleaned_table pd c0 c2 c3 c5 c6 c7))
    as [b R].
  - unfold SAVE_SPEC. cbn [map fst].
    apply (bool_decide_unpack _). vm_compute. exact I.
  - unfold SAVE_SPEC, cleaned_table.
    repeat apply List.Forall_cons; try apply List.Forall_nil; cbn [fst snd columns];
      (eexists; split; [reflexivity|]).
    + apply Forall_fmap, Forall_forall. intros x _. apply date_to_text_coerced.
    + apply Forall_fmap, Forall_forall. intros x _. apply date_to_text_coerced.
    + apply (C c5 (fun x => extract_parties (remove_footnotes x)) H5).
      intros x N. apply (list_to_pipe_string_extracted x N).
    + apply (C c6 extract_election_dates H6).
      intros x N. apply (list_to_pipe_string_extracted x N).
    + apply (C c7 (fun x => extract_vice_presidents (remove_footnotes x)) H7).
      intros x N. apply (list_to_pipe_string_extracted x N).
  - unfold save_frame. rewrite prepare_frame_spec, R. cbn [rbind]. eauto.
Qed.

(** X18: a table [clean_presidents_df] returns can be saved: when no cell
    of the page is [pd.NA] (a page read by [read_html] holds [NaN] for what
    is missing), [save_csv] on the cleaned table returns, with the file
    written at the output path and no other file touched. *)
Theorem cleaned_table_can_be_saved (pd : pandas) (w w' : world) (r l : loc)
  (raw : frame) (filename : string) (output : option string) :
  frames w !! r = Some raw ->
  Forall (fun c => VScalar SNA ∉ c) (map snd (columns raw)) ->
  clean_presidents_df pd r w = (Ok l, w') ->
  exists (T : frame) (f : csv) (w'' : world),
    frames w' !! l = Some T
    /\ save_frame pd T = Ok f
    /\ save_csv pd l filename output w' = (Ok tt, w'')
    /\ files w'' = <[build_path filename output := f]> (files w).
Proof.
  intros R N H.
  apply clean_presidents_df_returns in H as (raw' & T & R' & C & F & G).
  rewrite R in R'. injection R' as <-.
  pose proof (clean_frame_result pd raw) as S. rewrite C in S.
  destruct S as (c0 & c2 & c3 & c5 & c6 & c7 & -> & _ & _ & Sub).
  destruct (save_cleaned_table pd c0 c2 c3 c5 c6 c7) as [f Sf].
  { rewrite Forall_forall in N.
    repeat apply List.Forall_cons; try apply List.Forall_nil; apply N;
      (eapply elem_of_sublist; [|exact Sub]); apply list_elem_of_In;
      cbn [In]; auto 10. }
  pose proof (save_csv_value pd w' l _ filename output F) as V.
  rewrite Sf in V. destruct V as (w'' & E & Fw).
  exists (cleaned_table pd c0 c2 c3 c5 c6 c7), f, w''.
  repeat split; auto. rewrite Fw, G. reflexivity.
Qed.

Lemma cleaned_table_can_be_saved_witness :
  frames world_example !! 1%positive = Some raw_example
  /\ Forall (fun c => VScalar SNA ∉ c) (map snd (columns raw_example))
  /\ exists (l : loc) (w' : world) (f : csv) (w'' : world),
       clean_presidents_df pandas_ref 1%positive world_example = (Ok l, w')
       /\ save_csv pandas_ref l "us_presidents_cleaned" None w' = (Ok tt, w'')
       /\ files w'' !! "us_presidents_cleaned.csv"%string = Some f.
Proof.
  assert (H : frames world_example !! 1%positive = Some raw_example)
    by reflexivity.
  assert (N : Forall (fun c => VScalar SNA ∉ c) (map snd (columns raw_example))).
  { apply (bool_decide_unpack _). vm_compute. exact I. }
  split; [exact H|]. split; [exact N|].
  destruct (clean_presidents_df pandas_ref 1%positive world_example)
    as [[l|e] w'] eqn:E.
  - destruct (cleaned_table_can_be_saved pandas_ref world_example w' 1%positive l
                raw_example "us_presidents_cleaned" None H N E)
      as (T & f & w'' & _ & _ & S & F).
    exists l, w', f, w''. split; [reflexivity|]. split; [exact S|].
    rewrite F. apply lookup_insert_eq.
  - vm_compute in E. discriminate E.
Defined.

(** ** Loading *)

Lemma files_updates (l : loc) (steps : list (frame -> result frame)) (w : world) :
  files (snd (updates l steps w)) = files w.
Proof.
  revert w. induction steps as [|step steps IH]; intros w; [reflexivity|].
  cbn [updates]. unfold bind, update.
  destruct (frames w !! l) as [df|]; [|reflexivity].
  destruct (step df) as [df'|e]; [|reflexivity].
  rewrite IH. reflexivity.
Qed.

Lemma files_load_csv (pd : pandas) (path : string) (w : world) :
  files (snd (load_csv pd path w)) = files w.
Proof.
  unfold load_csv, bind, read_file, alloc.
  destruct (files w !! path) as [f|]; [|reflexivity].
  match goal with
  | |- context [updates ?l ?s ?w1] =>
      pose proof (files_updates l s w1) as U; destruct (updates l s w1) as [[[]|e] w2]
  end; cbn [snd] in U; cbn [snd ret]; exact U.
Qed.

Lemma keeps_load_csv (m0 : gmap loc frame) (pd : pandas) (path : string) :
  keeps m0 (load_csv pd path) (fun l => m0 !! l = None).
Proof.
  unfold load_csv.
  eapply keeps_bind; [apply keeps_read_file|]. intros f _.
  eapply keeps_bind; [apply keeps_alloc|]. intros df Hdf.
  eapply keeps_bind; [apply (keeps_updates m0 df _ Hdf)|]. intros _ _.
  apply keeps_ret. exact Hdf.
Qed.

Lemma load_csv_returns (pd : pandas) (w w' : world) (path : string) (l : loc) :
  load_csv pd path w = (Ok l, w') ->
  exists f T, files w !! path = Some f /\ load_frame pd f = Ok T
              /\ frames w' !! l = Some T.
Proof.
  intros H. destruct (files w !! path) as [f|] eqn:F.
  - pose proof (load_csv_value pd w path f F) as V.
    destruct (load_frame pd f) as [T|e] eqn:L.
    + destruct V as (l0 & w0 & E & G). rewrite E in H. injection H as <- <-.
      exists f, T. auto.
    + destruct V as (w0 & E). rewrite E in H. discriminate.
  - unfold load_csv, bind, read_file in H. rewrite F in H. discriminate.
Qed.

Lemma load_csv_raises (pd : pandas) (w : world) (path : string) (f : csv) :
  files w !! path = Some f ->
  is_ok (load_frame pd f) = false ->
  exists e, fst (load_csv pd path w) = Raise e.
Proof.
  intros F H. pose proof (load_csv_value pd w path f F) as V.
  destruct (load_frame pd f) as [T|e]; [discriminate H|].
  destruct V as (w0 & E). rewrite E. exists e. reflexivity.
Qed.

(** X19: [load_csv] writes no file and leaves every table there was as it
    is; the table it returns is a new one; and when there is no file at the
    path it raises [FileNotFoundError] with nothing changed. *)
Theorem load_csv_effect (pd : pandas) (path : string) (w : world) :
  files (snd (load_csv pd path w)) = files w
  /\ frames w ⊆ frames (snd (load_csv pd path w))
  /\ (forall l, fst (load_csv pd path w) = Ok l -> frames w !! l = None)
  /\ (files w !! path = None ->
      load_csv pd path w = (Raise FileNotFoundError, w)).
Proof.
  split; [apply files_load_csv|].
  destruct (keeps_load_csv (frames w) pd path w) as [K1 K2]; [done|].
  split; [exact K1|]. split.
  - intros l H. rewrite H in K2. exact K2.
  - intros H. unfold load_csv, bind, read_file. rewrite H. reflexivity.
Qed.

Lemma load_csv_effect_witness :
  files world_example !! "my.repo"%string = None
  /\ load_csv pandas_ref "my.repo" world_example
     = (Raise FileNotFoundError, world_example).
Proof.
  split; [reflexivity|].
  apply (load_csv_effect pandas_ref "my.repo" world_example). reflexivity.
Defined.

(** X20: [load_csv] needs the eight columns: on a file that lacks one of
    them it raises. *)
Theorem load_csv_needs_columns (pd : pandas) (w : world) (path : string)
  (f : csv) (col : string) :
  files w !! path = Some f ->
  In col CLEAN_NAMES ->
  lookup_col col (csv_columns f) = None ->
  exists e, fst (load_csv pd path w) = Raise e.
Proof.
  intros F Hin Hc. apply (load_csv_raises pd w path f F).
  unfold load_frame. rewrite restore_frame_spec.
  destruct (run_steps (col_steps (LOAD_SPEC pd)) (read_csv pd f)) as [T|e] eqn:R;
    [exfalso|reflexivity].
  apply run_col_steps in R as (_ & _ & S & _).
  pose proof (lookup_read_csv pd col f) as L. rewrite Hc in L.
  cbn [option_map] in L. apply lookup_col_labels in L. apply L.
  assert (S' : Forall (fun l => l ∈ labels (read_csv pd f))
                 (map fst (LOAD_SPEC pd)))
    by (apply Forall_fmap; exact S).
  rewrite Forall_forall in S'. apply S'. apply list_elem_of_In.
  cbn [LOAD_SPEC map fst]. cbn [CLEAN_NAMES In] in Hin. cbn [In].
  intuition.
Qed.

Lemma load_csv_needs_columns_witness :
  exists e,
    fst (load_csv pandas_ref "my.repo"
           (mkWorld ∅ {[ "my.repo"%string := mkCsv [] [] ]})) = Raise e.
Proof.
  apply (load_csv_needs_columns pandas_ref
           (mkWorld ∅ {[ "my.repo"%string := mkCsv [] [] ]})
           "my.repo" (mkCsv [] []) "name").
  - reflexivity.
  - cbn. auto.
  - reflexivity.
Defined.

Lemma Forall2_elem_l {A B} (P : A -> B -> Prop) (l : list A) (k : list B) (x : A) :
  Forall2 P l k -> x ∈ l -> exists y, y ∈ k /\ P x y.
Proof.
  induction 1 as [|a b l k Hab _ IH]; intros Hx.
  - inversion Hx.
  - apply elem_of_cons in Hx as [->|Hx].
    + exists b. split; [left|exact Hab].
    + destruct (IH Hx) as (y & Hy & Py). exists y. split; [right; exact Hy|exact Py].
Qed.

Lemma Forall2_elem_r {A B} (P : A -> B -> Prop) (l : list A) (k : list B) (y : B) :
  Forall2 P l k -> y ∈ k -> exists x, x ∈ l /\ P x y.
Proof.
  induction 1 as [|a b l k Hab _ IH]; intros Hy.
  - inversion Hy.
  - apply elem_of_cons in Hy as [->|Hy].
    + exists a. split; [left|exact Hab].
    + destruct (IH Hy) as (x & Hx & Px). exists x. split; [right; exact Hx|exact Px].
Qed.

(** The cells of a column of the table [load_csv] returns: the cells read
    in the file, each through the functions applied to the column. *)
Lemma load_frame_column (pd : pandas) (f : csv) (T : frame) (col : string)
  (c : list pystr) :
  load_frame pd f = Ok T ->
  lookup_col col (csv_columns f) = Some c ->
  exists c', lookup_col col (columns T) = Some c'
             /\ Forall2 (fun v v' => cell_through (LOAD_SPEC pd) col v = Ok v')
                  (read_column pd c) c'.
Proof.
  unfold load_frame. rewrite restore_frame_spec. intros R L.
  apply run_col_steps in R as (_ & _ & _ & R).
  destruct (R col (read_column pd c)) as (c' & A & B).
  { rewrite lookup_read_csv, L. reflexivity. }
  exists c'. split; [exact A|]. apply apply_cells_all_ok. exact B.
Qed.

(** X21: a file whose election column pandas reads as numbers (each
    president with one election year at most) cannot be loaded: the cells
    are numbers where [load_csv] iterates over lists, and it raises. *)
Theorem load_csv_numeric_election (pd : pandas) (w : world) (path : string)
  (f : csv) (c : list pystr) (t : pystr) (s : scalar) :
  files w !! path = Some f ->
  lookup_col "election" (csv_columns f) = Some c ->
  numeric_column pd c = true ->
  t ∈ c -> na_text pd t = false ->
  infer_cell pd t = Some s -> isna s = false -> is_str (VScalar s) = false ->
  exists e, fst (load_csv pd path w) = Raise e.
Proof.
  intros F L Hn Ht Hna Hi Hs Hstr. apply (load_csv_raises pd w path f F).
  destruct (load_frame pd f) as [T|e] eqn:R; [exfalso|reflexivity].
  destruct (load_frame_column pd f T "election" c R L) as (c' & _ & H).
  assert (Hv : VScalar s ∈ read_column pd c).
  { unfold read_column. apply list_elem_of_fmap. exists t. split; [|exact Ht].
    unfold read_cell. rewrite Hna, Hn, Hi. reflexivity. }
  destruct (Forall2_elem_l _ _ _ _ H Hv) as (v' & _ & E).
  unfold cell_through, LOAD_SPEC in E.
  cbn [fold_left fst snd String.eqb Ascii.eqb Bool.eqb rbind restore_list] in E.
  unfold pipe_string_to_list in E. rewrite Hs in E.
  destruct s; try discriminate Hstr; discriminate E.
Qed.

Lemma load_csv_numeric_election_witness :
  lookup_col "election" (csv_columns (csv_of_rows rows_single_election))
  = Some [py "2020"]
  /\ numeric_column pandas_ref [py "2020"] = true
  /\ infer_cell pandas_ref (py "2020") = Some (SInt 2020)
  /\ exists e,
       fst (load_csv pandas_ref "my.repo"
              (mkWorld ∅ {[ "my.repo"%string := csv_of_rows rows_single_election ]}))
       = Raise e.
Proof.
  assert (L : lookup_col "election" (csv_columns (csv_of_rows rows_single_election))
              = Some [py "2020"]) by (vm_compute; reflexivity).
  assert (N : numeric_column pandas_ref [py "2020"] = true)
    by (vm_compute; reflexivity).
  assert (C : infer_cell pandas_ref (py "2020") = Some (SInt 2020))
    by (vm_compute; reflexivity).
  split; [exact L|]. split; [exact N|]. split; [exact C|].
  apply (load_csv_numeric_election pandas_ref
           (mkWorld ∅ {[ "my.repo"%string := csv_of_rows rows_single_election ]})
           "my.repo" (csv_of_rows rows_single_election)
           [py "2020"] (py "2020") (SInt 2020)).
  - reflexivity.
  - exact L.
  - exact N.
  - left.
  - vm_compute. reflexivity.
  - exact C.
  - reflexivity.
  - reflexivity.
Defined.

Lemma int_items_not_text (ps l : list item) :
  apply_cells int_item ps = Ok l ->
  Forall not_text l /\ length l = length ps.
Proof.
  intros H. apply apply_cells_all_ok in H.
  induction H as [|x y ps l Hxy _ [IH1 IH2]]; [split; [constructor|reflexivity]|].
  split; [|cbn [length]; rewrite IH2; reflexivity].
  constructor; [|exact IH1].
  destruct x as [s|z|]; cbn [int_item] in Hxy.
  - destruct (py_int s); [|discriminate]. injection Hxy as <-. exact I.
  - injection Hxy as <-. exact I.
  - injection Hxy as <-. exact I.
Qed.

(** What [load_csv] makes of a cell of the election column, when it does
    not raise. *)
Lemma restore_election_value (v v' : value) :
  rbind (restore_list v) restore_ints = Ok v' -> election_value v'.
Proof.
  destruct v as [s|l]; cbn [restore_list rbind]; [|discriminate].
  assert (L : forall ps, ps <> [] ->
                restore_ints (VList ps) = Ok v' -> election_value v').
  { intros ps Hps. cbn [restore_ints].
    destruct (apply_cells int_item ps) as [l|e] eqn:E; cbn [rbind]; [|discriminate].
    intros H. injection H as <-. apply int_items_not_text in E as [E1 E2].
    split; [|exact E1]. intros ->. destruct ps; [contradiction|discriminate E2]. }
  unfold pipe_string_to_list. destruct (isna s) eqn:Na.
  - apply L. discriminate.
  - destruct s as [t|z| | | | | |]; try discriminate.
    apply L. intros H. apply map_eq_nil in H.
    apply (split_char_go_nonnil PIPE [] t). exact H.
Qed.

(** X22: whenever [load_csv] returns, the table it returns has the columns
    of the file, in their order; its names are strings or nulls, its birth
    and death years integers or nulls, its dates [Timestamp]s or [NaT], and
    each cell of its election column is a list, not empty, of integers and
    nulls. *)
Theorem load_csv_typed (pd : pandas) (w w' : world) (path : string) (l : loc) :
  load_csv pd path w = (Ok l, w') ->
  exists (f : csv) (T : frame) (n b d ts te e : list value),
    files w !! path = Some f
    /\ frames w' !! l = Some T
    /\ labels T = map fst (csv_columns f)
    /\ lookup_col "name" (columns T) = Some n
    /\ lookup_col "birth" (columns T) = Some b
    /\ lookup_col "death" (columns T) = Some d
    /\ lookup_col "term_start" (columns T) = Some ts
    /\ lookup_col "term_end" (columns T) = Some te
    /\ lookup_col "election" (columns T) = Some e
    /\ forallb name_value n = true
    /\ forallb int_value b = true /\ forallb int_value d = true
    /\ forallb date_value ts = true /\ forallb date_value te = true
    /\ Forall election_value e.
Proof.
  intros H. apply load_csv_returns in H as (f & T & F & L & G).
  assert (C : forall col (P : value -> Prop),
              col ∈ map fst (LOAD_SPEC pd) ->
              (forall v v', cell_through (LOAD_SPEC pd) col v = Ok v' -> P v') ->
              exists c, lookup_col col (columns T) = Some c /\ Forall P c).
  { intros col P Hin HP. pose proof L as R.
    unfold load_frame in R. rewrite restore_frame_spec in R.
    apply run_col_steps in R as (_ & _ & S & _).
    assert (S' : Forall (fun l => l ∈ labels (read_csv pd f))
                   (map fst (LOAD_SPEC pd)))
      by (apply Forall_fmap; exact S).
    rewrite Forall_forall in S'. specialize (S' col Hin).
    destruct (lookup_col col (csv_columns f)) as [c|] eqn:Lc.
    - destruct (load_frame_column pd f T col c L Lc) as (c' & A & B).
      exists c'. split; [exact A|]. apply Forall_forall. intros v' Hv'.
      destruct (Forall2_elem_r _ _ _ _ B Hv') as (v & _ & E).
      apply (HP v v' E).
    - exfalso. pose proof (lookup_read_csv pd col f) as L0. rewrite Lc in L0.
      cbn [option_map] in L0. apply lookup_col_labels in L0. contradiction. }
  assert (B : forall (p : value -> bool) c,
              Forall (fun v => p v = true) c -> forallb p c = true).
  { intros p c Hc. apply forallb_forall. intros v Hv.
    rewrite Forall_forall in Hc. apply Hc. apply list_elem_of_In. exact Hv. }
  destruct (C "name"%string (fun v => name_value v = true)) as (n & Ln & Hn).
  { apply list_elem_of_In. cbn. auto 10. }
  { intros v v'. unfold cell_through, LOAD_SPEC.
    cbn [fold_left fst snd String.eqb Ascii.eqb Bool.eqb rbind].
    destruct v as [[]|]; cbn [astype_string]; intros E;
      try discriminate E; injection E as <-; reflexivity. }
  assert (I64 : forall v v', astype_Int64 v = Ok v' -> int_value v' = true).
  { intros v v'. destruct v as [[s|z| | | | | |]|]; cbn [astype_Int64];
      try destruct (py_int s); intros E;
      try discriminate E; injection E as <-; reflexivity. }
  destruct (C "birth"%string (fun v => int_value v = true)) as (b & Lb & Hb).
  { apply list_elem_of_In. cbn. auto 10. }
  { intros v v'. unfold cell_through, LOAD_SPEC.
    cbn [fold_left fst snd String.eqb Ascii.eqb Bool.eqb rbind]. apply I64. }
  destruct (C "death"%string (fun v => int_value v = true)) as (d & Ld & Hd).
  { apply list_elem_of_In. cbn. auto 10. }
  { intros v v'. unfold cell_through, LOAD_SPEC.
    cbn [fold_left fst snd String.eqb Ascii.eqb Bool.eqb rbind]. apply I64. }
  assert (DT : forall v v', to_datetime pd ErrorsCoerce v = Ok v' ->
                 date_value v' = true).
  { intros v v'. rewrite to_datetime_coerce. intros E. injection E as <-.
    apply coerce_cell_date. }
  destruct (C "term_start"%string (fun v => date_value v = true)) as (ts & Lts & Hts).
  { apply list_elem_of_In. cbn. auto 10. }
  { intros v v'. unfold cell_through, LOAD_SPEC.
    cbn [fold_left fst snd String.eqb Ascii.eqb Bool.eqb rbind]. apply DT. }
  destruct (C "term_end"%string (fun v => date_value v = true)) as (te & Lte & Hte).
  { apply list_elem_of_In. cbn. auto 10. }
  { intros v v'. unfold cell_through, LOAD_SPEC.
    cbn [fold_left fst snd String.eqb Ascii.eqb Bool.eqb rbind]. apply DT. }
  destruct (C "election"%string election_value) as (e & Le & He).
  { apply list_elem_of_In. cbn. auto 10. }
  { intros v v'. unfold cell_through, LOAD_SPEC.
    cbn [fold_left fst snd String.eqb Ascii.eqb Bool.eqb].
    change (rbind (Ok v) restore_list) with (restore_list v).
    apply restore_election_value. }
  exists f, T, n, b, d, ts, te, e.
  split; [exact F|]. split; [exact G|]. split.
  { unfold load_frame in L. rewrite restore_frame_spec in L.
    apply run_col_steps in L as (L1 & _). rewrite L1.
    unfold labels, read_csv. cbn [columns]. rewrite map_map. reflexivity. }
  repeat split; auto.
Qed.

Lemma load_csv_typed_witness :
  exists (l : loc) (w' : world) (T : frame),
    load_csv pandas_ref "my.repo"
      (mkWorld ∅ {[ "my.repo"%string := csv_of_rows rows_example ]}) = (Ok l, w')
    /\ frames w' !! l = Some T
    /\ labels T = CLEAN_NAMES.
Proof.
  destruct (load_csv pandas_ref "my.repo"
              (mkWorld ∅ {[ "my.repo"%string := csv_of_rows rows_example ]}))
    as [[l|e] w'] eqn:E.
  - destruct (load_csv_typed pandas_ref _ w' "my.repo" l E)
      as (f & T & n & b & d & ts & te & el & F & G & L & _).
    exists l, w', T. split; [reflexivity|]. split; [exact G|].
    rewrite L. vm_compute in F. injection F as <-. reflexivity.
  - vm_compute in E. discriminate E.
Defined.

(** ** Access to the dataset *)

Lemma files_clean_presidents_df (pd : pandas) (r : loc) (w : world) :
  files (snd (clean_presidents_df pd r w)) = files w.
Proof.
  destruct (frames w !! r) as [raw|] eqn:R.
  - pose proof (clean_presidents_df_value pd w r raw R) as V.
    destruct (clean_frame pd raw) as [T|e].
    + destruct V as (l & w' & E & _ & F). rewrite E. exact F.
    + destruct V as (w' & E & F). rewrite E. exact F.
  - unfold clean_presidents_df, df_copy, bind, deref. rewrite R. reflexivity.
Qed.

Lemma save_csv_returns (pd : pandas) (w w' : world) (l : loc)
  (filename : string) (output : option string) :
  save_csv pd l filename output w = (Ok tt, w') ->
  exists T f, frames w !! l = Some T /\ frames w' !! l = Some T
              /\ save_frame pd T = Ok f
              /\ files w' = <[build_path filename output := f]> (files w).
Proof.
  intros H. destruct (frames w !! l) as [T|] eqn:R.
  - pose proof (save_csv_value pd w l T filename output R) as V.
    destruct (save_frame pd T) as [f|e] eqn:S.
    + destruct V as (w0 & E & F). rewrite E in H. injection H as <-.
      exists T, f. repeat split; auto.
      destruct (keeps_save_csv (frames w) pd l filename output w) as [K _]; [done|].
      rewrite E in K. cbn [snd] in K.
      rewrite map_subseteq_spec in K. apply K. exact R.
    + destruct V as (w0 & E & _). rewrite E in H. discriminate.
  - unfold save_csv, df_copy, bind, deref in H. rewrite R in H. discriminate.
Qed.

Lemma save_csv_raises_files (pd : pandas) (w : world) (l : loc)
  (filename : string) (output : option string) (e : exn) :
  fst (save_csv pd l filename output w) = Raise e ->
  files (snd (save_csv pd l filename output w)) = files w.
Proof.
  intros H. destruct (frames w !! l) as [T|] eqn:R.
  - pose proof (save_csv_value pd w l T filename output R) as V.
    destruct (save_frame pd T) as [f|e'].
    + destruct V as (w0 & E & _). rewrite E in H. discriminate.
    + destruct V as (w0 & E & F). rewrite E. exact F.
  - unfold save_csv, df_copy, bind, deref. rewrite R. reflexivity.
Qed.

Lemma keeps_try_except {A} (m0 : gmap loc frame) (body : M A)
  (handler : exn -> M A) (post : A -> Prop) :
  keeps m0 body post -> (forall e, keeps m0 (handler e) post) ->
  keeps m0 (try_except body handler) post.
Proof.
  intros Hb Hh w Hw. unfold try_except.
  destruct (Hb w Hw) as [H1 H2].
  destruct (body w) as [[a|e] w1]; cbn [fst snd] in *.
  - split; assumption.
  - apply (Hh e w1 H1).
Qed.

Lemma keeps_save_if (m0 : gmap loc frame) (pd : pandas) (save : bool) (df : loc)
  (dataset_name : string) (output : option string) :
  keeps m0 (save_if pd save df dataset_name output) (fun _ => True).
Proof.
  destruct save; cbn [save_if].
  - apply keeps_save_csv.
  - apply keeps_ret. exact I.
Qed.

Lemma keeps_scrape (m0 : gmap loc frame) (pd : pandas)
  (page : result (list frame)) (save : bool) (dataset_name : string)
  (output : option string) :
  keeps m0 (scrape pd page save dataset_name output) (fun l => m0 !! l = None).
Proof.
  unfold scrape. destruct page as [[|table tables]|e]; try apply keeps_raise.
  eapply keeps_bind; [apply keeps_alloc|]. intros df_raw _.
  eapply keeps_bind; [apply keeps_clean_presidents_df_new|]. intros df_clean N.
  eapply keeps_bind; [apply keeps_save_if|]. intros _ _.
  apply keeps_ret. exact N.
Qed.

Lemma keeps_fetch (m0 : gmap loc frame) (pd : pandas)
  (page : result (list frame)) (update save : bool) (dataset_name : string)
  (output : option string) :
  keeps m0 (fetch pd page update save dataset_name output)
    (fun l => m0 !! l = None).
Proof.
  unfold fetch. destruct update; cbn [negb]; [apply keeps_scrape|].
  apply keeps_try_except; [|intros e; apply keeps_scrape].
  eapply keeps_bind; [apply keeps_load_csv|]. intros df N.
  eapply keeps_bind; [apply keeps_save_if|]. intros _ _.
  apply keeps_ret. exact N.
Qed.

(** X23: whatever the arguments and whatever happens, [fetch] leaves every
    table there was as it is, and the table it returns is a new one. *)
Theorem fetch_frame_effect (pd : pandas) (page : result (list frame))
  (update save : bool) (dataset_name : string) (output : option string)
  (w : world) :
  frames w ⊆ frames (snd (fetch pd page update save dataset_name output w))
  /\ forall l, fst (fetch pd page update save dataset_name output w) = Ok l ->
               frames w !! l = None.
Proof.
  destruct (keeps_fetch (frames w) pd page update save dataset_name output w)
    as [K1 K2]; [done|].
  split; [exact K1|]. intros l H. rewrite H in K2. exact K2.
Qed.

Lemma fetch_frame_effect_witness :
  exists (l : loc) (w' : world),
    fetch pandas_ref (Ok [raw_example]) true false "us_presidents_cleaned" None
      world_example = (Ok l, w')
    /\ frames world_example !! l = None.
Proof.
  destruct (fetch pandas_ref (Ok [raw_example]) true false
              "us_presidents_cleaned" None world_example) as [[l|e] w'] eqn:E.
  - exists l, w'. split; [reflexivity|].
    apply (proj2 (fetch_frame_effect pandas_ref (Ok [raw_example]) true false
                    "us_presidents_cleaned" None world_example)).
    rewrite E. reflexivity.
  - vm_compute in E. discriminate E.
Defined.

Lemma files_scrape_no_save (pd : pandas) (page : result (list frame))
  (dataset_name : string) (output : option string) (w : world) :
  files (snd (scrape pd page false dataset_name output w)) = files w.
Proof.
  unfold scrape. destruct page as [[|table tables]|e]; try reflexivity.
  unfold bind, alloc. cbn [save_if].
  match goal with
  | |- context [clean_presidents_df pd ?r ?w1] =>
      pose proof (files_clean_presidents_df pd r w1) as C;
      destruct (clean_presidents_df pd r w1) as [[l|e] w2]
  end; cbn [snd files ret] in *; exact C.
Qed.

(** X24: without [save], [fetch] writes no file, whether it loads the
    frozen dataset, falls back to the page, or raises. *)
Theorem fetch_without_save_writes_nothing (pd : pandas)
  (page : result (list frame)) (update : bool) (dataset_name : string)
  (output : option string) (w : world) :
  files (snd (fetch pd page update false dataset_name output w)) = files w.
Proof.
  unfold fetch. destruct update; cbn [negb]; [apply files_scrape_no_save|].
  unfold try_except, bind. cbn [save_if].
  pose proof (files_load_csv pd FROZEN_CSV_URL w) as L.
  destruct (load_csv pd FROZEN_CSV_URL w) as [[l|e] w1]; cbn [snd ret] in *.
  - exact L.
  - rewrite files_scrape_no_save. exact L.
Qed.

(** X25: when there is no frozen dataset to load, [fetch] does what it does
    with [update=True]: the failed attempt leaves nothing behind. *)
Theorem fetch_falls_back (pd : pandas) (page : result (list frame))
  (save : bool) (dataset_name : string) (output : option string) (w : world) :
  files w !! FROZEN_CSV_URL = None ->
  fetch pd page false save dataset_name output w
  = fetch pd page true save dataset_name output w.
Proof.
  intros H. unfold fetch. cbn [negb]. unfold try_except, bind at 1.
  unfold load_csv, bind at 1, read_file. rewrite H. reflexivity.
Qed.

Lemma fetch_falls_back_witness :
  files world_example !! FROZEN_CSV_URL = None
  /\ exists (l : loc) (w' : world),
       fetch pandas_ref (Ok [raw_example]) false false "us_presidents_cleaned"
         None world_example = (Ok l, w')
       /\ frames w' !! l = Some (frame_of_rows rows_example).
Proof.
  split; [reflexivity|].
  rewrite (fetch_falls_back pandas_ref (Ok [raw_example]) false
             "us_presidents_cleaned" None world_example eq_refl).
  eexists _, _. split; [vm_compute; reflexivity|]. vm_compute. reflexivity.
Defined.

(** X26: when the frozen dataset is there and loads, and can be saved if
    [save] is set, [fetch] without [update] returns it as [load_csv] reads
    it, whatever the page holds: the page is not read. *)
Theorem fetch_frozen (pd : pandas) (save : bool) (dataset_name : string)
  (output : option string) (w : world) (f : csv) (T : frame) :
  files w !! FROZEN_CSV_URL = Some f ->
  load_frame pd f = Ok T ->
  (save = true -> is_ok (save_frame pd T) = true) ->
  exists (l : loc) (w' : world),
    (forall page, fetch pd page false save dataset_name output w = (Ok l, w'))
    /\ frames w' !! l = Some T
    /\ (save = false -> files w' = files w).
Proof.
  intros F L S. pose proof (load_csv_value pd w FROZEN_CSV_URL f F) as V.
  rewrite L in V. destruct V as (l & w1 & E & G).
  pose proof (files_load_csv pd FROZEN_CSV_URL w) as Fl. rewrite E in Fl.
  cbn [snd] in Fl.
  destruct save; cbn [save_if].
  - pose proof (save_csv_value pd w1 l T dataset_name output G) as V.
    destruct (save_frame pd T) as [c|e] eqn:Sf; [|discriminate (S eq_refl)].
    destruct V as (w2 & E2 & F2).
    exists l, w2. split; [|split; [|discriminate]].
    + intros page. unfold fetch. cbn [negb save_if].
      unfold try_except, bind at 1. rewrite E. unfold bind. rewrite E2.
      reflexivity.
    + destruct (save_csv_returns pd w1 w2 l dataset_name output E2)
        as (T' & f' & A & B & _).
      rewrite G in A. injection A as <-. exact B.
  - exists l, w1. split; [|split; [exact G|intros _; exact Fl]].
    intros page. unfold fetch. cbn [negb save_if].
    unfold try_except, bind at 1. rewrite E. reflexivity.
Qed.

Lemma fetch_frozen_witness :
  exists (l : loc) (w' : world),
    (forall page,
       fetch pandas_ref page false true "us_presidents_cleaned" None
         (mkWorld ∅ {[ FROZEN_CSV_URL := csv_of_rows rows_example ]})
       = (Ok l, w'))
    /\ frames w' !! l = Some (reloaded_frame (frame_of_rows rows_example)).
Proof.
  destruct (fetch_frozen pandas_ref true "us_presidents_cleaned" None
              (mkWorld ∅ {[ FROZEN_CSV_URL := csv_of_rows rows_example ]})
              (csv_of_rows rows_example)
              (reloaded_frame (frame_of_rows rows_example)))
    as (l & w' & A & B & _).
  - reflexivity.
  - vm_compute. reflexivity.
  - intros _. vm_compute. reflexivity.
  - exists l, w'. split; [exact A|exact B].
Defined.

Lemma scrape_saved (pd : pandas) (page : result (list frame))
  (dataset_name : string) (output : option string) (w w' : world) (l : loc) :
  scrape pd page true dataset_name output w = (Ok l, w') ->
  exists T f, frames w' !! l = Some T /\ save_frame pd T = Ok f
              /\ files w' = <[build_path dataset_name output := f]> (files w).
Proof.
  unfold scrape. destruct page as [[|table tables]|e]; try discriminate.
  unfold bind at 1. unfold alloc at 1. unfold bind at 1.
  match goal with
  | |- context [clean_presidents_df pd ?r ?w0] =>
      pose proof (files_clean_presidents_df pd r w0) as C;
      destruct (clean_presidents_df pd r w0) as [[df|e] w1]
  end; cbv beta iota; [|discriminate].
  cbn [snd] in C. cbn [save_if]. unfold bind.
  destruct (save_csv pd df dataset_name output w1) as [[[]|e] w2] eqn:S;
    cbv beta iota; [|discriminate].
  unfold ret. intros H. injection H as <- <-.
  destruct (save_csv_returns pd w1 w2 df dataset_name output S)
    as (T & f & _ & B & Sf & Fw).
  exists T, f. split; [exact B|]. split; [exact Sf|].
  rewrite Fw, C. reflexivity.
Qed.

(** X27: whenever [fetch] with [save] returns, the file at the output path
    holds the table it returns, prepared and written, and no other file
    has changed; this holds on the frozen dataset as on the page, also
    after a first attempt that failed. *)
Theorem fetch_saves_what_it_returns (pd : pandas) (page : result (list frame))
  (update : bool) (dataset_name : string) (output : option string)
  (w w' : world) (l : loc) :
  fetch pd page update true dataset_name output w = (Ok l, w') ->
  exists (T : frame) (f : csv),
    frames w' !! l = Some T
    /\ save_frame pd T = Ok f
    /\ files w' = <[build_path dataset_name output := f]> (files w).
Proof.
  unfold fetch. destruct update; cbn [negb]; [apply scrape_saved|].
  unfold try_except, bind at 1.
  pose proof (files_load_csv pd FROZEN_CSV_URL w) as Fl.
  destruct (load_csv pd FROZEN_CSV_URL w) as [[df|e] w1]; cbn [snd] in Fl;
    cbv beta iota.
  - cbn [save_if]. unfold bind.
    destruct (save_csv pd df dataset_name output w1) as [[[]|e] w2] eqn:S;
      cbv beta iota.
    + unfold ret. intros H. injection H as <- <-.
      destruct (save_csv_returns pd w1 w2 df dataset_name output S)
        as (T & f & _ & B & Sf & Fw).
      exists T, f. split; [exact B|]. split; [exact Sf|].
      rewrite Fw, Fl. reflexivity.
    + intros H. apply scrape_saved in H as (T & f & A & B & C).
      exists T, f. split; [exact A|]. split; [exact B|].
      rewrite C.
      pose proof (save_csv_raises_files pd w1 df dataset_name output e) as R.
      rewrite S in R. cbn [fst snd] in R. rewrite (R eq_refl), Fl. reflexivity.
  - intros H. apply scrape_saved in H as (T & f & A & B & C).
    exists T, f. split; [exact A|]. split; [exact B|].
    rewrite C, Fl. reflexivity.
Qed.

Lemma fetch_saves_what_it_returns_witness :
  exists (l : loc) (w' : world) (f : csv),
    fetch pandas_ref (Ok [raw_example]) false true "us_presidents_cleaned" None
      world_example = (Ok l, w')
    /\ files w' !! "us_presidents_cleaned.csv"%string = Some f.
Proof.
  destruct (fetch pandas_ref (Ok [raw_example]) false true
              "us_presidents_cleaned" None world_example) as [[l|e] w'] eqn:E.
  - destruct (fetch_saves_what_it_returns pandas_ref (Ok [raw_example]) false
                "us_presidents_cleaned" None world_example w' l E)
      as (T & f & _ & _ & F).
    exists l, w', f. split; [reflexivity|]. rewrite F. apply lookup_insert_eq.
  - vm_compute in E. discriminate E.
Defined.

(** The page, cleaned and saved. *)
Lemma scrape_outcome (pd : pandas) (page : result (list frame))
  (dataset_name : string) (output : option string) (w w' : world) (l : loc) :
  scrape pd page true dataset_name output w = (Ok l, w') ->
  exists table tables T f,
    page = Ok (table :: tables)
    /\ clean_frame pd table = Ok T
    /\ save_frame pd T = Ok f
    /\ frames w' !! l = Some T
    /\ files w' = <[build_path dataset_name output := f]> (files w).
Proof.
  intros H. pose proof H as H'.
  apply scrape_saved in H' as (T & f & A & B & C).
  unfold scrape in H. destruct page as [[|table tables]|e]; try discriminate H.
  exists table, tables, T, f. split; [reflexivity|].
  split; [|auto].
  unfold bind at 1 in H. unfold alloc at 1 in H. unfold bind at 1 in H.
  match type of H with
  | context [clean_presidents_df pd ?r ?w0] =>
      destruct (clean_presidents_df pd r w0) as [[df|e] w1] eqn:E
  end; cbv beta iota in H; [|discriminate H].
  apply clean_presidents_df_returns in E as (raw & T' & R & Cl & F & _).
  cbn [frames] in R. rewrite lookup_insert_eq in R. injection R as <-.
  cbn [save_if] in H. unfold bind in H.
  destruct (save_csv pd df dataset_name output w1) as [[[]|e] w2] eqn:S;
    cbv beta iota in H; [|discriminate H].
  unfold ret in H. injection H as <- <-.
  apply save_csv_returns in S as (T2 & f2 & S1 & S2 & _).
  rewrite F in S1. injection S1 as <-. rewrite S2 in A. injection A as <-.
  exact Cl.
Qed.

(** X28: the module run as a script returns exactly when the page has a
    first table that [clean_presidents_df] cleans and [save_csv] can
    prepare; the file [data/us_presidents_cleaned.csv] then holds that
    table, cleaned and written, and no other file has changed.  The frozen
    dataset plays no part. *)
Theorem script_writes_cleaned_page (pd : pandas) (page : result (list frame))
  (w : world) :
  (forall w', script pd page w = (Ok tt, w') ->
     exists table tables T f,
       page = Ok (table :: tables)
       /\ clean_frame pd table = Ok T
       /\ save_frame pd T = Ok f
       /\ files w' = <["data/us_presidents_cleaned.csv"%string := f]> (files w))
  /\ (forall table tables T f,
        page = Ok (table :: tables) ->
        clean_frame pd table = Ok T ->
        save_frame pd T = Ok f ->
        exists w', script pd page w = (Ok tt, w')
                   /\ files w' = <["data/us_presidents_cleaned.csv"%string := f]>
                                   (files w)).
Proof.
  split.
  - intros w' H. unfold script, bind, fetch in H. cbn [negb] in H.
    destruct (scrape pd page true "us_presidents_cleaned" (Some "data"%string) w)
      as [[l|e] w1] eqn:S; [|discriminate H].
    unfold ret in H. injection H as <-.
    apply scrape_outcome in S as (table & tables & T & f & A & B & C & _ & D).
    exists table, tables, T, f. auto.
  - intros table tables T f -> C S.
    unfold script, bind at 1, fetch. cbn [negb]. unfold scrape.
    unfold bind at 1. unfold alloc at 1. unfold bind at 1.
    match goal with
    | |- context [clean_presidents_df pd ?r ?w0] =>
        pose proof (clean_presidents_df_value pd w0 r table) as V
    end.
    cbn [frames files] in V. rewrite lookup_insert_eq in V.
    specialize (V eq_refl). rewrite C in V.
    destruct V as (l & w1 & E & F & G). rewrite E.
    cbn [save_if]. unfold bind.
    pose proof (save_csv_value pd w1 l T "us_presidents_cleaned"
                  (Some "data"%string) F) as V.
    rewrite S in V. destruct V as (w2 & E2 & F2). rewrite E2.
    exists w2. split; [reflexivity|]. rewrite F2, G. reflexivity.
Qed.

Lemma script_writes_cleaned_page_witness :
  exists (f : csv) (w' : world),
    clean_frame pandas_ref raw_example = Ok (frame_of_rows rows_example)
    /\ save_frame pandas_ref (frame_of_rows rows_example) = Ok f
    /\ script pandas_ref (Ok [raw_example]) world_example = (Ok tt, w')
    /\ files w' !! "data/us_presidents_cleaned.csv"%string = Some f.
Proof.
  assert (C : clean_frame pandas_ref raw_example = Ok (frame_of_rows rows_example))
    by (vm_compute; reflexivity).
  destruct (save_frame pandas_ref (frame_of_rows rows_example)) as [f|e] eqn:S;
    [|vm_compute in S; discriminate S].
  destruct (proj2 (script_writes_cleaned_page pandas_ref (Ok [raw_example])
                     world_example)
              raw_example [] (frame_of_rows rows_example) f eq_refl C S)
    as (w' & E & F).
  exists f, w'. split; [exact C|]. split; [reflexivity|]. split; [exact E|].
  rewrite F. apply lookup_insert_eq.
Defined.
